(** * chart-generator: the specification normalizer, the JSON extraction of
    the model bridge and the rendering engine, embedded in Rocq.

    The development follows the three service modules of the repository:
    - [services/llm_handler.py]: [extract_json_from_text] and
      [validate_and_enhance_spec];
    - [services/chart_generator.py]: [generate_chart] and the chart builders;
    - [services/data_handler.py]: [apply_filters].

    Conventions of the embedding.
    - A Python [str] is a [string]; case mapping and whitespace are the ASCII
      ones (code points above 127 are left alone by [lower] and are never
      whitespace), which are Python's on text in ASCII ([ascii_text]).
    - A JSON document is a [value].  A Python [dict] is an association list
      in insertion order: [str()] of a dict prints in that order.
    - An exception is an [exn]: its class and the fixed text of its message
      (the interpolated parts of the f-strings are left out). *)

From Stdlib Require Import ZArith QArith Qround Qminmax Qabs Ascii String List Bool Lia.
From Stdlib Require Import DecimalString Reals Qreals.
From stdpp Require Import base option list strings.

Open Scope string_scope.
Open Scope list_scope.
Open Scope Z_scope.

(** ** Characters and strings as Python treats them *)

Definition dquote : ascii := "034"%char.
Definition squote : ascii := "039"%char.
Definition backslash : ascii := "092"%char.
Definition newline : ascii := "010"%char.

(** [str.isspace] on one ASCII character: TAB..CR, FS..US and the blank. *)
Definition is_space (c : ascii) : bool :=
  let n := nat_of_ascii c in
  ((9 <=? n)%nat && (n <=? 13)%nat) || ((28 <=? n)%nat && (n <=? 32)%nat).

Definition is_upper (c : ascii) : bool :=
  let n := nat_of_ascii c in (65 <=? n)%nat && (n <=? 90)%nat.

Definition is_lower (c : ascii) : bool :=
  let n := nat_of_ascii c in (97 <=? n)%nat && (n <=? 122)%nat.

Definition lower_char (c : ascii) : ascii :=
  if is_upper c then ascii_of_nat (nat_of_ascii c + 32) else c.

Definition upper_char (c : ascii) : ascii :=
  if is_lower c then ascii_of_nat (nat_of_ascii c - 32) else c.

(** [s.lower()] *)
Fixpoint lower (s : string) : string :=
  match s with
  | EmptyString => EmptyString
  | String c r => String (lower_char c) (lower r)
  end.

(** [s.capitalize()]: first character upper-cased, the rest lower-cased. *)
Definition capitalize (s : string) : string :=
  match s with
  | EmptyString => EmptyString
  | String c r => String (upper_char c) (lower r)
  end.

Fixpoint lstrip (s : string) : string :=
  match s with
  | EmptyString => EmptyString
  | String c r => if is_space c then lstrip r else s
  end.

Definition is_empty (s : string) : bool :=
  match s with EmptyString => true | _ => false end.

Fixpoint rstrip (s : string) : string :=
  match s with
  | EmptyString => EmptyString
  | String c r =>
      let r' := rstrip r in
      if is_space c && is_empty r' then EmptyString else String c r'
  end.

(** [s.strip()] *)
Definition strip (s : string) : string := rstrip (lstrip s).



Fixpoint str_in (s : string) (l : list string) : bool :=
  match l with
  | [] => false
  | x :: r => String.eqb s x || str_in s r
  end.

Fixpoint char_in (c : ascii) (s : string) : bool :=
  match s with
  | EmptyString => false
  | String d r => Ascii.eqb c d || char_in c r
  end.

Fixpoint join (sep : string) (l : list string) : string :=
  match l with
  | [] => EmptyString
  | [x] => x
  | x :: r => x +:+ sep +:+ join sep r
  end.

(** ** JSON values, as [json.loads] builds them *)

(** A Python float: the text [repr] prints for it, which is never empty (its
    first character and the rest), and its value.  NaN and the infinities,
    which [json.loads] accepts as an extension, are not represented. *)
Record pyfloat := PyFloat { float_head : ascii; float_tail : string; float_val : Q }.

Definition float_repr (f : pyfloat) : string := String (float_head f) (float_tail f).

#[warnings="-register-all"] Inductive value : Type :=
| VNone
| VBool (b : bool)
| VInt (n : Z)
| VFloat (f : pyfloat)
| VStr (s : string)
| VList (l : list value)
| VDict (d : list (string * value)).

Definition pydict := list (string * value).


(** Truth value of an object in a condition. *)
Definition truthy (v : value) : bool :=
  match v with
  | VNone => false
  | VBool b => b
  | VInt n => negb (n =? 0)
  | VFloat f => negb (Qeq_bool (float_val f) 0)
  | VStr s => negb (is_empty s)
  | VList l => match l with [] => false | _ => true end
  | VDict d => match d with [] => false | _ => true end
  end.

(** [a or b] *)
Definition py_or (a b : value) : value := if truthy a then a else b.

Definition is_none (v : value) : bool :=
  match v with VNone => true | _ => false end.

(** [k in d] *)
Fixpoint key_in (k : string) (d : pydict) : bool :=
  match d with
  | [] => false
  | (k', _) :: r => String.eqb k k' || key_in k r
  end.

Fixpoint dict_lookup (k : string) (d : pydict) : option value :=
  match d with
  | [] => None
  | (k', v) :: r => if String.eqb k k' then Some v else dict_lookup k r
  end.

(** [d.get(k, dflt)] and [d.get(k)] *)
Definition get_default (d : pydict) (k : string) (dflt : value) : value :=
  match dict_lookup k d with Some v => v | None => dflt end.

Definition get (d : pydict) (k : string) : value := get_default d k VNone.

(** [d[k] = v]: an existing key keeps its position, a new one goes last. *)
Fixpoint setitem (d : pydict) (k : string) (v : value) : pydict :=
  match d with
  | [] => [(k, v)]
  | (k', v') :: r =>
      if String.eqb k k' then (k', v) :: r else (k', v') :: setitem r k v
  end.

(** [v in l] for a list [l] of strings: only an equal string is a member. *)
Definition value_in (v : value) (l : list string) : bool :=
  match v with
  | VStr s => str_in s l
  | _ => false
  end.

(** [repr] of a string: single quotes unless the text holds a single quote
    and no double quote; the quote, the backslash and the control characters
    are escaped. *)
Definition hex_digit (n : nat) : ascii :=
  if (n <? 10)%nat then ascii_of_nat (48 + n) else ascii_of_nat (87 + n).

Definition escape_char (q c : ascii) : string :=
  let n := nat_of_ascii c in
  if Ascii.eqb c backslash then String backslash (String backslash EmptyString)
  else if Ascii.eqb c q then String backslash (String q EmptyString)
  else if Ascii.eqb c newline then String backslash "n"
  else if (n =? 13)%nat then String backslash "r"
  else if (n =? 9)%nat then String backslash "t"
  else if (n <? 32)%nat || (n =? 127)%nat then
    String backslash (String "x" (String (hex_digit (n / 16))
                                    (String (hex_digit (n mod 16)) EmptyString)))
  else String c EmptyString.

Fixpoint escape (q : ascii) (s : string) : string :=
  match s with
  | EmptyString => EmptyString
  | String c r => escape_char q c +:+ escape q r
  end.

Definition repr_str (s : string) : string :=
  let q := if char_in squote s && negb (char_in dquote s) then dquote else squote in
  String q (escape q s +:+ String q EmptyString).

Definition str_of_Z (n : Z) : string := NilZero.string_of_int (Z.to_int n).

(** [repr(v)] *)
Fixpoint py_repr (v : value) : string :=
  match v with
  | VNone => "None"
  | VBool true => "True"
  | VBool false => "False"
  | VInt n => str_of_Z n
  | VFloat f => float_repr f
  | VStr s => repr_str s
  | VList l => "[" +:+ join ", " (List.map py_repr l) +:+ "]"
  | VDict d =>
      "{" +:+ join ", " (List.map (fun kv => repr_str (fst kv) +:+ ": " +:+ py_repr (snd kv)) d)
          +:+ "}"
  end.

(** [str(v)] *)
Definition py_str (v : value) : string :=
  match v with
  | VStr s => s
  | _ => py_repr v
  end.

(** ** Exceptions *)

Inductive exn_class := ValueError | TypeError | AttributeError | KeyError | Exception.

Record exn := Exn { exn_cls : exn_class; exn_msg : string }.

Inductive result (A : Type) : Type :=
| Ok (a : A)
| Raise (e : exn).
Arguments Ok {A} a.
Arguments Raise {A} e.

Definition is_ok {A} (r : result A) : bool :=
  match r with Ok _ => true | Raise _ => false end.

(** [except Exception as e: raise cls(f"{prefix}: {str(e)}")] *)
Definition rewrap {A} (cls : exn_class) (prefix : string) (r : result A) : result A :=
  match r with
  | Ok a => Ok a
  | Raise e => Raise (Exn cls (prefix +:+ ": " +:+ exn_msg e))
  end.

Definition bind {A B} (r : result A) (k : A -> result B) : result B :=
  match r with
  | Ok a => k a
  | Raise e => Raise e
  end.

Notation "'let?' x := r 'in' k" := (bind r (fun x => k))
  (at level 10, x name, r at level 100, k at level 200).

(** ** services/llm_handler.py *)

(** The part of the dataset metadata that the normalizer reads
    ([analyze_data_structure] also stores dtypes, statistics and null counts). *)
Record metadata := Metadata {
  columns : list string;
  numerical_columns : list string;
  categorical_columns : list string;
  datetime_columns : list string;
  row_count : nat
}.

(** *** [extract_json_from_text] *)

(** [text.find(c)]; [None] stands for -1. *)
Fixpoint find (c : ascii) (text : string) : option nat :=
  match text with
  | EmptyString => None
  | String d r => if Ascii.eqb d c then Some O else option_map S (find c r)
  end.

Definition is_open (ch : ascii) : bool := Ascii.eqb ch "{" || Ascii.eqb ch "[".
Definition is_close (ch : ascii) : bool := Ascii.eqb ch "}" || Ascii.eqb ch "]".

(** The [for i in range(start_idx, len(text))] loop, run on the characters
    from [i] on.  The head of [stack] is the top (the last element of the
    Python list).  [Ok (Some e)] is the [break] with [end_idx = e], [Ok None]
    the exhausted loop, where [end_idx] is still -1. *)
Fixpoint scan (rest : string) (i : nat) (stack : list ascii) : result (option nat) :=
  match rest with
  | EmptyString => Ok None
  | String ch rest' =>
      if is_open ch then scan rest' (S i) (ch :: stack)
      else if is_close ch then
        match stack with
        | [] => Raise (Exn ValueError "Malformed JSON: unexpected closing bracket")
        | stack_pop :: stack' =>
            if (Ascii.eqb stack_pop "{" && negb (Ascii.eqb ch "}"))
               || (Ascii.eqb stack_pop "[" && negb (Ascii.eqb ch "]"))
            then Raise (Exn ValueError "Malformed JSON: mismatched brackets")
            else match stack' with
                 | [] => Ok (Some (S i))
                 | _ => scan rest' (S i) stack'
                 end
        end
      else scan rest' (S i) stack
  end.

(** [text[i:]] *)
Fixpoint drop_str (i : nat) (text : string) : string :=
  match i, text with
  | O, _ => text
  | S i', String _ r => drop_str i' r
  | S _, EmptyString => EmptyString
  end.

(** [min(candidates)] for the candidates that are not -1. *)
Definition start_index (idx_brace idx_bracket : option nat) : option nat :=
  match idx_brace, idx_bracket with
  | Some a, Some b => Some (Nat.min a b)
  | Some a, None => Some a
  | None, Some b => Some b
  | None, None => None
  end.

(** The text between the brackets found by the scan: lines 87 to 122, up to
    [json_str]. *)
Definition extract_json_str (text : string) : result string :=
  if is_empty text then Raise (Exn ValueError "Empty text from LLM response")
  else
    match start_index (find "{" text) (find "[" text) with
    | None => Raise (Exn ValueError "No JSON object or array found in LLM response")
    | Some start_idx =>
        let? end_idx := scan (drop_str start_idx text) start_idx [] in
        match end_idx with
        | None => Raise (Exn ValueError "Malformed JSON: unbalanced brackets in LLM response")
        | Some end_idx => Ok (substring start_idx (end_idx - start_idx) text)
        end
    end.

(** [json.loads] belongs to the standard library of Python: the extraction is
    stated for any parser. *)
Definition extract_json_from_text (json_loads : string -> result value)
    (text : string) : result value :=
  let? json_str := extract_json_str text in json_loads json_str.

(** *** [validate_and_enhance_spec] *)

Definition op_map : list (string * string) :=
  [("=", "=="); ("==", "=="); ("equals", "=="); ("is", "==");
   ("!=", "!="); ("neq", "!="); ("not equals", "!=");
   (">", ">"); ("<", "<"); (">=", ">="); ("<=", "<=")].

Fixpoint assoc (k : string) (m : list (string * string)) : option string :=
  match m with
  | [] => None
  | (k', v) :: r => if String.eqb k k' then Some v else assoc k r
  end.

(** Lines 206 to 210: [op_norm]. *)
Definition normalize_operator (op : value) : value :=
  match op with
  | VStr s =>
      let op_clean := lower (strip s) in
      VStr (match assoc op_clean op_map with Some o => o | None => op_clean end)
  | _ => op
  end.

(** Lines 197 to 204: [val]. *)
Definition filter_val (f : pydict) : value :=
  if key_in "value" f then get f "value"
  else if key_in "val" f then get f "val"
  else if key_in "v" f then get f "v"
  else VNone.

Definition filter_clause (col op_norm val : value) : value :=
  VDict [("column", col); ("operator", op_norm); ("value", val)].

(** Lines 195 and 196: [col] and [op]. *)
Definition filter_col (f : pydict) : value :=
  py_or (py_or (py_or (get f "column") (get f "column_name")) (get f "col")) (get f "field").

Definition filter_op (f : pydict) : value :=
  py_or (py_or (py_or (get f "operator") (get f "op")) (get f "relation"))
        (get f "operator_symbol").

(** [[c for c in all_columns if c.lower() == str(col).lower()]] *)
Definition matches (all_columns : list string) (col : value) : list string :=
  List.filter (fun c => String.eqb (lower c) (lower (py_str col))) all_columns.

(** One turn of the loop over [raw_filters]: the clause appended to
    [normalized_filters], or [None] when the turn appends nothing. *)
Definition normalize_filter (all_columns : list string) (f : value) : option value :=
  match f with
  | VDict f =>
      let col := filter_col f in
      let op := filter_op f in
      let val := filter_val f in
      let op_norm := normalize_operator op in
      if truthy col && truthy op_norm && negb (is_none val) then
        if value_in col all_columns then Some (filter_clause col op_norm val)
        else
          match matches all_columns col with
          | m :: _ => Some (filter_clause (VStr m) op_norm val)
          | [] => None
          end
      else None
  | _ => None
  end.

Definition normalize_filters (all_columns : list string) (raw : list value) : list value :=
  omap (normalize_filter all_columns) raw.

(** Whether [.capitalize()] can be called on [spec.get('chart_type', 'Chart')]. *)
Definition chart_type_is_text (spec : pydict) : bool :=
  match get_default spec "chart_type" (VStr "Chart") with
  | VStr _ => true
  | _ => false
  end.

(** [if spec.get(k) and spec[k] not in all_columns] *)
Definition names_missing_column (spec : pydict) (k : string)
    (all_columns : list string) : bool :=
  truthy (get spec k) && negb (value_in (get spec k) all_columns).

(** Lines 183 to 224: the filters, when they come as a list. *)
Definition enhance_filters (spec : pydict) (all_columns : list string) : pydict :=
  match get spec "filters" with
  | VList raw_filters =>
      setitem spec "filters" (VList (normalize_filters all_columns raw_filters))
  | _ => spec
  end.

(** Lines 229 to 232: a [y_axis] or a [color_by] that names no column. *)
Definition clear_missing (spec : pydict) (k : string) (all_columns : list string)
    : pydict :=
  if names_missing_column spec k all_columns then setitem spec k VNone else spec.

(** Lines 234 to 238 *)
Definition default_aggregation (spec : pydict) (md : metadata) : pydict :=
  if negb (truthy (get spec "aggregation")) then
    if value_in (get spec "y_axis") (numerical_columns md)
    then setitem spec "aggregation" (VStr "mean")
    else setitem spec "aggregation" (VStr "count")
  else spec.

(** Lines 240 and 241: [capitalize] is a method of [str] only. *)
Definition default_title (spec : pydict) : result pydict :=
  if negb (truthy (get spec "title")) then
    match get_default spec "chart_type" (VStr "Chart") with
    | VStr chart_type =>
        Ok (setitem spec "title" (VStr (capitalize chart_type +:+ " Chart")))
    | _ => Raise (Exn AttributeError "object has no attribute 'capitalize'")
    end
  else Ok spec.

(** Lines 242 and 243 *)
Definition default_x_label (spec : pydict) : pydict :=
  if negb (truthy (get spec "x_label"))
  then setitem spec "x_label" (get spec "x_axis") else spec.

(** Lines 244 and 245 *)
Definition default_y_label (spec : pydict) : pydict :=
  if negb (truthy (get spec "y_label"))
  then setitem spec "y_label" (get_default spec "y_axis" (VStr "Value")) else spec.

(** The body of the [try]: the statements above, in the order of the source. *)
Definition validate_body (spec : pydict) (md : metadata) : result pydict :=
  let all_columns := columns md in
  let spec := enhance_filters spec all_columns in
  if names_missing_column spec "x_axis" all_columns then
    Raise (Exn ValueError "Column not found in data")
  else
    let spec := clear_missing spec "y_axis" all_columns in
    let spec := clear_missing spec "color_by" all_columns in
    let spec := default_aggregation spec md in
    let? spec := default_title spec in
    let spec := default_x_label spec in
    let spec := default_y_label spec in
    Ok spec.

Definition validate_and_enhance_spec (spec : pydict) (md : metadata) : result pydict :=
  rewrap ValueError "Chart specification validation failed" (validate_body spec md).

(** ** Tables, as pandas holds them *)

(** The dtype of a column.  [DNumOther] stands for the numeric dtypes that
    the histogram builder does not list (int16, uint8, the nullable Int64 and
    Float64, ...), [DOther] for the dtypes that are neither numbers, booleans
    nor text (datetime64, category, ...). *)
Inductive dtype :=
| DInt64 | DInt32 | DFloat64 | DFloat32 | DNumOther
| DBool | DObject | DString | DOther.

(** [select_dtypes(include=['number'])] *)
Definition is_number (t : dtype) : bool :=
  match t with
  | DInt64 | DInt32 | DFloat64 | DFloat32 | DNumOther => true
  | _ => false
  end.

(** [dtype == 'object' or dtype == 'string'] *)
Definition is_object_or_string (t : dtype) : bool :=
  match t with DObject | DString => true | _ => false end.

(** [dtype in ['int64', 'int32', 'float64', 'float32', 'int', 'float']] *)
Definition is_listed_numeric (t : dtype) : bool :=
  match t with DInt64 | DInt32 | DFloat64 | DFloat32 => true | _ => false end.

(** A cell; [CNull] is NaN, None or NaT.  A number is the rational that
    the int64 or float64 of the cell holds.  Comparisons, counts, minima and
    maxima of cells are those of pandas; sums, means and correlations are
    the exact ones, without the rounding of float64 or the wrap-around of
    int64, and the statements that rest on them say for which columns they
    are made. *)
Inductive cell :=
| CNull
| CNum (q : Q)
| CStr (s : string)
| CBool (b : bool).

Record column := Col { col_name : string; col_dtype : dtype; col_cells : list cell }.

(** A DataFrame: its columns in order, all of one length.  The row index is
    not modelled. *)
Definition dataframe := list column.

Definition is_null (c : cell) : bool :=
  match c with CNull => true | _ => false end.

Definition col_names (d : dataframe) : list string := List.map col_name d.

(** [len(df)] for a table with a column.  A table without a column has no
    row here, where a pandas frame keeps the length of its index: the
    statements about the number of rows are made for tables with a
    column. *)
Definition nrows (d : dataframe) : nat :=
  match d with
  | [] => O
  | c :: _ => length (col_cells c)
  end.

(** [df.empty] *)
Definition df_empty (d : dataframe) : bool :=
  match d with
  | [] => true
  | _ => (nrows d =? 0)%nat
  end.

Definition rectangular (d : dataframe) : Prop :=
  Forall (fun c => length (col_cells c) = nrows d) d.

(** [col in df.columns]: hashing a list or a dict raises; a value that is
    not a string equals no label. *)
Definition in_columns (v : value) (d : dataframe) : result bool :=
  match v with
  | VList _ | VDict _ => Raise (Exn TypeError "unhashable type")
  | VStr s => Ok (str_in s (col_names d))
  | _ => Ok false
  end.

(** The columns labelled [name]. *)
Definition cols_named (name : string) (d : dataframe) : list column :=
  List.filter (fun c => String.eqb (col_name c) name) d.

(** [df[name]] as a Series: the column of that label.  Under a label that
    several columns carry pandas returns a DataFrame, and the use of it as a
    Series raises. *)
Definition get_series (name : string) (d : dataframe) : result column :=
  match cols_named name d with
  | [c] => Ok c
  | [] => Raise (Exn KeyError name)
  | _ => Raise (Exn AttributeError "a DataFrame where a Series is expected")
  end.

(** [df[names]] for a list of labels that are all present. *)
Definition select_columns (names : list string) (d : dataframe) : dataframe :=
  List.flat_map (fun n => cols_named n d) names.

Fixpoint mask_cells {A} (mask : list bool) (l : list A) : list A :=
  match mask, l with
  | b :: mask', x :: l' => if b then x :: mask_cells mask' l' else mask_cells mask' l'
  | _, _ => []
  end.

(** [df[mask]]: the rows where the mask holds. *)
Definition mask_rows (mask : list bool) (d : dataframe) : dataframe :=
  List.map (fun c => Col (col_name c) (col_dtype c) (mask_cells mask (col_cells c))) d.

(** [df.dropna(axis=1, how='all')] *)
Definition drop_null_columns (d : dataframe) : dataframe :=
  List.filter (fun c => negb (forallb is_null (col_cells c))) d.

Fixpoint zip_or (a b : list bool) : list bool :=
  match a, b with
  | x :: a', y :: b' => (x || y) :: zip_or a' b'
  | _, _ => []
  end.

(** For each row, whether one of its cells is not null. *)
Definition rows_not_all_null (d : dataframe) : list bool :=
  List.fold_right (fun c acc => zip_or (List.map (fun x => negb (is_null x)) (col_cells c)) acc)
                  (List.repeat false (nrows d)) d.

(** [df.dropna(how='all')] *)
Definition drop_null_rows (d : dataframe) : dataframe :=
  mask_rows (rows_not_all_null d) d.

(** [df.dropna(subset=[name])] *)
Definition dropna_subset (name : string) (d : dataframe) : dataframe :=
  match cols_named name d with
  | c :: _ => mask_rows (List.map (fun x => negb (is_null x)) (col_cells c)) d
  | [] => d
  end.

(** [df.select_dtypes(include=['number'])] *)
Definition select_numeric (d : dataframe) : dataframe :=
  List.filter (fun c => is_number (col_dtype c)) d.

(** [df[name] = s]: the column is replaced where it stands, or added last. *)
Fixpoint set_column (name : string) (s : column) (d : dataframe) : dataframe :=
  match d with
  | [] => [Col name (col_dtype s) (col_cells s)]
  | c :: r =>
      if String.eqb (col_name c) name
      then Col name (col_dtype s) (col_cells s) :: r
      else c :: set_column name s r
  end.

Inductive agg_fn := ASum | AMean | ACount | AMin | AMax.
Inductive order_op := OpGt | OpLt | OpGe | OpLe.

(** What the embedding takes from pandas without modelling it:
    - [to_numeric_str]: the number [pd.to_numeric] reads in a string, [None]
      when the string is coerced to NaN;
    - [series_eq_special]: [series == v] when [v] is a list or a dict, or the
      column is of a [DOther] dtype;
    - [series_order]: [series > v] and the other order comparisons;
    - [reduce_other]: the aggregation of the groups of a column that is not
      numeric: the dtype and the cells of the aggregated column. *)
Class PandasSem := {
  to_numeric_str : string -> option Q;
  series_eq_special : column -> value -> result (list bool);
  series_order : order_op -> column -> value -> result (list bool);
  reduce_other : agg_fn -> dtype -> list (list cell) -> result (dtype * list cell)
}.

(** [cell == v] for a scalar [v]; a null cell equals nothing. *)
Definition cell_eq (c : cell) (v : value) : bool :=
  match c, v with
  | CNum q, VInt n => Qeq_bool q (inject_Z n)
  | CNum q, VFloat f => Qeq_bool q (float_val f)
  | CNum q, VBool b => Qeq_bool q (if b then 1 else 0)
  | CBool b, VBool b' => Bool.eqb b b'
  | CBool b, VInt n => Qeq_bool (if b then 1 else 0) (inject_Z n)
  | CBool b, VFloat f => Qeq_bool (if b then 1 else 0) (float_val f)
  | CStr s, VStr s' => String.eqb s s'
  | _, _ => false
  end.

(** [series == v] *)
Definition series_eq `{PandasSem} (s : column) (v : value) : result (list bool) :=
  match v, col_dtype s with
  | VList _, _ | VDict _, _ | _, DOther => series_eq_special s v
  | _, _ => Ok (List.map (fun c => cell_eq c v) (col_cells s))
  end.

(** [series != v] *)
Definition series_ne `{PandasSem} (s : column) (v : value) : result (list bool) :=
  let? m := series_eq s v in Ok (List.map negb m).

(** [pd.to_numeric(series, errors='coerce')] on one cell. *)
Definition to_numeric_cell `{PandasSem} (c : cell) : cell :=
  match c with
  | CNull => CNull
  | CNum q => CNum q
  | CBool b => CNum (if b then 1 else 0)
  | CStr s => match to_numeric_str s with Some q => CNum q | None => CNull end
  end.

Definition is_integer_cell (c : cell) : bool :=
  match c with
  | CNum q => Qeq_bool q (inject_Z (Qfloor q))
  | _ => false
  end.

(** [pd.to_numeric(series, errors='coerce')]: int64 when every value is an
    integer, float64 otherwise; a nullable numeric dtype for a string dtype.
    Which of the two numeric dtypes pandas gives depends on the spelling of
    the texts (it reads [1.0] as a float), which is not modelled: no
    statement rests on which of the two it is, except where a null makes it
    float64. *)
Definition to_numeric `{PandasSem} (s : column) : column :=
  let cells := List.map to_numeric_cell (col_cells s) in
  let t := match col_dtype s with
           | DString => DNumOther
           | _ => if forallb is_integer_cell cells then DInt64 else DFloat64
           end in
  Col (col_name s) t cells.

(** *** Grouping *)

(** The order in which group keys are sorted: numbers (booleans count as 0
    and 1) before strings. *)
Definition cell_num (c : cell) : option Q :=
  match c with
  | CNum q => Some q
  | CBool b => Some (if b then 1 else 0)%Q
  | _ => None
  end.

Definition cell_leb (a b : cell) : bool :=
  match cell_num a, cell_num b with
  | Some p, Some q => Qle_bool p q
  | Some _, None => true
  | None, Some _ => false
  | None, None =>
      match a, b with
      | CStr s, CStr t => String.leb s t
      | CStr _, _ => true
      | _, _ => is_null b
      end
  end.

Definition cell_eqb (a b : cell) : bool :=
  match cell_num a, cell_num b with
  | Some p, Some q => Qeq_bool p q
  | _, _ => match a, b with CStr s, CStr t => String.eqb s t | _, _ => false end
  end.

Definition key := list cell.

Fixpoint key_eqb (a b : key) : bool :=
  match a, b with
  | [], [] => true
  | x :: a', y :: b' => cell_eqb x y && key_eqb a' b'
  | _, _ => false
  end.

Fixpoint key_leb (a b : key) : bool :=
  match a, b with
  | [], _ => true
  | _ :: _, [] => false
  | x :: a', y :: b' =>
      if cell_eqb x y then key_leb a' b' else cell_leb x y
  end.

(** The key of each row, from the cells of the key columns. *)
Fixpoint row_keys (n : nat) (key_cells : list (list cell)) : list key :=
  match key_cells with
  | [] => List.repeat [] n
  | c :: r => List.map (fun p => fst p :: snd p) (List.combine c (row_keys n r))
  end.

Fixpoint dedup_keys (l : list key) : list key :=
  match l with
  | [] => []
  | k :: r => k :: List.filter (fun k' => negb (key_eqb k' k)) (dedup_keys r)
  end.

Fixpoint insert_key (k : key) (l : list key) : list key :=
  match l with
  | [] => [k]
  | k' :: r => if key_leb k k' then k :: l else k' :: insert_key k r
  end.

Definition sort_keys (l : list key) : list key :=
  List.fold_right insert_key [] l.

(** The rows that take part in the grouping: those whose key has no null. *)
Definition keyed_rows (keys : list key) (ys : list cell) : list (key * cell) :=
  List.filter (fun r => negb (existsb is_null (fst r))) (List.combine keys ys).

(** The keys of the groups, sorted. *)
Definition group_keys (rows : list (key * cell)) : list key :=
  sort_keys (dedup_keys (List.map fst rows)).

(** The cells of the aggregated column that fall in the group of [k]. *)
Definition group_cells (rows : list (key * cell)) (k : key) : list cell :=
  List.map snd (List.filter (fun r => key_eqb (fst r) k) rows).

Definition qsum (l : list Q) : Q := List.fold_right Qplus 0%Q l.

Definition qlen {A} (l : list A) : Q := inject_Z (Z.of_nat (length l)).

Definition numbers (cells : list cell) : list Q :=
  omap (fun c => match c with CNum q => Some q | _ => None end) cells.

Definition qmin_list (l : list Q) : cell :=
  match l with
  | [] => CNull
  | q :: r => CNum (List.fold_right Qmin q r)
  end.

Definition qmax_list (l : list Q) : cell :=
  match l with
  | [] => CNull
  | q :: r => CNum (List.fold_right Qmax q r)
  end.

(** The aggregation of the cells of one group of a numeric column: nulls are
    skipped.  Sums and means are the exact ones, which pandas computes in
    int64 or float64; the statements about them are made for columns that
    these types add without rounding or wrap-around ([exactly_summable]). *)
Definition reduce_numeric (f : agg_fn) (cells : list cell) : cell :=
  let qs := numbers cells in
  match f with
  | ASum => CNum (qsum qs)
  | AMean => match qs with [] => CNull | _ => CNum (qsum qs / qlen qs)%Q end
  | ACount => CNum (qlen qs)
  | AMin => qmin_list qs
  | AMax => qmax_list qs
  end.

(** The key columns of the aggregated table: [i]-th cell of each group key. *)
Definition key_column (keys : list key) (i : nat) (c : column) : column :=
  Col (col_name c) (col_dtype c) (List.map (fun k => List.nth i k CNull) keys).

Fixpoint key_columns (keys : list key) (i : nat) (cs : list column) : list column :=
  match cs with
  | [] => []
  | c :: r => key_column keys i c :: key_columns keys (S i) r
  end.

Fixpoint distinct (l : list string) : bool :=
  match l with
  | [] => true
  | x :: r => negb (str_in x r) && distinct r
  end.

(** [.reset_index()]: the index levels go back in as columns, which raises
    when a label would appear twice. *)
Definition reset_index (key_cols : list column) (y : column) : result dataframe :=
  if distinct (List.map col_name (key_cols ++ [y]))
  then Ok (key_cols ++ [y])
  else Raise (Exn ValueError "cannot insert, already exists").

(** [df.groupby(by)[y].size().reset_index(name=y)] *)
Definition groupby_size (by_cols : list column) (y : column) : result dataframe :=
  let rows := keyed_rows (row_keys (length (col_cells y)) (List.map col_cells by_cols))
                         (col_cells y) in
  let keys := group_keys rows in
  reset_index (key_columns keys 0 by_cols)
    (Col (col_name y) DInt64 (List.map (fun k => CNum (qlen (group_cells rows k))) keys)).

(** [df.groupby(by)[y].aggregate(func).reset_index()] *)
Definition groupby_aggregate `{PandasSem} (f : agg_fn) (by_cols : list column)
    (y : column) : result dataframe :=
  let rows := keyed_rows (row_keys (length (col_cells y)) (List.map col_cells by_cols))
                         (col_cells y) in
  let keys := group_keys rows in
  let? agg :=
    if is_number (col_dtype y) then
      Ok (match f with
          | AMean => match col_dtype y with DFloat32 => DFloat32 | _ => DFloat64 end
          | ACount => DInt64
          | _ => col_dtype y
          end,
          List.map (fun k => reduce_numeric f (group_cells rows k)) keys)
    else reduce_other f (col_dtype y) (List.map (group_cells rows) keys) in
  reset_index (key_columns keys 0 by_cols) (Col (col_name y) (fst agg) (snd agg)).

(** *** Correlation *)

(** The observations of a pair of columns: the rows where both are numbers. *)
Definition pair_obs (a b : list cell) : list (Q * Q) :=
  omap (fun p => match p with
                 | (CNum x, CNum y) => Some (x, y)
                 | _ => None
                 end) (List.combine a b).

Definition qmean (l : list Q) : Q := (qsum l / qlen l)%Q.

(** The sum of the products of the deviations from the means. *)
Definition sum_dev (obs : list (Q * Q)) (f g : Q * Q -> Q) : Q :=
  let mf := qmean (List.map f obs) in
  let mg := qmean (List.map g obs) in
  qsum (List.map (fun p => (f p - mf) * (g p - mg))%Q obs).

(** An entry of the correlation matrix: NaN, or the quotient of [cov] by the
    square root of [ss], the product of the two sums of squared deviations.
    The quotient stands for the float64 number that pandas computes, which
    it need not equal; the statements about the matrix use its labels, its
    shape and the NaN entries of columns without spread only. *)
Inductive corr_entry :=
| CorrNaN
| CorrRatio (cov ss : Q).

(** Pearson's coefficient as [DataFrame.corr] computes it: NaN when one of
    the two columns has no spread over the common observations. *)
Definition corr_pair (a b : list cell) : corr_entry :=
  let obs := pair_obs a b in
  let ssx := sum_dev obs fst fst in
  let ssy := sum_dev obs snd snd in
  match obs with
  | [] => CorrNaN
  | _ => if Qeq_bool (ssx * ssy) 0 then CorrNaN
         else CorrRatio (sum_dev obs fst snd) (ssx * ssy)
  end.

Record corr_matrix := CorrMatrix {
  corr_labels : list string;
  corr_rows : list (list corr_entry)
}.

(** [df.corr()] *)
Definition corr (d : dataframe) : corr_matrix :=
  CorrMatrix (col_names d)
    (List.map (fun a => List.map (fun b => corr_pair (col_cells a) (col_cells b)) d) d).

(** [series.value_counts().reset_index()]: one row per distinct value that
    is not null, the most frequent first, values of one frequency in the
    order of their first appearance. *)
Fixpoint insert_count (r : cell * nat) (l : list (cell * nat)) : list (cell * nat) :=
  match l with
  | [] => [r]
  | r' :: t => if (snd r' <=? snd r)%nat then r :: l else r' :: insert_count r t
  end.

Definition value_counts (s : column) : dataframe :=
  let cells := List.filter (fun c => negb (is_null c)) (col_cells s) in
  let keys := dedup_keys (List.map (fun c => [c]) cells) in
  let counted :=
    List.map (fun k => (List.nth 0 k CNull,
                        length (List.filter (fun c => key_eqb [c] k) cells))) keys in
  let sorted := List.fold_right insert_count [] counted in
  [Col (col_name s) (col_dtype s) (List.map fst sorted);
   Col "count" DInt64 (List.map (fun r => CNum (inject_Z (Z.of_nat (snd r)))) sorted)].

(** [df.columns = names] *)
Fixpoint rename_columns (names : list string) (d : dataframe) : dataframe :=
  match names, d with
  | n :: names', c :: d' => Col n (col_dtype c) (col_cells c) :: rename_columns names' d'
  | _, _ => []
  end.

(** ** Figures *)

Inductive fig_source :=
| FromFrame (d : dataframe)
| FromMatrix (m : corr_matrix).

(** A figure of plotly: the builder that made it, the data it shows, the
    arguments of the builder and the updates applied to it since. *)
Record figure := Figure {
  fig_kind : string;
  fig_data : fig_source;
  fig_args : pydict;
  fig_updates : list (string * pydict)
}.

(** [fig.update_traces(...)] validates the properties against the type of the
    traces: whether it raises is plotly's. *)
Class PlotlySem := {
  update_traces_check : figure -> pydict -> result unit
}.

(** ** The store of DataFrame objects *)

(** A variable of type DataFrame holds a reference.  The store lists the
    objects made so far; it is threaded through every function, so that the
    copies and the updates in place of the source can be told apart. *)
Abbreviation loc := nat.
Abbreviation heap := (list dataframe).

Definition M (A : Type) : Type := heap -> result A * heap.

Definition ret {A} (a : A) : M A := fun h => (Ok a, h).

Definition raise {A} (e : exn) : M A := fun h => (Raise e, h).

Definition bindM {A B} (m : M A) (k : A -> M B) : M B :=
  fun h => match m h with
           | (Ok a, h') => k a h'
           | (Raise e, h') => (Raise e, h')
           end.

Notation "'do' x <- m ; k" := (bindM m (fun x => k))
  (at level 10, x name, m at level 100, k at level 200,
   format "'[v' 'do'  x  <-  m ; '/' k ']'").

Definition lift {A} (r : result A) : M A := fun h => (r, h).

(** [try: m  except Exception as e: handler e] *)
Definition try_except {A} (m : M A) (handler : exn -> M A) : M A :=
  fun h => match m h with
           | (Ok a, h') => (Ok a, h')
           | (Raise e, h') => handler e h'
           end.

(** [try: m  except Exception as e: raise cls(f"{prefix}: {str(e)}")] *)
Definition rewrapM {A} (cls : exn_class) (prefix : string) (m : M A) : M A :=
  try_except m (fun e => raise (Exn cls (prefix +:+ ": " +:+ exn_msg e))).

(** A new object. *)
Definition alloc (d : dataframe) : M loc := fun h => (Ok (length h), h ++ [d]).

(** The object behind a reference. *)
Definition load (l : loc) : M dataframe :=
  fun h => match h !! l with
           | Some d => (Ok d, h)
           | None => (Raise (Exn Exception "no such object"), h)
           end.

(** The object behind a reference is changed in place. *)
Definition store (l : loc) (d : dataframe) : M unit :=
  fun h => (Ok tt, <[l := d]> h).

(** A method of pandas that returns a new DataFrame. *)
Definition derive (f : dataframe -> dataframe) (l : loc) : M loc :=
  do d <- load l; alloc (f d).

(** [df.copy()] *)
Definition df_copy (l : loc) : M loc := derive (fun d => d) l.

(** ** services/chart_generator.py *)

Definition label_of (v : value) : string :=
  match v with VStr s => s | _ => EmptyString end.

(** [[col for col in columns_needed if col in df.columns]] *)
Fixpoint cols_available (columns_needed : list value) (d : dataframe)
    : result (list string) :=
  match columns_needed with
  | [] => Ok []
  | col :: r =>
      let? present := in_columns col d in
      let? rest := cols_available r d in
      Ok (if present then label_of col :: rest else rest)
  end.

Definition _prepare_data (df : loc) (columns_needed : list value)
    (numeric_only : bool) : M loc :=
  do d <- load df;
  do cols <- lift (cols_available columns_needed d);
  match cols with
  | [] => raise (Exn ValueError "None of the required columns found in data")
  | _ =>
      do selected <- derive (select_columns cols) df;
      do df_prep <- df_copy selected;
      do df_prep <- derive drop_null_columns df_prep;
      do df_prep <- derive drop_null_rows df_prep;
      do df_prep <-
        (if numeric_only then
           do df_num <- derive select_numeric df_prep;
           do dn <- load df_num;
           if df_empty dn then raise (Exn ValueError "No numeric columns found")
           else ret df_num
         else ret df_prep);
      do dp <- load df_prep;
      if df_empty dp then raise (Exn ValueError "Data is empty after preparation")
      else ret df_prep
  end.

Definition _ensure_numeric `{PandasSem} (df : loc) (column : value) : M loc :=
  do d <- load df;
  do present <- lift (in_columns column d);
  if negb present then raise (Exn ValueError "Column not found")
  else
    do df <- df_copy df;
    do d <- load df;
    do s <- lift (get_series (label_of column) d);
    if negb (is_object_or_string (col_dtype s)) then ret df
    else
      rewrapM ValueError "Cannot convert column to numeric"
        (do _ <- store df (set_column (label_of column) (to_numeric s) d);
         do df <- derive (dropna_subset (label_of column)) df;
         do d <- load df;
         if df_empty d
         then raise (Exn ValueError "Column contains no valid numeric values")
         else ret df).

Definition _get_columns_for_chart (spec : pydict) : list value :=
  let cols := [] in
  let cols := if truthy (get spec "x_axis") then cols ++ [get spec "x_axis"] else cols in
  let cols := if truthy (get spec "y_axis") then cols ++ [get spec "y_axis"] else cols in
  let cols := if truthy (get spec "color_by") then cols ++ [get spec "color_by"] else cols in
  cols.

(** [agg_map.get(agg)]: [Ok None] is the missing key. *)
Definition agg_map_get (agg : value) : result (option agg_fn) :=
  match agg with
  | VList _ | VDict _ => Raise (Exn TypeError "unhashable type")
  | VStr s =>
      Ok (if String.eqb s "sum" then Some ASum
          else if String.eqb s "mean" then Some AMean
          else if String.eqb s "count" then Some ACount
          else if String.eqb s "min" then Some AMin
          else if String.eqb s "max" then Some AMax
          else None)
  | _ => Ok None
  end.

(** The columns a [groupby] is keyed on. *)
Fixpoint by_columns (labels : list string) (d : dataframe) : result (list column) :=
  match labels with
  | [] => Ok []
  | n :: r =>
      let? c := get_series n d in
      let? cs := by_columns r d in
      Ok (c :: cs)
  end.

Definition grouped_result `{PandasSem} (func : agg_fn) (by_labels : list string)
    (y_axis : string) (d : dataframe) : result dataframe :=
  let? by_cols := by_columns by_labels d in
  let? y := get_series y_axis d in
  match func with
  | ACount => groupby_size by_cols y
  | _ => groupby_aggregate func by_cols y
  end.

Definition _apply_aggregation `{PandasSem} (df : loc) (agg x_axis y_axis color_by : value)
    : M loc :=
  do func <- lift (agg_map_get agg);
  match func with
  | None => raise (Exn ValueError "Unsupported aggregation")
  | Some func =>
      do d <- load df;
      do has_x <- lift (in_columns x_axis d);
      if negb has_x then raise (Exn ValueError "X-axis column not found")
      else
        do has_y <- lift (in_columns y_axis d);
        if negb has_y then raise (Exn ValueError "Y-axis column not found")
        else
          do by_color <- (if truthy color_by then lift (in_columns color_by d)
                          else ret false);
          do agg_df <-
            lift (grouped_result func
                    (if by_color then [label_of x_axis; label_of color_by]
                     else [label_of x_axis])
                    (label_of y_axis) d);
          alloc agg_df
  end.

(** A builder of [plotly.express] called on the table behind [l]: the
    arguments that name columns ([cols]) must be labels of the table. *)
Definition px_plot (kind : string) (l : loc) (cols : list value) (args : pydict)
    : M figure :=
  do d <- load l;
  if forallb (fun v => match v with
                       | VNone => true
                       | VStr s => str_in s (col_names d)
                       | _ => false
                       end) cols
  then ret (Figure kind (FromFrame d) args [])
  else raise (Exn ValueError "Value is not the name of a column in 'data_frame'").

(** [color_by if color_by and color_by in plot_df.columns else None] *)
Definition color_arg (color_by : value) (plot_df : loc) : M value :=
  if truthy color_by then
    do d <- load plot_df;
    do present <- lift (in_columns color_by d);
    ret (if present then color_by else VNone)
  else ret VNone.

Definition _create_bar_chart (df : loc) (spec : pydict) : M figure :=
  let x_axis := get spec "x_axis" in
  let y_axis := get spec "y_axis" in
  let color_by := get spec "color_by" in
  if negb (truthy x_axis) then raise (Exn ValueError "Bar chart requires x_axis")
  else
    rewrapM ValueError "Error creating bar chart"
      (if truthy y_axis then
         do plot_df <- _prepare_data df [x_axis; y_axis] false;
         do color <- color_arg color_by plot_df;
         px_plot "bar" plot_df [x_axis; y_axis; color]
           [("x", x_axis); ("y", y_axis); ("color", color);
            ("title", get_default spec "title" (VStr "Bar Chart"));
            ("labels", VDict [(label_of x_axis, get_default spec "x_label" x_axis)])]
       else
         do plot_df <- _prepare_data df [x_axis] false;
         do d <- load plot_df;
         do s <- lift (get_series (label_of x_axis) d);
         do counts <- alloc (value_counts s);
         do c <- load counts;
         do _ <- store counts (rename_columns [label_of x_axis; "count"] c);
         px_plot "bar" counts [VStr "count"; x_axis]
           [("x", VStr "count"); ("y", x_axis); ("orientation", VStr "h");
            ("title", get_default spec "title" (VStr "Bar Chart"))]).

(** The body shared by the line and the scatter builders. *)
Definition xy_color_chart (kind : string) (extra : pydict) (default_title : string)
    (df : loc) (spec : pydict) : M figure :=
  let x_axis := get spec "x_axis" in
  let y_axis := get spec "y_axis" in
  let color_by := get spec "color_by" in
  let cols_needed := [x_axis; y_axis] in
  let cols_needed := if truthy color_by then cols_needed ++ [color_by] else cols_needed in
  do plot_df <- _prepare_data df cols_needed false;
  do color <- color_arg color_by plot_df;
  px_plot kind plot_df [x_axis; y_axis; color]
    ([("x", x_axis); ("y", y_axis); ("color", color);
      ("title", get_default spec "title" (VStr default_title))] ++ extra).

Definition _create_line_chart (df : loc) (spec : pydict) : M figure :=
  if negb (truthy (get spec "x_axis")) || negb (truthy (get spec "y_axis"))
  then raise (Exn ValueError "Line chart requires both x_axis and y_axis")
  else rewrapM ValueError "Error creating line chart"
         (xy_color_chart "line" [("markers", VBool true)] "Line Chart" df spec).

Definition _create_scatter_chart (df : loc) (spec : pydict) : M figure :=
  if negb (truthy (get spec "x_axis")) || negb (truthy (get spec "y_axis"))
  then raise (Exn ValueError "Scatter chart requires both x_axis and y_axis")
  else rewrapM ValueError "Error creating scatter chart"
         (xy_color_chart "scatter" [] "Scatter Plot" df spec).

Definition _create_pie_chart (df : loc) (spec : pydict) : M figure :=
  let x_axis := get spec "x_axis" in
  if negb (truthy x_axis) then raise (Exn ValueError "Pie chart requires x_axis")
  else
    rewrapM ValueError "Error creating pie chart"
      (do plot_df <- _prepare_data df [x_axis] false;
       do d <- load plot_df;
       do by_cols <- lift (by_columns [label_of x_axis] d);
       do s <- lift (get_series (label_of x_axis) d);
       do sized <- lift (groupby_size by_cols (Col "count" DInt64 (col_cells s)));
       do pie_data <- alloc sized;
       px_plot "pie" pie_data [x_axis; VStr "count"]
         [("names", x_axis); ("values", VStr "count");
          ("title", get_default spec "title" (VStr "Pie Chart"))]).

Definition _create_heatmap (df : loc) (spec : pydict) : M figure :=
  rewrapM ValueError "Error creating heatmap"
    (do d <- load df;
     do numeric_df <- _prepare_data df (List.map VStr (col_names d)) true;
     do nd <- load numeric_df;
     if (length nd <? 2)%nat
     then raise (Exn ValueError "Heatmap requires at least 2 numeric columns")
     else
       let correlation_matrix := corr nd in
       ret (Figure "imshow" (FromMatrix correlation_matrix)
              [("title", get_default spec "title" (VStr "Correlation Heatmap"));
               ("labels", VDict [("color", VStr "Correlation")]);
               ("color_continuous_scale", VStr "RdBu")] [])).

Definition _create_area_chart (df : loc) (spec : pydict) : M figure :=
  let x_axis := get spec "x_axis" in
  let y_axis := get spec "y_axis" in
  if negb (truthy x_axis) || negb (truthy y_axis)
  then raise (Exn ValueError "Area chart requires both x_axis and y_axis")
  else
    rewrapM ValueError "Error creating area chart"
      (do plot_df <- _prepare_data df [x_axis; y_axis] false;
       px_plot "area" plot_df [x_axis; y_axis]
         [("x", x_axis); ("y", y_axis);
          ("title", get_default spec "title" (VStr "Area Chart"))]).

Definition _create_histogram `{PandasSem} (df : loc) (spec : pydict) : M figure :=
  let x_axis := get spec "x_axis" in
  if negb (truthy x_axis) then raise (Exn ValueError "Histogram requires x_axis")
  else
    rewrapM ValueError "Error creating histogram"
      (do plot_df <- _prepare_data df [x_axis] false;
       do d <- load plot_df;
       do s <- lift (get_series (label_of x_axis) d);
       do plot_df <- (if is_object_or_string (col_dtype s)
                      then _ensure_numeric plot_df x_axis
                      else ret plot_df);
       do d <- load plot_df;
       do s <- lift (get_series (label_of x_axis) d);
       do x_axis <-
         (if negb (is_listed_numeric (col_dtype s)) then
            do numeric <- derive select_numeric plot_df;
            do nd <- load numeric;
            match col_names nd with
            | first :: _ => ret (VStr first)
            | [] => raise (Exn ValueError
                             "Column is not numeric and no numeric columns found in data")
            end
          else ret x_axis);
       px_plot "histogram" plot_df [x_axis]
         [("x", x_axis); ("nbins", VInt 20);
          ("title", get_default spec "title" (VStr "Histogram"))]).

Definition _create_box_chart (df : loc) (spec : pydict) : M figure :=
  let x_axis := get spec "color_by" in
  let y_axis := get spec "y_axis" in
  if negb (truthy y_axis) then raise (Exn ValueError "Box chart requires y_axis")
  else
    rewrapM ValueError "Error creating box chart"
      (let cols_needed := [y_axis] in
       let cols_needed := if truthy x_axis then cols_needed ++ [x_axis] else cols_needed in
       do plot_df <- _prepare_data df cols_needed false;
       do x <- color_arg x_axis plot_df;
       px_plot "box" plot_df [x; y_axis]
         [("x", x); ("y", y_axis);
          ("title", get_default spec "title" (VStr "Box Plot"))]).

(** [colorscale_map.get(cs, cs)] *)
Definition colorscale_map_get (cs : value) : result value :=
  match cs with
  | VList _ | VDict _ => Raise (Exn TypeError "unhashable type")
  | VStr s =>
      Ok (if String.eqb s "default" then VNone
          else if String.eqb s "viridis" then VStr "viridis"
          else if String.eqb s "plasma" then VStr "plasma"
          else if String.eqb s "coolwarm" then VStr "RdBu"
          else cs)
  | _ => Ok cs
  end.

Definition update_traces `{PlotlySem} (fig : figure) (kwargs : pydict) : result figure :=
  let? _ := update_traces_check fig kwargs in
  Ok (Figure (fig_kind fig) (fig_data fig) (fig_args fig)
        (fig_updates fig ++ [("update_traces", kwargs)])).

Definition update_layout (fig : figure) (kwargs : pydict) : figure :=
  Figure (fig_kind fig) (fig_data fig) (fig_args fig)
    (fig_updates fig ++ [("update_layout", kwargs)]).

Definition _apply_customizations `{PlotlySem} (fig : figure) (customization : value)
    : result figure :=
  match customization with
  | VDict customization =>
      let? fig :=
        if truthy (get customization "color_scheme") then
          let? plotly_colorscale := colorscale_map_get (get customization "color_scheme") in
          if truthy plotly_colorscale
          then update_traces fig [("marker", VDict [("colorscale", plotly_colorscale)])]
          else Ok fig
        else Ok fig in
      let fig :=
        if negb (truthy (get_default customization "show_legend" (VBool true)))
        then update_layout fig [("showlegend", VBool false)] else fig in
      let? fig :=
        if truthy (get customization "data_labels")
        then update_traces fig [("textposition", VStr "auto"); ("texttemplate", VStr "%{y}")]
        else Ok fig in
      Ok (update_layout fig [("hovermode", VStr "x unified");
                             ("template", VStr "plotly_white");
                             ("height", VInt 500)])
  | _ => Raise (Exn AttributeError "object has no attribute 'get'")
  end.

(** [self.chart_functions] *)
Definition chart_functions `{PandasSem} (chart_type : string)
    : option (loc -> pydict -> M figure) :=
  if String.eqb chart_type "bar" then Some _create_bar_chart
  else if String.eqb chart_type "line" then Some _create_line_chart
  else if String.eqb chart_type "scatter" then Some _create_scatter_chart
  else if String.eqb chart_type "pie" then Some _create_pie_chart
  else if String.eqb chart_type "heatmap" then Some _create_heatmap
  else if String.eqb chart_type "area" then Some _create_area_chart
  else if String.eqb chart_type "histogram" then Some _create_histogram
  else if String.eqb chart_type "box" then Some _create_box_chart
  else None.

Fixpoint chars (s : string) : list value :=
  match s with
  | EmptyString => []
  | String c r => VStr (String c EmptyString) :: chars r
  end.

(** The items a [for] loop draws from a value. *)
Definition iterate (v : value) : result (list value) :=
  match v with
  | VList l => Ok l
  | VStr s => Ok (chars s)
  | VDict d => Ok (List.map (fun kv => VStr (fst kv)) d)
  | _ => Raise (Exn TypeError "object is not iterable")
  end.

(** Lines 106 to 115: the loop over [chart_spec['filters']]. *)
Fixpoint filter_loop `{PandasSem} (items : list value) (filtered_df : loc) : M loc :=
  match items with
  | [] => ret filtered_df
  | filter_item :: rest =>
      match filter_item with
      | VDict filter_item =>
          let column := get filter_item "column" in
          let operator := get filter_item "operator" in
          let value := get filter_item "value" in
          do d <- load filtered_df;
          do skip <- (if negb (truthy column) then ret true
                      else do present <- lift (in_columns column d); ret (negb present));
          if skip then filter_loop rest filtered_df
          else
            match operator with
            | VStr op =>
                if String.eqb op "==" then
                  do s <- lift (get_series (label_of column) d);
                  do mask <- lift (series_eq s value);
                  do filtered_df <- derive (mask_rows mask) filtered_df;
                  filter_loop rest filtered_df
                else filter_loop rest filtered_df
            | _ => filter_loop rest filtered_df
            end
      | _ => raise (Exn AttributeError "object has no attribute 'get'")
      end
  end.

(** Lines 103 to 118: the copy, the filters and the test of the result. *)
Definition filter_stage `{PandasSem} (df : loc) (chart_spec : pydict) : M loc :=
  do filtered_df <- df_copy df;
  do filtered_df <-
    (if truthy (get chart_spec "filters") then
       do items <- lift (iterate (get chart_spec "filters"));
       filter_loop items filtered_df
     else ret filtered_df);
  do d <- load filtered_df;
  if df_empty d then raise (Exn ValueError "No data matches the specified filters")
  else ret filtered_df.

(** Lines 120 to 130: the aggregation, whose failure is only printed. *)
Definition aggregation_stage `{PandasSem} (filtered_df : loc) (chart_spec : pydict)
    : M loc :=
  let agg := get_default chart_spec "aggregation" (VStr "none") in
  let x_axis := get chart_spec "x_axis" in
  let y_axis := get chart_spec "y_axis" in
  let color_by := get chart_spec "color_by" in
  if truthy agg && negb (match agg with VStr s => String.eqb s "none" | _ => false end)
     && truthy y_axis && truthy x_axis
  then try_except (_apply_aggregation filtered_df agg x_axis y_axis color_by)
                  (fun e => ret filtered_df)
  else ret filtered_df.

(** Lines 132 to 137: only the columns that the chart needs are kept. *)
Definition selection_stage (filtered_df : loc) (chart_spec : pydict) : M loc :=
  let cols_needed := _get_columns_for_chart chart_spec in
  match cols_needed with
  | [] => ret filtered_df
  | _ => _prepare_data filtered_df cols_needed false
  end.

(** The table that [generate_chart] hands to the builder. *)
Definition chart_data `{PandasSem} (df : loc) (chart_spec : pydict) : M loc :=
  do filtered_df <- filter_stage df chart_spec;
  do filtered_df <- aggregation_stage filtered_df chart_spec;
  selection_stage filtered_df chart_spec.

(** What [generate_chart] returns: the specification and the figure, which
    the source serializes to HTML and to JSON. *)
Record chart := Chart { chart_spec_of : pydict; chart_figure : figure }.

Definition generate_chart `{PandasSem} `{PlotlySem} (df : loc) (chart_spec : pydict)
    : M chart :=
  rewrapM Exception "Error generating chart"
    (match get_default chart_spec "chart_type" (VStr EmptyString) with
     | VStr chart_type =>
         let chart_type := lower chart_type in
         match chart_functions chart_type with
         | None => raise (Exn ValueError "Unsupported chart type")
         | Some chart_function =>
             do d <- load df;
             if df_empty d then raise (Exn ValueError "Input dataframe is empty")
             else
               do filtered_df <- chart_data df chart_spec;
               do fig <- chart_function filtered_df chart_spec;
               let customization := get_default chart_spec "customization" (VDict []) in
               do fig <- lift (_apply_customizations fig customization);
               ret (Chart chart_spec fig)
         end
     | _ => raise (Exn AttributeError "object has no attribute 'lower'")
     end).

(** ** services/data_handler.py *)

(** [FilterSpec] of models/schemas.py *)
Record FilterSpec := {
  fs_column : string;
  fs_operator : string;
  fs_value : value
}.

(** The comparison that [apply_filters] makes for an operator, [None] for an
    operator that it does not know. *)
Definition filter_comparison `{PandasSem} (operator : string)
    : option (column -> value -> result (list bool)) :=
  if String.eqb operator "==" then Some series_eq
  else if String.eqb operator ">" then Some (series_order OpGt)
  else if String.eqb operator "<" then Some (series_order OpLt)
  else if String.eqb operator ">=" then Some (series_order OpGe)
  else if String.eqb operator "<=" then Some (series_order OpLe)
  else if String.eqb operator "!=" then Some series_ne
  else None.

Fixpoint apply_filters_loop `{PandasSem} (filters : list FilterSpec) (filtered_df : loc)
    : M loc :=
  match filters with
  | [] => ret filtered_df
  | filter_spec :: rest =>
      let column := fs_column filter_spec in
      let operator := fs_operator filter_spec in
      let value := fs_value filter_spec in
      do d <- load filtered_df;
      if negb (str_in column (col_names d))
      then raise (Exn ValueError "Column not found")
      else
        do filtered_df <-
          rewrapM ValueError "Error applying filter"
            (match filter_comparison operator with
             | Some compare =>
                 do s <- lift (get_series column d);
                 do mask <- lift (compare s value);
                 derive (mask_rows mask) filtered_df
             | None => raise (Exn ValueError "Unsupported operator")
             end);
        apply_filters_loop rest filtered_df
  end.

Definition apply_filters `{PandasSem} (df : loc) (filters : list FilterSpec) : M loc :=
  match filters with
  | [] => ret df
  | _ =>
      do filtered_df <- df_copy df;
      apply_filters_loop filters filtered_df
  end.

(** ** A stand-in for the libraries, for the worked examples *)

Fixpoint digits_value (s : string) (acc : Z) : option Z :=
  match s with
  | EmptyString => Some acc
  | String c r =>
      let n := nat_of_ascii c in
      if (48 <=? n)%nat && (n <=? 57)%nat
      then digits_value r (10 * acc + Z.of_nat (n - 48))
      else None
  end.

(** Reads the decimal integers, with or without a minus sign, and nothing
    else.  [pd.to_numeric] agrees with it on these. *)
Definition read_integer (s : string) : option Q :=
  match s with
  | EmptyString => None
  | String c r =>
      if Ascii.eqb c "-" then
        (if is_empty r then None
         else option_map (fun z => inject_Z (- z)) (digits_value r 0))
      else option_map inject_Z (digits_value s 0)
  end.

(** The table of the examples: five rows of sales. *)
Definition sales_table : dataframe :=
  [Col "region" DObject [CStr "north"; CStr "south"; CStr "north"; CStr "east"; CStr "south"];
   Col "sales" DInt64 [CNum 10; CNum 20; CNum 30; CNum 40; CNum 50];
   Col "price" DFloat64 [CNum (3 # 2); CNum 2; CNum (5 # 2); CNum 2; CNum 4];
   Col "units" DInt64 [CNum 1; CNum 1; CNum 1; CNum 1; CNum 1];
   Col "code" DObject [CStr "1"; CStr "2"; CStr "x"; CStr "4"; CStr "-7"]].

(** A column of text next to a column of numbers. *)
Definition names_table : dataframe :=
  [Col "name" DObject [CStr "ann"; CStr "bob"; CStr "cy"];
   Col "n" DInt64 [CNum 1; CNum 2; CNum 3]].

(** The text column of the histogram example. *)
Definition digits_table : dataframe :=
  [Col "v" DObject [CStr "1"; CStr "2"; CStr "x"; CStr "4"]].

Definition example_pandas : PandasSem := {|
  to_numeric_str := read_integer;
  series_eq_special := fun _ _ => Raise (Exn TypeError "comparison not modelled");
  series_order := fun _ _ _ => Raise (Exn TypeError "comparison not modelled");
  reduce_other := fun _ _ _ => Raise (Exn TypeError "agg function failed")
|}.

(** A parser that knows the payload of the example. *)
Definition example_loads (s : string) : result value :=
  if String.eqb s ("{" +:+ String dquote ("a" +:+ String dquote ":1}"))
  then Ok (VDict [("a", VInt 1)])
  else Raise (Exn ValueError "JSONDecodeError").

Definition example_plotly : PlotlySem := {|
  update_traces_check := fun _ _ => Ok tt
|}.

(** ** Notions used in the statements *)

(** *** Brackets *)

Definition matching (o c : ascii) : Prop :=
  (o = "{"%char /\ c = "}"%char) \/ (o = "["%char /\ c = "]"%char).

(** A text whose brackets are all matched, in strict nesting order. *)
Inductive nested : string -> Prop :=
| nested_nil : nested EmptyString
| nested_char c s :
    is_open c = false -> is_close c = false -> nested s -> nested (String c s)
| nested_pair o c s t :
    matching o c -> nested s -> nested t -> nested (String o (s +:+ String c t)).

(** [pending u st]: the text [u] leaves the brackets [st] open, the
    innermost first, and closes no bracket that it did not open. *)
Inductive pending : string -> list ascii -> Prop :=
| pending_nested s : nested s -> pending s []
| pending_open s o t st :
    nested s -> is_open o = true -> pending t st ->
    pending (s +:+ String o t) (st ++ [o]).

(** No opening bracket in the text. *)
Fixpoint no_open (s : string) : bool :=
  match s with
  | EmptyString => true
  | String c r => negb (is_open c) && no_open r
  end.

(** The index of the first opening bracket. *)
Fixpoint first_open (s : string) : option nat :=
  match s with
  | EmptyString => None
  | String c r => if is_open c then Some O else option_map S (first_open r)
  end.

Definition json_quoted (s : string) : string :=
  String dquote (s +:+ String dquote EmptyString).

(** The two texts of the examples: the first is
    [Sure! Here is it: ```json\n{"a":1}\n```\nThanks], the second
    [{"a": [1,2}]. *)
Definition fenced_text : string :=
  "Sure! Here is it: ```json" +:+ String newline
    ("{" +:+ json_quoted "a" +:+ ":1}" +:+ String newline
       ("```" +:+ String newline "Thanks")).

Definition fenced_payload : string := "{" +:+ json_quoted "a" +:+ ":1}".

Definition unbalanced_text : string := "{" +:+ json_quoted "a" +:+ ": [1,2}".

(** *** The store *)

(** [frames n m post]: run on a store that holds [n] objects or more, [m]
    leaves the first [n] objects as they are, and what it returns satisfies
    [post]. *)
Definition frames {A} (n : nat) (m : M A) (post : A -> Prop) : Prop :=
  forall h : heap,
    (n <= length h)%nat ->
    (n <= length (snd (m h)))%nat
    /\ take n (snd (m h)) = take n h
    /\ forall a, fst (m h) = Ok a -> post a.

(** A reference to an object made after the first [n]. *)
Definition fresh (n : nat) (l : loc) : Prop := (n <= l)%nat.

Definition anything {A} (a : A) : Prop := True.

(** *** What the functions of the chart generator compute *)

(** The table that [_prepare_data] makes of the columns [names]. *)
Definition prepared (names : list string) (numeric_only : bool) (d : dataframe)
    : dataframe :=
  let t := drop_null_rows (drop_null_columns (select_columns names d)) in
  if numeric_only then select_numeric t else t.

(** The outcome of [_prepare_data] as a function of the table it is given. *)
Definition prepare_result (columns_needed : list value) (numeric_only : bool)
    (d : dataframe) : result dataframe :=
  let? names := cols_available columns_needed d in
  match names with
  | [] => Raise (Exn ValueError "None of the required columns found in data")
  | _ =>
      if df_empty (prepared names numeric_only d)
      then Raise (Exn ValueError (if numeric_only then "No numeric columns found"
                                  else "Data is empty after preparation"))
      else Ok (prepared names numeric_only d)
  end.

(** The outcome of [_apply_aggregation] as a function of the table. *)
Definition aggregated `{PandasSem} (agg x_axis y_axis color_by : value) (d : dataframe)
    : result dataframe :=
  let? func := agg_map_get agg in
  match func with
  | None => Raise (Exn ValueError "Unsupported aggregation")
  | Some func =>
      let? has_x := in_columns x_axis d in
      if negb has_x then Raise (Exn ValueError "X-axis column not found")
      else
        let? has_y := in_columns y_axis d in
        if negb has_y then Raise (Exn ValueError "Y-axis column not found")
        else
          let? by_color := (if truthy color_by then in_columns color_by d else Ok false) in
          grouped_result func
            (if by_color then [label_of x_axis; label_of color_by] else [label_of x_axis])
            (label_of y_axis) d
  end.


(** *** Numeric columns and correlation *)





(** A mask that keeps every row where the column holds a value. *)
Definition covers (mask : list bool) (cells : list cell) : Prop :=
  Forall2 (fun m x => is_null x = false -> m = true) mask cells.


(** *** Groups *)

(** A key without a null. *)
Definition complete (k : key) : bool := negb (existsb is_null k).

(** The keys of the rows of a grouping: the complete ones. *)
Definition complete_keys (n : nat) (by_cols : list column) : list key :=
  List.filter complete (row_keys n (List.map col_cells by_cols)).

(** The number of rows whose key is [k]. *)
Definition group_size (keys : list key) (k : key) : nat :=
  length (List.filter (fun k' => key_eqb k' k) keys).

(** A numeric column that int64 and float64 add as exact arithmetic does:
    of dtype int64 or float64, holding whole numbers whose absolute values
    add up to 2^53 at most, so that no partial sum of its cells, in any
    order, is rounded or wraps around. *)
Definition whole_number (c : cell) : bool :=
  match c with
  | CNum q => Qeq_bool q (inject_Z (Qfloor q))
  | CNull => true
  | _ => false
  end.

Definition exactly_summable (y : column) : bool :=
  match col_dtype y with DInt64 | DFloat64 => true | _ => false end
  && forallb whole_number (col_cells y)
  && Qle_bool (qsum (List.map Qabs (numbers (col_cells y)))) (inject_Z (2 ^ 53)).





(** [t] is the grouping of the rows by the columns [by_cols], with the
    column [y] aggregated by [func]: the columns of the key and the
    aggregated column, one row for each group.  Each group is the complete
    key of a row, each complete key falls in a group, and no two groups are
    equal.  For [count] the aggregated cell is the number of rows of the
    group; for the other aggregations of a numeric column it is the
    aggregation of the cells of the group. *)
Definition grouping_of (func : agg_fn) (by_cols : list column) (y : column)
    (t : dataframe) : Prop :=
  let keys := complete_keys (length (col_cells y)) by_cols in
  let rows := keyed_rows (row_keys (length (col_cells y)) (List.map col_cells by_cols))
                (col_cells y) in
  exists groups cells dt,
    t = key_columns groups 0 by_cols ++ [Col (col_name y) dt cells]
    /\ List.NoDup groups
    /\ (forall g, In g groups -> In g keys)
    /\ (forall k, In k keys -> exists g, In g groups /\ key_eqb k g = true)
    /\ (forall g g', In g groups -> In g' groups -> key_eqb g g' = true -> g = g')
    /\ (func = ACount ->
        dt = DInt64
        /\ cells = List.map (fun g => CNum (inject_Z (Z.of_nat (group_size keys g)))) groups)
    /\ (func <> ACount -> is_number (col_dtype y) = true ->
        cells = List.map (fun g => reduce_numeric func (group_cells rows g)) groups).

(** ** Further notions used in the statements *)

(** *** The normalizer *)

(** The keys that [validate_and_enhance_spec] assigns to. *)
Definition normalizer_writes : list string :=
  ["filters"; "y_axis"; "color_by"; "aggregation"; "title"; "x_label"; "y_label"].

(** The keys that [validate_and_enhance_spec] gives a default. *)
Definition normalizer_defaults : list string :=
  ["aggregation"; "title"; "x_label"; "y_label"].

(** The keys of a dictionary, in insertion order. *)
Definition keys (d : pydict) : list string := List.map fst d.

(** A filter clause as the normalizer leaves it: the three keys in order, a
    column of the metadata, an operator in its normal form, a value. *)
Definition canonical_clause (cols : list string) (f : value) : Prop :=
  exists c op v,
    f = filter_clause (VStr c) op v
    /\ In c cols /\ truthy op = true /\ normalize_operator op = op /\ v <> VNone.

(** *** The brackets that a scan closes *)

(** [closes st u]: the text [u] closes the open brackets [st], the innermost
    first, each with its own closing bracket after a text whose brackets are
    matched, and ends with the bracket that closes the last of them. *)
Fixpoint closes (st : list ascii) (u : string) : Prop :=
  match st with
  | [] => u = EmptyString
  | o :: st' =>
      exists w c u',
        u = w +:+ String c u' /\ nested w /\ matching o c /\ closes st' u'
  end.

(** *** Rows and columns without a value *)

(** For each of [n] rows, whether one of the columns holds a value there:
    [rows_not_all_null] for columns of length [n]. *)
Definition row_mask (n : nat) (cols : list column) : list bool :=
  List.fold_right
    (fun c acc => zip_or (List.map (fun x => negb (is_null x)) (col_cells c)) acc)
    (List.repeat false n) cols.

(** The column holds a value. *)
Definition has_value (c : column) : Prop :=
  exists x, In x (col_cells c) /\ is_null x = false.

(** *** The columns that a specification names *)



(** *** The filters of a chart specification *)

(** The clauses that the loop of [generate_chart] can apply: those whose
    operator is [==]. *)
Definition is_equality_filter (item : value) : bool :=
  match item with
  | VDict f => match get f "operator" with
               | VStr op => String.eqb op "=="
               | _ => false
               end
  | _ => false
  end.

(** A clause with the three keys of the normalizer and a label for column. *)
Definition labelled_clause (item : value) : Prop :=
  exists c op v, item = filter_clause (VStr c) op v.

(** ** services/data_handler.py, continued *)

(** [validate_data]: the verdict and its message. *)
Definition validate_data (d : dataframe) : bool * string :=
  if (Z.of_nat (nrows d) <? 2)%Z then (false, "Data must have at least 2 rows")
  else if (100000 <? Z.of_nat (nrows d))%Z
  then (false, "Data exceeds maximum limit of 100,000 rows")
  else if df_empty d then (false, "Data cannot be empty")
  else if forallb (fun c => forallb is_null (col_cells c)) d
  then (false, "All data is null")
  else (true, "Data validated successfully").

(** [series.unique()]: the values in the order of their first appearance. *)
Fixpoint unique (cells : list cell) : list cell :=
  match cells with
  | [] => []
  | x :: r => x :: List.filter (fun y => negb (cell_eqb y x)) (unique r)
  end.

(** [l[:n]]: a negative [n] counts from the end. *)
Definition slice_to {A} (n : Z) (l : list A) : list A :=
  if (0 <=? n)%Z then take (Z.to_nat n) l
  else take (length l - Z.to_nat (- n)) l.

(** [get_column_sample]; [.tolist()] is left out, the sample is a list of
    cells. *)
Definition get_column_sample (d : dataframe) (column : string) (sample_size : Z)
    : result (list cell) :=
  if negb (str_in column (col_names d)) then Ok []
  else
    let? s := get_series column d in
    Ok (slice_to sample_size
          (unique (List.filter (fun x => negb (is_null x)) (col_cells s)))).

(** *** What [apply_filters] computes *)

(** The outcome of the loop of [apply_filters] as a function of the table. *)
Fixpoint filtered `{PandasSem} (filters : list FilterSpec) (d : dataframe)
    : result dataframe :=
  match filters with
  | [] => Ok d
  | filter_spec :: rest =>
      if negb (str_in (fs_column filter_spec) (col_names d))
      then Raise (Exn ValueError "Column not found")
      else
        let? t :=
          rewrap ValueError "Error applying filter"
            (match filter_comparison (fs_operator filter_spec) with
             | Some compare =>
                 let? s := get_series (fs_column filter_spec) d in
                 let? mask := compare s (fs_value filter_spec) in
                 Ok (mask_rows mask d)
             | None => Raise (Exn ValueError "Unsupported operator")
             end) in
        filtered rest t
  end.

(** The rows that a second mask keeps of the rows that a first mask kept. *)
Fixpoint compose_mask (m1 m2 : list bool) : list bool :=
  match m1 with
  | [] => []
  | false :: r => false :: compose_mask r m2
  | true :: r =>
      match m2 with
      | [] => []
      | b :: m2' => b :: compose_mask r m2'
      end
  end.

(** [t] holds rows of [d], in their order, under the same columns. *)
Definition rows_of (t d : dataframe) : Prop :=
  exists mask, t = mask_rows mask d.

(** The clause of a chart specification that says what a [FilterSpec] says. *)
Definition clause_of (f : FilterSpec) : value :=
  filter_clause (VStr (fs_column f)) (VStr (fs_operator f)) (fs_value f).

(** Where the first mask keeps a row, so does the second. *)
Definition mask_le (a b : list bool) : Prop :=
  Forall2 (fun x y => x = true -> y = true) a b.

(** *** A total *)

(** The number that a cell adds to a sum: nulls and cells that are no
    numbers add nothing. *)
Definition cell_weight (c : cell) : Q :=
  match c with CNum q => q | _ => 0%Q end.

(** ** services/llm_handler.py, continued: [parse_user_request] *)

(** What the chat endpoint answers: the call, or the check of its status,
    raised; or a body came, that [response.json()] parses, or that it does
    not, in which case the text of the body is used. *)
Inductive llm_reply :=
| CallFailed (e : exn)
| JsonBody (response_data : value)
| TextBody (raw : string).

(** [v.strip()] *)
Definition strip_value (v : value) : result string :=
  match v with
  | VStr s => Ok (strip s)
  | _ => Raise (Exn AttributeError "object has no attribute 'strip'")
  end.

(** Lines 147 to 155: what the loop over the choices appends for [c]. *)
Definition choice_part (c : value) : option value :=
  match c with
  | VDict c =>
      if match get c "message" with
         | VDict message => key_in "message" c && key_in "content" message
         | _ => false
         end
      then Some (get (match get c "message" with VDict message => message | _ => [] end)
                   "content")
      else if key_in "content" c then Some (get c "content")
      else if key_in "text" c then Some (get c "text")
      else None
  | _ => None
  end.

(** [sep.join(l)], which raises on an item that is no string. *)
Fixpoint join_values (sep : string) (l : list value) : result string :=
  match l with
  | [] => Ok EmptyString
  | VStr x :: r =>
      match r with
      | [] => Ok x
      | _ => let? rest := join_values sep r in Ok (x +:+ sep +:+ rest)
      end
  | _ :: _ => Raise (Exn TypeError "sequence item: expected str instance")
  end.

(** Lines 130 to 160: the text of the model in the answer; [None] stands
    for a [content] that is still [None]. *)
Definition reply_content (reply : llm_reply) : result (option string) :=
  match reply with
  | CallFailed e => Raise e
  | TextBody raw => Ok (Some (strip raw))
  | JsonBody (VDict response_data) =>
      let msg := py_or (get response_data "message") (get response_data "choices") in
      match msg with
      | VDict m =>
          if key_in "content" m then
            let? content := strip_value (get m "content") in Ok (Some content)
          else
            let content := py_or (py_or (get response_data "content")
                                        (get response_data "text")) (VStr EmptyString) in
            let? content := strip_value (py_or content (VStr EmptyString)) in
            Ok (Some content)
      | VList choices =>
          let parts := omap choice_part choices in
          let? joined := join_values (String newline EmptyString)
                           (List.filter truthy parts) in
          Ok (Some (strip joined))
      | _ =>
          let content := py_or (py_or (get response_data "content")
                                      (get response_data "text")) (VStr EmptyString) in
          let? content := strip_value (py_or content (VStr EmptyString)) in
          Ok (Some content)
      end
  | JsonBody _ => Ok None
  end.

(** [validate_and_enhance_spec] called on what [json.loads] returned: a
    value that is no dict has no [get], which the function reports as any
    other error of its body. *)
Definition validate_value (v : value) (md : metadata) : result pydict :=
  match v with
  | VDict spec => validate_and_enhance_spec spec md
  | _ => Raise (Exn ValueError
                  ("Chart specification validation failed" +:+ ": "
                   +:+ "object has no attribute 'get'"))
  end.

(** [parse_user_request], from the answer of the endpoint on.  [json_loads]
    returns [None] where [json.loads] raises [JSONDecodeError]; the call of
    [extract_json_from_text] is written out, so that this error, which the
    function gives a message of its own, is told from the [ValueError]s of
    the scan. *)
Definition parse_user_request (json_loads : string -> option value)
    (reply : llm_reply) (data_metadata : metadata) : result pydict :=
  rewrap Exception "Error calling Ollama LLM"
    (let? content := reply_content reply in
     match content with
     | None => Raise (Exn ValueError "Could not extract model output from response")
     | Some content =>
         if is_empty content
         then Raise (Exn ValueError "Could not extract model output from response")
         else
           let? json_str := extract_json_str content in
           match json_loads json_str with
           | None => Raise (Exn ValueError "LLM returned invalid JSON")
           | Some chart_spec_dict => validate_value chart_spec_dict data_metadata
           end
     end).

(** The parser as [extract_json_from_text] takes it. *)
Definition loads_result (json_loads : string -> option value) (s : string) : result value :=
  match json_loads s with
  | Some v => Ok v
  | None => Raise (Exn ValueError "JSONDecodeError")
  end.

(** A parser of the payloads of the examples. *)
Definition example_parser (s : string) : option value :=
  if String.eqb s ("{" +:+ json_quoted "chart_type" +:+ ":" +:+ json_quoted "bar" +:+ ","
                   +:+ json_quoted "x_axis" +:+ ":" +:+ json_quoted "region" +:+ "}")
  then Some (VDict [("chart_type", VStr "bar"); ("x_axis", VStr "region")])
  else None.

(** The text of the model in the examples: the payload after a sentence. *)
Definition example_answer : string :=
  "Here is the chart: {" +:+ json_quoted "chart_type" +:+ ":" +:+ json_quoted "bar" +:+ ","
  +:+ json_quoted "x_axis" +:+ ":" +:+ json_quoted "region" +:+ "}".

(** ** config.py *)

Definition MAX_UPLOAD_SIZE : Z := 50 * 1024 * 1024.

Definition ALLOWED_FILE_TYPES : list string := ["csv"; "json"; "xlsx"].

(** ** services/data_handler.py: loading and analysis *)

(** What the embedding takes from pandas for a file: the readers, each of
    which returns a table or raises, and the labels of the columns of a
    datetime dtype, which [dtype] does not tell from the other dtypes that
    are neither numbers nor text. *)
Class PandasIO := {
  read_csv : string -> result dataframe;
  read_json : string -> result dataframe;
  read_excel : string -> result dataframe;
  datetime_labels : dataframe -> list string
}.

(** [load_data]: the table read is a new object of the store. *)
Definition load_data `{PandasIO} (file_content : string) (file_type : string) : M loc :=
  rewrapM ValueError "Error loading file"
    (if String.eqb file_type "csv" then
       do d <- lift (read_csv file_content); alloc d
     else if String.eqb file_type "json" then
       do d <- lift (read_json file_content); alloc d
     else if String.eqb file_type "xlsx" then
       do d <- lift (read_excel file_content); alloc d
     else raise (Exn ValueError "Unsupported file type")).

(** [analyze_data_structure], for the keys of the metadata that [metadata]
    holds. *)
Definition analyze_data_structure `{PandasIO} (d : dataframe) : metadata :=
  {| columns := col_names d;
     numerical_columns := col_names (select_numeric d);
     categorical_columns :=
       col_names (List.filter (fun c => match col_dtype c with
                                        | DObject => true
                                        | _ => false
                                        end) d);
     datetime_columns := datetime_labels d;
     row_count := nrows d |}.

(** ** routes/data.py *)

From stdpp Require gmap.

(** An entry of [active_sessions]: the DataFrame is held by reference. *)
Record session := Session {
  session_dataframe : loc;
  session_filename : string;
  session_metadata : metadata
}.

(** The state of the service: [active_sessions] and the store of the
    DataFrame objects. *)
Record server := Server {
  active_sessions : gmap.gmap string session;
  objects : heap
}.

(** What a route answers: a body, or the [HTTPException] that it raised. *)
Inductive http_result (A : Type) : Type :=
| Response (body : A)
| HTTPException (status_code : Z) (detail : string).
Arguments Response {A} body.
Arguments HTTPException {A} status_code detail.

(** What the two routes of routes/data.py report of a session: the
    arguments of [UploadResponse(...)] in [upload_data], and the keys of the
    dictionary that [get_session_info] returns.  [metadata] is the
    dictionary kept in the session. *)
Record session_fields := {
  sf_session_id : string;
  sf_filename : string;
  sf_row_count : nat;
  sf_column_count : nat;
  sf_columns : list string;
  sf_metadata : metadata
}.

(** [s.split('.')[-1]]: the text after the last dot, all of it without
    one. *)
Fixpoint last_piece (s : string) : string :=
  match s with
  | EmptyString => EmptyString
  | String c r =>
      if char_in "." r then last_piece r
      else if Ascii.eqb c "." then r
      else s
  end.

(** The body of the [try] of [upload_data], up to the entry that is stored:
    an [HTTPException] raised in it is passed on as it is. *)
Definition upload_body `{PandasIO} (filename : string) (content : string)
    : M (http_result session) :=
  let file_extension := lower (last_piece filename) in
  if negb (str_in file_extension ALLOWED_FILE_TYPES)
  then ret (HTTPException 400 "Unsupported file type")
  else if (MAX_UPLOAD_SIZE <? Z.of_nat (String.length content))%Z
  then ret (HTTPException 413 "File too large")
  else
    do df <- load_data content file_extension;
    do d <- load df;
    let (is_valid, message) := validate_data d in
    if negb is_valid then ret (HTTPException 400 message)
    else
      let metadata := analyze_data_structure d in
      ret (Response (Session df filename metadata)).

(** The fields reported for a session. *)
Definition session_info (session_id : string) (s : session) (d : dataframe)
    : session_fields :=
  {| sf_session_id := session_id;
     sf_filename := session_filename s;
     sf_row_count := nrows d;
     sf_column_count := length (col_names d);
     sf_columns := col_names d;
     sf_metadata := session_metadata s |}.

(** [upload_data]: [POST /api/data/upload/{session_id}].  The session is
    stored before the response model is built;
    the response model [UploadResponse], with the [DataMetadata] made of
    the metadata, is pydantic's and is taken as the parameter
    [UploadResponse]: when it raises, the upload is refused with status 400
    and the session stays stored. *)
Definition upload_data `{PandasIO} {B : Type}
    (UploadResponse : session_fields -> result B)
    (session_id filename content : string) (srv : server)
    : http_result B * server :=
  match upload_body filename content (objects srv) with
  | (Ok (Response s), h) =>
      let stored := Server (<[session_id := s]> (active_sessions srv)) h in
      match h !! session_dataframe s with
      | Some d =>
          match UploadResponse (session_info session_id s d) with
          | Ok body => (Response body, stored)
          | Raise e =>
              (HTTPException 400 ("Error processing file: " +:+ exn_msg e), stored)
          end
      | None => (HTTPException 400 "Error processing file: no such object", stored)
      end
  | (Ok (HTTPException status_code detail), h) =>
      (HTTPException status_code detail, Server (active_sessions srv) h)
  | (Raise e, h) =>
      (HTTPException 400 ("Error processing file: " +:+ exn_msg e),
       Server (active_sessions srv) h)
  end.


(** [delete_session]: [DELETE /api/data/sessions/{session_id}] *)
Definition delete_session (session_id : string) (srv : server)
    : http_result string * server :=
  match active_sessions srv !! session_id with
  | None => (HTTPException 404 "Session not found", srv)
  | Some _ =>
      (Response ("Session " +:+ session_id +:+ " deleted"),
       Server (delete session_id (active_sessions srv)) (objects srv))
  end.

(** ** routes/charts.py *)



(** The loop that checks the columns of the specification against the
    table: [for col_name in [x_axis, y_axis, color_by]]. *)
Fixpoint check_columns (col_names_ : list value) (d : dataframe) : result unit :=
  match col_names_ with
  | [] => Ok tt
  | col_name :: rest =>
      let? missing := (if truthy col_name
                       then let? present := in_columns col_name d in Ok (negb present)
                       else Ok false) in
      if missing then Raise (Exn ValueError "Column not found in data")
      else check_columns rest d
  end.

(** The body of the [try] of the route: the specification of the model,
    the check of its columns, the chart, and the response model
    [ChartResponse] made of the result, which is pydantic's and is taken as
    the parameter [ChartResponse]. *)
Definition generate_body `{PandasSem} `{PlotlySem} {B : Type}
    (json_loads : string -> option value) (ChartResponse : chart -> result B)
    (s : session) (reply : llm_reply) : M B :=
  let df := session_dataframe s in
  let metadata := session_metadata s in
  do chart_spec <- lift (parse_user_request json_loads reply metadata);
  do d <- load df;
  do _ <- lift (check_columns [get chart_spec "x_axis"; get chart_spec "y_axis";
                               get chart_spec "color_by"] d);
  do result <- generate_chart df chart_spec;
  lift (ChartResponse result).

(** [generate_chart] of the route: [POST /api/charts/generate/{session_id}].
    A [ValueError] is answered with status 400, any other exception with
    status 500. *)
Definition generate_chart_route `{PandasSem} `{PlotlySem} {B : Type}
    (json_loads : string -> option value) (ChartResponse : chart -> result B)
    (session_id : string) (reply : llm_reply) (srv : server)
    : http_result B * server :=
  match active_sessions srv !! session_id with
  | None => (HTTPException 404 "Session not found", srv)
  | Some s =>
      match generate_body json_loads ChartResponse s reply (objects srv) with
      | (Ok result, h) => (Response result, Server (active_sessions srv) h)
      | (Raise e, h) =>
          (match exn_cls e with
           | ValueError => HTTPException 400 (exn_msg e)
           | _ => HTTPException 500 ("Error generating chart: " +:+ exn_msg e)
           end,
           Server (active_sessions srv) h)
      end
  end.

(** *** The state of the service *)

(** Each session holds a table of the store that [validate_data] accepts,
    with the metadata that [analyze_data_structure] gives for it. *)
Definition sessions_sound `{PandasIO} (srv : server) : Prop :=
  forall session_id s,
    active_sessions srv !! session_id = Some s ->
    exists d,
      objects srv !! session_dataframe s = Some d
      /\ fst (validate_data d) = true
      /\ session_metadata s = analyze_data_structure d.

(** The readers of the examples: the sales table for any file. *)
Definition example_io : PandasIO := {|
  read_csv := fun _ => Ok sales_table;
  read_json := fun _ => Ok sales_table;
  read_excel := fun _ => Ok sales_table;
  datetime_labels := fun _ => []
|}.

(** *** Counts in order *)

(** No number of the list is greater than the one before it. *)
Fixpoint nonincreasing (l : list nat) : bool :=
  match l with
  | [] => true
  | a :: r =>
      match r with
      | [] => true
      | b :: _ => (b <=? a)%nat && nonincreasing r
      end
  end.

(** * Properties *)

(** ** Strings *)

Arguments String.append !_ _ / : simpl nomatch.

Lemma append_assoc (a b c : string) : (a +:+ b) +:+ c = a +:+ (b +:+ c).
Proof. induction a as [|x a IH]; simpl; [reflexivity | now rewrite IH]. Qed.

Lemma append_nil_r (a : string) : a +:+ EmptyString = a.
Proof. induction a as [|x a IH]; simpl; [reflexivity | now rewrite IH]. Qed.

Lemma length_append (a b : string) :
  String.length (a +:+ b) = (String.length a + String.length b)%nat.
Proof. induction a as [|x a IH]; simpl; [reflexivity | now rewrite IH]. Qed.

Lemma drop_str_append (a b : string) : drop_str (String.length a) (a +:+ b) = b.
Proof. induction a as [|x a IH]; simpl; auto. Qed.

Lemma substring_prefix (p r : string) :
  substring 0 (String.length p) (p +:+ r) = p.
Proof. induction p as [|x p IH]; simpl; [now destruct r | now rewrite IH]. Qed.

Lemma substring_middle (a p r : string) :
  substring (String.length a) (String.length p) (a +:+ (p +:+ r)) = p.
Proof. induction a as [|x a IH]; simpl; [apply substring_prefix | exact IH]. Qed.

(** ** C3: the extraction of the JSON payload *)

Lemma close_not_open c : is_close c = true -> is_open c = false.
Proof.
  unfold is_close, is_open. intros H.
  apply orb_true_iff in H as [H | H]; apply Ascii.eqb_eq in H; subst; reflexivity.
Qed.

Lemma matching_open o c : matching o c -> is_open o = true.
Proof. intros [[-> _] | [-> _]]; reflexivity. Qed.

Lemma matching_close o c : matching o c -> is_close c = true.
Proof. intros [[_ ->] | [_ ->]]; reflexivity. Qed.

Lemma matching_test o c :
  matching o c ->
  (Ascii.eqb o "{" && negb (Ascii.eqb c "}")) || (Ascii.eqb o "[" && negb (Ascii.eqb c "]"))
  = false.
Proof. intros [[-> ->] | [-> ->]]; reflexivity. Qed.

Lemma mismatch_test o c :
  is_open o = true -> ~ matching o c ->
  (Ascii.eqb o "{" && negb (Ascii.eqb c "}")) || (Ascii.eqb o "[" && negb (Ascii.eqb c "]"))
  = true.
Proof.
  unfold is_open, matching. intros Ho Hm.
  destruct (Ascii.eqb_spec o "{") as [-> | _]; simpl in *.
  - destruct (Ascii.eqb_spec c "}") as [-> | _]; [exfalso; apply Hm; auto | reflexivity].
  - destruct (Ascii.eqb_spec o "[") as [-> | _]; [| discriminate]; simpl.
    destruct (Ascii.eqb_spec c "]") as [-> | _]; [exfalso; apply Hm; auto | reflexivity].
Qed.

(** The search for the two brackets finds the first opening bracket. *)
Lemma start_index_first_open text :
  start_index (find "{" text) (find "[" text) = first_open text.
Proof.
  induction text as [|c r IH]; [reflexivity|].
  simpl. unfold is_open.
  destruct (Ascii.eqb_spec c "{") as [-> | Hb]; simpl.
  - now destruct (find "[" r).
  - destruct (Ascii.eqb_spec c "[") as [-> | Hk]; simpl.
    + now destruct (find "{" r).
    + rewrite <- IH. destruct (find "{" r), (find "[" r); simpl; auto.
Qed.

Lemma first_open_none text : no_open text = true -> first_open text = None.
Proof.
  induction text as [|c r IH]; simpl; [reflexivity|].
  intros H. apply andb_true_iff in H as [Hc Hr].
  apply negb_true_iff in Hc. rewrite Hc, (IH Hr). reflexivity.
Qed.

Lemma first_open_append pre o r :
  no_open pre = true -> is_open o = true ->
  first_open (pre +:+ String o r) = Some (String.length pre).
Proof.
  intros Hpre Ho. induction pre as [|c p IH]; simpl in *.
  - now rewrite Ho.
  - apply andb_true_iff in Hpre as [Hc Hp]. apply negb_true_iff in Hc.
    rewrite Hc, (IH Hp). reflexivity.
Qed.

(** Under a bracket that is open, a nested text is read through and leaves
    the stack as it was. *)
Lemma scan_nested w :
  nested w ->
  forall rest i top st,
    scan (w +:+ rest) i (top :: st) = scan rest (i + String.length w) (top :: st).
Proof.
  induction 1 as [| c s Ho Hc _ IH | o c s t Hm _ IHs _ IHt]; intros rest i top st.
  - simpl. now rewrite Nat.add_0_r.
  - simpl. rewrite Ho, Hc, IH. f_equal. lia.
  - simpl. rewrite (matching_open _ _ Hm).
    rewrite append_assoc. rewrite IHs. simpl.
    rewrite (close_not_open _ (matching_close _ _ Hm)), (matching_close _ _ Hm).
    rewrite (matching_test _ _ Hm), IHt.
    f_equal. rewrite length_append. simpl. lia.
Qed.

Lemma pending_opens u st : pending u st -> Forall (fun o => is_open o = true) st.
Proof.
  induction 1 as [| s o t st _ Ho _ IH]; [constructor|].
  apply Forall_app. split; [exact IH | repeat constructor; exact Ho].
Qed.

Lemma scan_pending u st :
  pending u st ->
  forall rest i top st0,
    scan (u +:+ rest) i (top :: st0)
    = scan rest (i + String.length u) (st ++ top :: st0).
Proof.
  induction 1 as [s Hs | s o t st Hs Ho _ IH]; intros rest i top st0.
  - now apply scan_nested.
  - rewrite append_assoc, (scan_nested _ Hs). simpl. rewrite Ho, IH.
    rewrite <- app_assoc. simpl. f_equal.
    rewrite length_append. simpl. lia.
Qed.

Lemma extract_json_str_nested pre o w c post :
  no_open pre = true -> matching o c -> nested w ->
  extract_json_str (pre +:+ String o (w +:+ String c post))
  = Ok (String o (w +:+ String c EmptyString)).
Proof.
  intros Hpre Hm Hw. unfold extract_json_str.
  assert (Hne : is_empty (pre +:+ String o (w +:+ String c post)) = false)
    by now destruct pre.
  rewrite Hne, start_index_first_open.
  rewrite (first_open_append _ _ _ Hpre (matching_open _ _ Hm)).
  rewrite drop_str_append. simpl. rewrite (matching_open _ _ Hm).
  rewrite (scan_nested _ Hw). simpl.
  rewrite (close_not_open _ (matching_close _ _ Hm)), (matching_close _ _ Hm).
  rewrite (matching_test _ _ Hm). simpl.
  replace (S (S (String.length pre + String.length w)) - String.length pre)%nat
    with (String.length (String o (w +:+ String c EmptyString)))
    by (simpl; rewrite length_append; simpl; lia).
  replace (String o (w +:+ String c post))
    with (String o (w +:+ String c EmptyString) +:+ post)
    by (simpl; now rewrite append_assoc).
  now rewrite substring_middle.
Qed.

Lemma extract_json_str_mismatch pre o u st c post :
  no_open pre = true -> is_open o = true -> pending u st ->
  is_close c = true -> ~ matching (hd o st) c ->
  extract_json_str (pre +:+ String o (u +:+ String c post))
  = Raise (Exn ValueError "Malformed JSON: mismatched brackets").
Proof.
  intros Hpre Ho Hu Hc Hm. unfold extract_json_str.
  assert (Hne : is_empty (pre +:+ String o (u +:+ String c post)) = false)
    by now destruct pre.
  rewrite Hne, start_index_first_open, (first_open_append _ _ _ Hpre Ho).
  rewrite drop_str_append. simpl. rewrite Ho.
  rewrite (scan_pending _ _ Hu). simpl.
  rewrite (close_not_open _ Hc), Hc.
  pose proof (pending_opens _ _ Hu) as Hst.
  destruct st as [|top st]; simpl in *.
  - now rewrite (mismatch_test _ _ Ho Hm).
  - inversion Hst; subst. now rewrite (mismatch_test top c).
Qed.

Lemma extract_json_str_unbalanced pre o u st :
  no_open pre = true -> is_open o = true -> pending u st ->
  extract_json_str (pre +:+ String o u)
  = Raise (Exn ValueError "Malformed JSON: unbalanced brackets in LLM response").
Proof.
  intros Hpre Ho Hu. unfold extract_json_str.
  assert (Hne : is_empty (pre +:+ String o u) = false) by now destruct pre.
  rewrite Hne, start_index_first_open, (first_open_append _ _ _ Hpre Ho).
  rewrite drop_str_append. simpl. rewrite Ho.
  rewrite <- (append_nil_r u), (scan_pending _ _ Hu). reflexivity.
Qed.

Lemma extract_json_str_no_open text :
  no_open text = true -> is_ok (extract_json_str text) = false.
Proof.
  intros H. unfold extract_json_str.
  destruct (is_empty text); [reflexivity|].
  now rewrite start_index_first_open, (first_open_none _ H).
Qed.

(** C3. The extraction starts at the first opening bracket and returns the
    parse of the text up to the bracket that empties the stack, whatever
    stands before and after; it fails when the text has no opening bracket,
    when a closing bracket does not match the innermost open one, and when
    the stack is never emptied.  On the fenced text of the example it returns
    the parse of [{"a":1}], and on [{"a": [1,2}] it fails on mismatched
    brackets. *)
Theorem extract_json_from_text_spec (json_loads : string -> result value) :
  (forall text, no_open text = true ->
     is_ok (extract_json_from_text json_loads text) = false)
  /\ (forall pre o w c post,
        no_open pre = true -> matching o c -> nested w ->
        extract_json_from_text json_loads (pre +:+ String o (w +:+ String c post))
        = json_loads (String o (w +:+ String c EmptyString)))
  /\ (forall pre o u st c post,
        no_open pre = true -> is_open o = true -> pending u st ->
        is_close c = true -> ~ matching (hd o st) c ->
        extract_json_from_text json_loads (pre +:+ String o (u +:+ String c post))
        = Raise (Exn ValueError "Malformed JSON: mismatched brackets"))
  /\ (forall pre o u st,
        no_open pre = true -> is_open o = true -> pending u st ->
        extract_json_from_text json_loads (pre +:+ String o u)
        = Raise (Exn ValueError "Malformed JSON: unbalanced brackets in LLM response"))
  /\ (json_loads fenced_payload = Ok (VDict [("a", VInt 1)]) ->
      extract_json_from_text json_loads fenced_text = Ok (VDict [("a", VInt 1)]))
  /\ extract_json_from_text json_loads unbalanced_text
     = Raise (Exn ValueError "Malformed JSON: mismatched brackets").
Proof.
  unfold extract_json_from_text. repeat split.
  - intros text H. pose proof (extract_json_str_no_open text H) as Hs.
    now destruct (extract_json_str text).
  - intros. now rewrite extract_json_str_nested.
  - intros. now erewrite extract_json_str_mismatch by eassumption.
  - intros. now erewrite extract_json_str_unbalanced by eassumption.
  - intros H. change (extract_json_str fenced_text) with (Ok fenced_payload).
    exact H.
Qed.

Lemma extract_json_from_text_spec_witness :
  extract_json_from_text example_loads fenced_text = Ok (VDict [("a", VInt 1)]).
Proof.
  apply (proj1 (proj2 (proj2 (proj2 (proj2 (extract_json_from_text_spec example_loads)))))).
  reflexivity.
Defined.

(** ** Dictionaries *)

Lemma lookup_setitem k k0 d v :
  dict_lookup k (setitem d k0 v) = if String.eqb k k0 then Some v else dict_lookup k d.
Proof.
  induction d as [|[k' v'] d IH]; simpl.
  - reflexivity.
  - destruct (String.eqb_spec k0 k') as [-> | Hne]; simpl.
    + now destruct (String.eqb k k').
    + rewrite IH. destruct (String.eqb_spec k k') as [-> | Hne'].
      * destruct (String.eqb_spec k' k0); [congruence | reflexivity].
      * reflexivity.
Qed.

Lemma get_default_setitem k k0 d v dflt :
  get_default (setitem d k0 v) k dflt = if String.eqb k k0 then v else get_default d k dflt.
Proof. unfold get_default. rewrite lookup_setitem. now destruct (String.eqb k k0). Qed.

Lemma get_setitem k k0 d v :
  get (setitem d k0 v) k = if String.eqb k k0 then v else get d k.
Proof. apply get_default_setitem. Qed.

Lemma setitem_id k d v : dict_lookup k d = Some v -> setitem d k v = d.
Proof.
  induction d as [|[k' v'] d IH]; simpl; [discriminate|].
  destruct (String.eqb_spec k k') as [-> | Hne]; intros H.
  - now inversion H.
  - now rewrite IH.
Qed.

Lemma get_lookup k d v : get d k = v -> v <> VNone -> dict_lookup k d = Some v.
Proof.
  unfold get, get_default. destruct (dict_lookup k d); intros; subst; congruence.
Qed.

Lemma key_in_lookup k d : key_in k d = true -> dict_lookup k d = Some (get d k).
Proof.
  unfold get, get_default. induction d as [|[k' v'] d IH]; simpl; [discriminate|].
  destruct (String.eqb k k'); simpl; auto.
Qed.

(** ** Case and blanks *)

Lemma is_space_lower c : is_space (lower_char c) = is_space c.
Proof. destruct c as [[] [] [] [] [] [] [] []]; reflexivity. Qed.

Lemma lower_char_idem c : lower_char (lower_char c) = lower_char c.
Proof. destruct c as [[] [] [] [] [] [] [] []]; reflexivity. Qed.

Lemma lower_idem s : lower (lower s) = lower s.
Proof. induction s as [|c s IH]; simpl; [reflexivity | now rewrite lower_char_idem, IH]. Qed.

Lemma is_empty_lower s : is_empty (lower s) = is_empty s.
Proof. now destruct s. Qed.

Lemma lstrip_lower s : lstrip (lower s) = lower (lstrip s).
Proof.
  induction s as [|c s IH]; simpl; [reflexivity|].
  rewrite is_space_lower. now destruct (is_space c).
Qed.

Lemma rstrip_lower s : rstrip (lower s) = lower (rstrip s).
Proof.
  induction s as [|c s IH]; simpl; [reflexivity|].
  rewrite is_space_lower, IH, is_empty_lower.
  now destruct (is_space c && is_empty (rstrip s)).
Qed.

Lemma strip_lower s : strip (lower s) = lower (strip s).
Proof. unfold strip. now rewrite lstrip_lower, rstrip_lower. Qed.

Lemma rstrip_idem s : rstrip (rstrip s) = rstrip s.
Proof.
  induction s as [|c s IH]; simpl; [reflexivity|].
  destruct (is_space c && is_empty (rstrip s)) eqn:E; simpl; [reflexivity|].
  now rewrite IH, E.
Qed.

Lemma lstrip_head s :
  match lstrip s with EmptyString => True | String c _ => is_space c = false end.
Proof.
  induction s as [|c s IH]; simpl; [exact I|].
  destruct (is_space c) eqn:E; [exact IH | exact E].
Qed.

Lemma lstrip_rstrip_clean t :
  match t with EmptyString => True | String c _ => is_space c = false end ->
  lstrip (rstrip t) = rstrip t.
Proof.
  destruct t as [|c t]; simpl; [reflexivity|].
  intros E. rewrite E. simpl. now rewrite E.
Qed.

Lemma strip_idem s : strip (strip s) = strip s.
Proof.
  unfold strip. rewrite (lstrip_rstrip_clean _ (lstrip_head s)). apply rstrip_idem.
Qed.

(** Cleaning an operator twice is cleaning it once. *)
Lemma clean_idem s : lower (strip (lower (strip s))) = lower (strip s).
Proof. now rewrite strip_lower, strip_idem, lower_idem. Qed.

(** ** The filter clauses *)

Lemma assoc_op_map c o :
  assoc c op_map = Some o ->
  In o ["=="; "!="; ">"; "<"; ">="; "<="].
Proof.
  unfold op_map. simpl.
  repeat (match goal with
          | |- context [String.eqb c ?k] => destruct (String.eqb c k)
          end;
          [intros H; inversion H; subst; simpl; tauto |]).
  discriminate.
Qed.

Lemma normalize_operator_idem op : normalize_operator (normalize_operator op) = normalize_operator op.
Proof.
  destruct op; try reflexivity. unfold normalize_operator.
  destruct (assoc (lower (strip s)) op_map) as [o|] eqn:E.
  - apply assoc_op_map in E. simpl in E.
    repeat (destruct E as [<- | E]; [reflexivity|]). contradiction.
  - now rewrite clean_idem, E.
Qed.

Lemma str_of_Z_nonempty n : is_empty (str_of_Z n) = false.
Proof.
  unfold str_of_Z. destruct (Z.to_int n) as [d | d]; simpl; [| reflexivity].
  destruct d; reflexivity.
Qed.

(** The text of a truthy value is not empty. *)
Lemma py_str_nonempty v : truthy v = true -> is_empty (py_str v) = false.
Proof.
  destruct v as [| b | n | f | s | l | d]; simpl; try discriminate; intros H.
  - now destruct b.
  - apply str_of_Z_nonempty.
  - reflexivity.
  - now destruct s.
  - reflexivity.
  - reflexivity.
Qed.

Lemma str_in_In s l : str_in s l = true <-> In s l.
Proof.
  induction l as [|x l IH]; simpl; [split; [discriminate | tauto]|].
  rewrite orb_true_iff, IH, String.eqb_eq. split; intros [H | H]; auto.
Qed.

Lemma matches_head cols col m r :
  matches cols col = m :: r ->
  In m cols /\ lower m = lower (py_str col).
Proof.
  unfold matches. intros H.
  assert (Hin : In m (List.filter (fun c => String.eqb (lower c) (lower (py_str col))) cols))
    by (rewrite H; now left).
  apply filter_In in Hin as [Hin Heq]. apply String.eqb_eq in Heq. now split.
Qed.

(** The first column that equals [col] when case is ignored. *)
Lemma matches_first cols col m r :
  matches cols col = m :: r ->
  exists pre post,
    cols = pre ++ m :: post /\
    lower m = lower (py_str col) /\
    Forall (fun c => lower c <> lower (py_str col)) pre.
Proof.
  unfold matches. induction cols as [|c cols IH]; simpl; [discriminate|].
  destruct (String.eqb_spec (lower c) (lower (py_str col))) as [E | E]; intros H.
  - inversion H; subst. exists [], cols. repeat split; auto.
  - destruct (IH H) as (pre & post & -> & Hm & Hpre).
    exists (c :: pre), post. repeat split; auto.
Qed.


Lemma py_or_truthy a b : truthy a = true -> py_or a b = a.
Proof. unfold py_or. now intros ->. Qed.

(** A clause in the canonical shape, whose column is a column of the table
    and whose operator is already clean, is kept as it is. *)
Lemma normalize_filter_canonical cols c op v :
  truthy c = true -> truthy op = true -> normalize_operator op = op ->
  is_none v = false -> value_in c cols = true ->
  normalize_filter cols (filter_clause c op v) = Some (filter_clause c op v).
Proof.
  intros Hc Hop Hn Hv Hin.
  unfold filter_clause, normalize_filter.
  assert (Ec : filter_col [("column", c); ("operator", op); ("value", v)] = c).
  { unfold filter_col, py_or. cbn. now repeat (rewrite Hc; cbn). }
  assert (Eo : filter_op [("column", c); ("operator", op); ("value", v)] = op).
  { unfold filter_op, py_or. cbn. now repeat (rewrite Hop; cbn). }
  assert (Ev : filter_val [("column", c); ("operator", op); ("value", v)] = v)
    by reflexivity.
  rewrite Ec, Eo, Ev, Hn, Hc, Hop, Hv, Hin. reflexivity.
Qed.

(** A clause that the normalizer wrote is left as it is by the normalizer. *)
Lemma normalize_filter_idem cols f g :
  normalize_filter cols f = Some g -> normalize_filter cols g = Some g.
Proof.
  destruct f as [| | | | | | fd]; try discriminate. simpl.
  destruct (truthy (filter_col fd)) eqn:Hcol; [| discriminate].
  destruct (truthy (normalize_operator (filter_op fd))) eqn:Hop; [| discriminate].
  destruct (is_none (filter_val fd)) eqn:Hval; [discriminate|]. simpl.
  destruct (value_in (filter_col fd) cols) eqn:Hin.
  - intros H; inversion H; subst.
    apply normalize_filter_canonical; auto using normalize_operator_idem.
  - destruct (matches cols (filter_col fd)) as [|m r] eqn:Hm; [discriminate|].
    intros H; inversion H; subst.
    destruct (matches_head _ _ _ _ Hm) as [Hmin Hlow].
    apply normalize_filter_canonical; auto using normalize_operator_idem.
    + simpl. pose proof (py_str_nonempty _ Hcol) as Hne.
      rewrite <- is_empty_lower, <- Hlow, is_empty_lower in Hne. now rewrite Hne.
    + simpl. now apply str_in_In.
Qed.

Lemma normalize_filters_idem cols raw :
  normalize_filters cols (normalize_filters cols raw) = normalize_filters cols raw.
Proof.
  unfold normalize_filters. induction raw as [|f raw IH]; simpl; [reflexivity|].
  destruct (normalize_filter cols f) as [g|] eqn:E; simpl; [| exact IH].
  rewrite (normalize_filter_idem _ _ _ E). f_equal. exact IH.
Qed.

Lemma normalize_filters_length cols raw :
  (length (normalize_filters cols raw) <= length raw)%nat.
Proof.
  unfold normalize_filters. induction raw as [|f raw IH]; simpl; [lia|].
  destruct (normalize_filter cols f); unfold omap in *; simpl in *; lia.
Qed.

(** ** The statements of the normalizer, one key at a time *)

Lemma lookup_enhance_filters k spec cols :
  String.eqb k "filters" = false ->
  dict_lookup k (enhance_filters spec cols) = dict_lookup k spec.
Proof.
  intros E. unfold enhance_filters.
  destruct (get spec "filters"); try reflexivity. now rewrite lookup_setitem, E.
Qed.

Lemma lookup_clear_missing k k0 spec cols :
  String.eqb k k0 = false ->
  dict_lookup k (clear_missing spec k0 cols) = dict_lookup k spec.
Proof.
  intros E. unfold clear_missing.
  destruct (names_missing_column spec k0 cols); [| reflexivity].
  now rewrite lookup_setitem, E.
Qed.

Lemma lookup_default_aggregation k spec md :
  String.eqb k "aggregation" = false ->
  dict_lookup k (default_aggregation spec md) = dict_lookup k spec.
Proof.
  intros E. unfold default_aggregation.
  destruct (negb (truthy (get spec "aggregation"))); [| reflexivity].
  destruct (value_in (get spec "y_axis") (numerical_columns md));
    now rewrite lookup_setitem, E.
Qed.

Lemma lookup_default_title k spec spec' :
  default_title spec = Ok spec' ->
  String.eqb k "title" = false ->
  dict_lookup k spec' = dict_lookup k spec.
Proof.
  unfold default_title. intros H E.
  destruct (negb (truthy (get spec "title"))); [| now inversion H].
  destruct (get_default spec "chart_type" (VStr "Chart")); try discriminate.
  inversion H; subst. now rewrite lookup_setitem, E.
Qed.

Lemma lookup_default_x_label k spec :
  String.eqb k "x_label" = false ->
  dict_lookup k (default_x_label spec) = dict_lookup k spec.
Proof.
  intros E. unfold default_x_label.
  destruct (negb (truthy (get spec "x_label"))); [| reflexivity].
  now rewrite lookup_setitem, E.
Qed.

Lemma lookup_default_y_label k spec :
  String.eqb k "y_label" = false ->
  dict_lookup k (default_y_label spec) = dict_lookup k spec.
Proof.
  intros E. unfold default_y_label.
  destruct (negb (truthy (get spec "y_label"))); [| reflexivity].
  now rewrite lookup_setitem, E.
Qed.

Lemma get_default_lookup a b k dflt :
  dict_lookup k a = dict_lookup k b -> get_default a k dflt = get_default b k dflt.
Proof. unfold get_default. now intros ->. Qed.

Lemma get_by_lookup a b k : dict_lookup k a = dict_lookup k b -> get a k = get b k.
Proof. apply get_default_lookup. Qed.

Lemma names_missing_by_lookup a b k cols :
  dict_lookup k a = dict_lookup k b ->
  names_missing_column a k cols = names_missing_column b k cols.
Proof. unfold names_missing_column. intros H. now rewrite (get_by_lookup _ _ _ H). Qed.

(** What the statements before the title leave of a key that none of them
    writes. *)
Lemma lookup_before_title k spec md :
  String.eqb k "filters" = false -> String.eqb k "y_axis" = false ->
  String.eqb k "color_by" = false -> String.eqb k "aggregation" = false ->
  dict_lookup k
    (default_aggregation
       (clear_missing (clear_missing (enhance_filters spec (columns md)) "y_axis" (columns md))
          "color_by" (columns md)) md)
  = dict_lookup k spec.
Proof.
  intros. now rewrite lookup_default_aggregation, !lookup_clear_missing,
    lookup_enhance_filters.
Qed.

Lemma is_empty_append_chart s : is_empty (s +:+ " Chart") = false.
Proof. now destruct s. Qed.

(** The decomposition of a run of the body that returns. *)
Lemma validate_body_ok spec md r :
  validate_body spec md = Ok r ->
  exists s5,
    names_missing_column (enhance_filters spec (columns md)) "x_axis" (columns md) = false /\
    default_title
      (default_aggregation
         (clear_missing (clear_missing (enhance_filters spec (columns md)) "y_axis" (columns md))
            "color_by" (columns md)) md) = Ok s5 /\
    r = default_y_label (default_x_label s5).
Proof.
  unfold validate_body. cbv zeta.
  destruct (names_missing_column (enhance_filters spec (columns md)) "x_axis" (columns md));
    [discriminate|].
  destruct (default_title _) as [s5|]; [| discriminate].
  simpl. intros H. inversion H. now exists s5.
Qed.

Lemma validate_and_enhance_spec_ok spec md r :
  validate_and_enhance_spec spec md = Ok r <-> validate_body spec md = Ok r.
Proof.
  unfold validate_and_enhance_spec, rewrap.
  destruct (validate_body spec md); split; congruence.
Qed.

(** When the body returns: the primary axis is absent or resolvable, and the
    title is given or can be made from the chart type. *)
Lemma validate_body_is_ok spec md :
  is_ok (validate_body spec md)
  = negb (names_missing_column spec "x_axis" (columns md))
    && (truthy (get spec "title") || chart_type_is_text spec).
Proof.
  unfold validate_body.
  rewrite (names_missing_by_lookup _ spec) by now apply lookup_enhance_filters.
  destruct (names_missing_column spec "x_axis" (columns md)); [reflexivity|]. simpl.
  unfold default_title, chart_type_is_text.
  rewrite (get_by_lookup _ spec "title") by now apply lookup_before_title.
  rewrite (get_default_lookup _ spec "chart_type") by now apply lookup_before_title.
  destruct (truthy (get spec "title")); simpl; [reflexivity|].
  now destruct (get_default spec "chart_type" (VStr "Chart")).
Qed.

(** A specification on which no statement of the body has anything to do. *)
Lemma validate_body_stable r md :
  (forall fs, get r "filters" = VList fs -> normalize_filters (columns md) fs = fs) ->
  names_missing_column r "x_axis" (columns md) = false ->
  names_missing_column r "y_axis" (columns md) = false ->
  names_missing_column r "color_by" (columns md) = false ->
  truthy (get r "aggregation") = true ->
  truthy (get r "title") = true ->
  (truthy (get r "x_label") = true \/ dict_lookup "x_label" r = Some (get r "x_axis")) ->
  (truthy (get r "y_label") = true
   \/ dict_lookup "y_label" r = Some (get_default r "y_axis" (VStr "Value"))) ->
  validate_body r md = Ok r.
Proof.
  intros Hf Hx Hy Hc Ha Ht Hxl Hyl. unfold validate_body.
  assert (E1 : enhance_filters r (columns md) = r).
  { unfold enhance_filters. destruct (get r "filters") eqn:E; try reflexivity.
    rewrite (Hf _ eq_refl). apply setitem_id. now apply get_lookup. }
  rewrite E1, Hx. unfold clear_missing. rewrite Hy, Hc.
  unfold default_aggregation. rewrite Ha. simpl.
  unfold default_title. rewrite Ht. simpl.
  assert (E2 : default_x_label r = r).
  { unfold default_x_label. destruct (truthy (get r "x_label")) eqn:E; [reflexivity|].
    destruct Hxl as [? | Hxl]; [congruence|]. simpl. now apply setitem_id. }
  rewrite E2. unfold default_y_label.
  destruct (truthy (get r "y_label")) eqn:E; [reflexivity|].
  destruct Hyl as [? | Hyl]; [congruence|]. simpl. f_equal. now apply setitem_id.
Qed.

Lemma clear_missing_cleared spec k cols :
  names_missing_column (clear_missing spec k cols) k cols = false.
Proof.
  unfold clear_missing. destruct (names_missing_column spec k cols) eqn:E; [| exact E].
  unfold names_missing_column. now rewrite get_setitem, String.eqb_refl.
Qed.

Lemma clear_missing_none spec k cols :
  names_missing_column spec k cols = true ->
  dict_lookup k (clear_missing spec k cols) = Some VNone.
Proof.
  intros E. unfold clear_missing. now rewrite E, lookup_setitem, String.eqb_refl.
Qed.

(** What the body returns is a specification on which the body has nothing
    left to do. *)
Lemma validate_body_normal spec md r :
  validate_body spec md = Ok r ->
  (forall fs, get r "filters" = VList fs -> normalize_filters (columns md) fs = fs) /\
  names_missing_column r "x_axis" (columns md) = false /\
  names_missing_column r "y_axis" (columns md) = false /\
  names_missing_column r "color_by" (columns md) = false /\
  truthy (get r "aggregation") = true /\
  truthy (get r "title") = true /\
  (truthy (get r "x_label") = true \/ dict_lookup "x_label" r = Some (get r "x_axis")) /\
  (truthy (get r "y_label") = true
   \/ dict_lookup "y_label" r = Some (get_default r "y_axis" (VStr "Value"))).
Proof.
  intros H. destruct (validate_body_ok _ _ _ H) as (s5 & Hx & Ht & ->).
  set (cols := columns md) in *.
  set (s1 := enhance_filters spec cols) in *.
  set (s2 := clear_missing s1 "y_axis" cols) in *.
  set (s3 := clear_missing s2 "color_by" cols) in *.
  set (s4 := default_aggregation s3 md) in *.
  assert (L : forall k, String.eqb k "x_label" = false -> String.eqb k "y_label" = false ->
                String.eqb k "title" = false ->
                dict_lookup k (default_y_label (default_x_label s5)) = dict_lookup k s4).
  { intros k E1 E2 E3.
    now rewrite lookup_default_y_label, lookup_default_x_label,
      (lookup_default_title _ _ _ Ht). }
  repeat split.
  - intros fs. rewrite (get_by_lookup _ s1 "filters").
    2:{ rewrite L by reflexivity. unfold s4, s3, s2.
        now rewrite lookup_default_aggregation, !lookup_clear_missing. }
    unfold s1, enhance_filters. destruct (get spec "filters") eqn:E;
      try (rewrite E; discriminate).
    rewrite get_setitem. simpl. intros Hfs. inversion Hfs. apply normalize_filters_idem.
  - rewrite (names_missing_by_lookup _ s1); [exact Hx|].
    rewrite L by reflexivity. unfold s4, s3, s2.
    now rewrite lookup_default_aggregation, !lookup_clear_missing.
  - rewrite (names_missing_by_lookup _ s2); [apply clear_missing_cleared|].
    rewrite L by reflexivity. unfold s4, s3.
    now rewrite lookup_default_aggregation, lookup_clear_missing.
  - rewrite (names_missing_by_lookup _ s3); [apply clear_missing_cleared|].
    rewrite L by reflexivity. unfold s4. now rewrite lookup_default_aggregation.
  - rewrite (get_by_lookup _ s4) by now apply L.
    unfold s4, default_aggregation.
    destruct (truthy (get s3 "aggregation")) eqn:E; simpl; [exact E|].
    destruct (value_in _ _); now rewrite get_setitem.
  - rewrite (get_by_lookup _ s5 "title")
      by now rewrite lookup_default_y_label, lookup_default_x_label.
    revert Ht. unfold default_title.
    destruct (truthy (get s4 "title")) eqn:E; simpl.
    + intros Ht; inversion Ht; subst. exact E.
    + destruct (get_default s4 "chart_type" (VStr "Chart")); try discriminate.
      intros Ht; inversion Ht. rewrite get_setitem. simpl.
      now rewrite is_empty_append_chart.
  - assert (Ea : dict_lookup "x_label" (default_y_label (default_x_label s5))
                 = dict_lookup "x_label" (default_x_label s5))
      by now apply lookup_default_y_label.
    assert (Eb : get (default_y_label (default_x_label s5)) "x_axis" = get s5 "x_axis")
      by (apply get_by_lookup; now rewrite lookup_default_y_label, lookup_default_x_label).
    rewrite (get_by_lookup _ _ _ Ea), Ea, Eb. unfold default_x_label.
    destruct (truthy (get s5 "x_label")) eqn:E; simpl; [now left | right].
    now rewrite lookup_setitem.
  - set (s6 := default_x_label s5). unfold default_y_label.
    destruct (truthy (get s6 "y_label")) eqn:E; simpl; [now left | right].
    now rewrite lookup_setitem, get_default_setitem.
Qed.

(** ** C2: the normalizer is idempotent *)

(** C2. When the normalizer returns a specification for an intent and a
    metadata, it returns that same specification when it is given it back
    with the same metadata.  (The function of the source writes into the
    dictionary it is given and returns it: the statement is on the contents,
    and holds for a copy of the result as for the result itself.) *)
Theorem validate_and_enhance_spec_idempotent (I : pydict) (M : metadata) (r : pydict) :
  validate_and_enhance_spec I M = Ok r ->
  validate_and_enhance_spec r M = Ok r.
Proof.
  rewrite !validate_and_enhance_spec_ok. intros H.
  destruct (validate_body_normal _ _ _ H) as (? & ? & ? & ? & ? & ? & ? & ?).
  now apply validate_body_stable.
Qed.

Lemma validate_and_enhance_spec_idempotent_witness :
  validate_and_enhance_spec
    [("chart_type", VStr "bar"); ("x_axis", VStr "region"); ("y_axis", VStr "sales");
     ("filters", VList [VDict [("col", VStr "REGION"); ("op", VStr "is");
                               ("val", VStr "north")]]);
     ("aggregation", VStr "sum"); ("title", VStr "Bar Chart");
     ("x_label", VStr "region"); ("y_label", VStr "sales")]
    (Metadata ["region"; "sales"] ["sales"] ["region"] [] 5)
  = Ok [("chart_type", VStr "bar"); ("x_axis", VStr "region"); ("y_axis", VStr "sales");
        ("filters", VList [filter_clause (VStr "region") (VStr "==") (VStr "north")]);
        ("aggregation", VStr "sum"); ("title", VStr "Bar Chart");
        ("x_label", VStr "region"); ("y_label", VStr "sales")]
  /\ validate_and_enhance_spec
       [("chart_type", VStr "bar"); ("x_axis", VStr "region"); ("y_axis", VStr "sales");
        ("filters", VList [filter_clause (VStr "region") (VStr "==") (VStr "north")]);
        ("aggregation", VStr "sum"); ("title", VStr "Bar Chart");
        ("x_label", VStr "region"); ("y_label", VStr "sales")]
       (Metadata ["region"; "sales"] ["sales"] ["region"] [] 5)
     = Ok [("chart_type", VStr "bar"); ("x_axis", VStr "region"); ("y_axis", VStr "sales");
           ("filters", VList [filter_clause (VStr "region") (VStr "==") (VStr "north")]);
           ("aggregation", VStr "sum"); ("title", VStr "Bar Chart");
           ("x_label", VStr "region"); ("y_label", VStr "sales")].
Proof.
  split; [reflexivity|].
  apply (validate_and_enhance_spec_idempotent
           [("chart_type", VStr "bar"); ("x_axis", VStr "region"); ("y_axis", VStr "sales");
            ("filters", VList [VDict [("col", VStr "REGION"); ("op", VStr "is");
                                      ("val", VStr "north")]]);
            ("aggregation", VStr "sum"); ("title", VStr "Bar Chart");
            ("x_label", VStr "region"); ("y_label", VStr "sales")]).
  reflexivity.
Defined.

(** ** C1: when the normalizer fails *)

Lemma validate_and_enhance_spec_is_ok spec md :
  is_ok (validate_and_enhance_spec spec md) = is_ok (validate_body spec md).
Proof. unfold validate_and_enhance_spec, rewrap. now destruct (validate_body spec md). Qed.

(** C1, as the code has it.  For an intent whose title is given or whose
    chart type is a text (or absent), the normalizer fails exactly when
    [x_axis] is present and names no column of the metadata: an intent
    without [x_axis] is accepted.  A failure is a [ValueError]; and when the
    normalizer returns, a [y_axis] or a [color_by] that named no column is
    [None] in the result. *)
Theorem validate_and_enhance_spec_failure (spec : pydict) (md : metadata) :
  truthy (get spec "title") || chart_type_is_text spec = true ->
  (is_ok (validate_and_enhance_spec spec md) = false
   <-> names_missing_column spec "x_axis" (columns md) = true)
  /\ (forall e, validate_and_enhance_spec spec md = Raise e -> exn_cls e = ValueError)
  /\ (forall r, validate_and_enhance_spec spec md = Ok r ->
        (names_missing_column spec "y_axis" (columns md) = true ->
         dict_lookup "y_axis" r = Some VNone)
        /\ (names_missing_column spec "color_by" (columns md) = true ->
            dict_lookup "color_by" r = Some VNone)).
Proof.
  intros Htitle. split; [| split].
  - rewrite validate_and_enhance_spec_is_ok, validate_body_is_ok, Htitle, andb_true_r.
    now destruct (names_missing_column spec "x_axis" (columns md)).
  - unfold validate_and_enhance_spec, rewrap.
    destruct (validate_body spec md); [discriminate|].
    intros e' H; now inversion H.
  - intros r H. apply validate_and_enhance_spec_ok in H.
    destruct (validate_body_ok _ _ _ H) as (s5 & _ & Ht & ->).
    split; intros Hm.
    + rewrite lookup_default_y_label, lookup_default_x_label,
        (lookup_default_title _ _ _ Ht), lookup_default_aggregation,
        lookup_clear_missing by reflexivity.
      apply clear_missing_none.
      rewrite (names_missing_by_lookup _ spec); [exact Hm|].
      now apply lookup_enhance_filters.
    + rewrite lookup_default_y_label, lookup_default_x_label,
        (lookup_default_title _ _ _ Ht), lookup_default_aggregation by reflexivity.
      apply clear_missing_none.
      rewrite (names_missing_by_lookup _ spec); [exact Hm|].
      now rewrite lookup_clear_missing, lookup_enhance_filters.
Qed.

Lemma validate_and_enhance_spec_failure_witness :
  is_ok (validate_and_enhance_spec
           [("chart_type", VStr "bar"); ("x_axis", VStr "nope"); ("y_axis", VStr "gone")]
           (Metadata ["region"; "sales"] ["sales"] ["region"] [] 5)) = false.
Proof.
  apply (proj1 (validate_and_enhance_spec_failure
                  [("chart_type", VStr "bar"); ("x_axis", VStr "nope");
                   ("y_axis", VStr "gone")]
                  (Metadata ["region"; "sales"] ["sales"] ["region"] [] 5)
                  eq_refl)).
  reflexivity.
Defined.

(** C1, as the claim states it, fails: an intent with no [x_axis] field is
    normalized without an error. *)
Lemma missing_x_axis_is_accepted :
  key_in "x_axis" [("chart_type", VStr "heatmap")] = false
  /\ validate_and_enhance_spec [("chart_type", VStr "heatmap")]
       (Metadata ["region"; "sales"] ["sales"] ["region"] [] 5)
     = Ok [("chart_type", VStr "heatmap"); ("aggregation", VStr "count");
           ("title", VStr "Heatmap Chart"); ("x_label", VNone);
           ("y_label", VStr "Value")].
Proof. split; reflexivity. Qed.

(** ** C4: the filter clauses *)


Lemma normalize_filters_cons cols f r :
  normalize_filters cols (f :: r)
  = match normalize_filter cols f with
    | Some g => g :: normalize_filters cols r
    | None => normalize_filters cols r
    end.
Proof. reflexivity. Qed.





(** ** C8: the defaults *)

Lemma lookup_key_in k d : dict_lookup k d = None <-> key_in k d = false.
Proof.
  induction d as [|[k' v] d IH]; simpl; [tauto|].
  destruct (String.eqb k k'); simpl; [split; discriminate | exact IH].
Qed.

Lemma get_clear_missing spec k cols :
  get (clear_missing spec k cols) k
  = if names_missing_column spec k cols then VNone else get spec k.
Proof.
  unfold clear_missing. destruct (names_missing_column spec k cols); [| reflexivity].
  now rewrite get_setitem, String.eqb_refl.
Qed.

(** The defaults that the normalizer fills in, for an intent that it
    accepts: the aggregation, the title and the two labels.  The label of the
    second axis is the text [Value] when the intent has no [y_axis] key; when
    it has one, the label is the value under that key after the validation,
    [None] included. *)
Lemma validate_and_enhance_spec_defaults spec md r :
  validate_and_enhance_spec spec md = Ok r ->
  let y_axis := if names_missing_column spec "y_axis" (columns md)
                then VNone else get spec "y_axis" in
  (truthy (get spec "aggregation") = false ->
   get r "aggregation"
   = VStr (if value_in y_axis (numerical_columns md) then "mean" else "count"))
  /\ (truthy (get spec "title") = false ->
      exists chart_type,
        get_default spec "chart_type" (VStr "Chart") = VStr chart_type /\
        get r "title" = VStr (capitalize chart_type +:+ " Chart"))
  /\ (truthy (get spec "x_label") = false -> get r "x_label" = get spec "x_axis")
  /\ (truthy (get spec "y_label") = false -> key_in "y_axis" spec = false ->
      get r "y_label" = VStr "Value")
  /\ (truthy (get spec "y_label") = false -> key_in "y_axis" spec = true ->
      get r "y_label" = y_axis).
Proof.
  intros H y_axis. apply validate_and_enhance_spec_ok in H.
  destruct (validate_body_ok _ _ _ H) as (s5 & _ & Ht & ->).
  set (cols := columns md) in *.
  set (s1 := enhance_filters spec cols) in *.
  set (s2 := clear_missing s1 "y_axis" cols) in *.
  set (s3 := clear_missing s2 "color_by" cols) in *.
  set (s4 := default_aggregation s3 md) in *.
  assert (Ey : get s3 "y_axis" = y_axis).
  { unfold s3. rewrite (get_by_lookup _ s2) by now apply lookup_clear_missing.
    unfold s2. rewrite get_clear_missing. unfold y_axis.
    rewrite (names_missing_by_lookup s1 spec), (get_by_lookup s1 spec);
      try reflexivity; now apply lookup_enhance_filters. }
  assert (L4 : forall k, String.eqb k "filters" = false -> String.eqb k "y_axis" = false ->
                 String.eqb k "color_by" = false ->
                 dict_lookup k s3 = dict_lookup k spec).
  { intros k E1 E2 E3. unfold s3, s2, s1.
    now rewrite !lookup_clear_missing, lookup_enhance_filters. }
  split; [| split; [| split; [| split]]].
  - intros Ha.
    rewrite (get_by_lookup _ s4)
      by now rewrite lookup_default_y_label, lookup_default_x_label,
           (lookup_default_title _ _ _ Ht).
    unfold s4, default_aggregation.
    rewrite (get_by_lookup s3 spec "aggregation") by now apply L4.
    rewrite Ha, Ey. simpl.
    destruct (value_in y_axis (numerical_columns md)); now rewrite get_setitem.
  - intros Hti.
    rewrite (get_by_lookup _ s5 "title")
      by now rewrite lookup_default_y_label, lookup_default_x_label.
    revert Ht. unfold default_title.
    rewrite (get_by_lookup s4 spec "title"),
      (get_default_lookup s4 spec "chart_type")
      by (unfold s4; rewrite lookup_default_aggregation by reflexivity; now apply L4).
    rewrite Hti. simpl.
    destruct (get_default spec "chart_type" (VStr "Chart")) as [| | | | ct | |];
      try discriminate.
    intros Ht; inversion Ht. exists ct. split; [reflexivity|]. now rewrite get_setitem.
  - intros Hxl.
    rewrite (get_by_lookup _ (default_x_label s5) "x_label")
      by now apply lookup_default_y_label.
    assert (E5 : forall k, String.eqb k "title" = false ->
                   String.eqb k "aggregation" = false ->
                   String.eqb k "filters" = false -> String.eqb k "y_axis" = false ->
                   String.eqb k "color_by" = false ->
                   dict_lookup k s5 = dict_lookup k spec).
    { intros k ? ? ? ? ?. rewrite (lookup_default_title _ _ _ Ht) by assumption.
      unfold s4. rewrite lookup_default_aggregation by assumption. now apply L4. }
    unfold default_x_label.
    rewrite (get_by_lookup s5 spec "x_label"), (get_by_lookup s5 spec "x_axis")
      by now apply E5.
    rewrite Hxl. simpl. now rewrite get_setitem.
  - intros Hyl Hk.
    set (s6 := default_x_label s5).
    assert (E6 : forall k, String.eqb k "x_label" = false -> String.eqb k "title" = false ->
                   String.eqb k "aggregation" = false ->
                   dict_lookup k s6 = dict_lookup k s3).
    { intros k ? ? ?. unfold s6.
      rewrite lookup_default_x_label, (lookup_default_title _ _ _ Ht) by assumption.
      unfold s4. now rewrite lookup_default_aggregation. }
    unfold default_y_label.
    rewrite (get_by_lookup s6 spec "y_label") by (rewrite E6 by reflexivity; now apply L4).
    rewrite Hyl. simpl. rewrite get_setitem. simpl.
    unfold get_default. rewrite E6 by reflexivity.
    unfold s3. rewrite lookup_clear_missing by reflexivity.
    assert (Hn : dict_lookup "y_axis" s1 = None).
    { unfold s1. rewrite lookup_enhance_filters by reflexivity.
      now apply lookup_key_in. }
    unfold s2, clear_missing, names_missing_column, get, get_default.
    rewrite Hn. simpl. now rewrite Hn.
  - intros Hyl Hk.
    set (s6 := default_x_label s5).
    assert (E6 : forall k, String.eqb k "x_label" = false -> String.eqb k "title" = false ->
                   String.eqb k "aggregation" = false ->
                   dict_lookup k s6 = dict_lookup k s3).
    { intros k ? ? ?. unfold s6.
      rewrite lookup_default_x_label, (lookup_default_title _ _ _ Ht) by assumption.
      unfold s4. now rewrite lookup_default_aggregation. }
    unfold default_y_label.
    rewrite (get_by_lookup s6 spec "y_label") by (rewrite E6 by reflexivity; now apply L4).
    rewrite Hyl. simpl. rewrite get_setitem. simpl.
    rewrite <- Ey. unfold get_default at 1. rewrite E6 by reflexivity.
    assert (Hs : exists v, dict_lookup "y_axis" s3 = Some v).
    { unfold s3. rewrite lookup_clear_missing by reflexivity.
      unfold s2, clear_missing.
      destruct (names_missing_column s1 "y_axis" cols).
      - rewrite lookup_setitem. simpl. eauto.
      - unfold s1. rewrite lookup_enhance_filters by reflexivity.
        destruct (dict_lookup "y_axis" spec) eqn:E; [eauto|].
        apply lookup_key_in in E. congruence. }
    destruct Hs as [v Hv]. unfold get, get_default. now rewrite Hv.
Qed.

(** C8, at an intent whose [y_axis] is [null], as the prompt of the model
    asks for a chart without a second axis: the label of that axis is [None]
    in the result, not the text [Value]. *)
Lemma y_label_of_null_y_axis :
  validate_and_enhance_spec
    [("chart_type", VStr "bar"); ("x_axis", VStr "region"); ("y_axis", VNone)]
    (Metadata ["region"; "sales"] ["sales"] ["region"] [] 5)
  = Ok [("chart_type", VStr "bar"); ("x_axis", VStr "region"); ("y_axis", VNone);
        ("aggregation", VStr "count"); ("title", VStr "Bar Chart");
        ("x_label", VStr "region"); ("y_label", VNone)].
Proof. reflexivity. Qed.

(** ** C9: the tables of the store are not written to *)

Section Frames.
Context {A B : Type} (n : nat).

Lemma frames_weaken (m : M A) (P Q : A -> Prop) :
  frames n m P -> (forall a, P a -> Q a) -> frames n m Q.
Proof.
  intros Hm HPQ h Hn. destruct (Hm h Hn) as (H1 & H2 & H3).
  repeat split; auto.
Qed.

Lemma frames_ret (a : A) (P : A -> Prop) : P a -> frames n (ret a) P.
Proof.
  intros Ha h Hn. unfold ret. simpl. repeat split; auto.
  intros a' E. inversion E; subst. exact Ha.
Qed.

Lemma frames_raise (e : exn) (P : A -> Prop) : frames n (raise e) P.
Proof. intros h Hn. unfold raise. simpl. repeat split; auto. discriminate. Qed.

Lemma frames_lift (r : result A) (P : A -> Prop) :
  (forall a, r = Ok a -> P a) -> frames n (lift r) P.
Proof. intros Hr h Hn. unfold lift. simpl. repeat split; auto. Qed.

Lemma frames_bind (m : M A) (k : A -> M B) (P : A -> Prop) (Q : B -> Prop) :
  frames n m P -> (forall a, P a -> frames n (k a) Q) -> frames n (bindM m k) Q.
Proof.
  intros Hm Hk h Hn. unfold bindM.
  destruct (Hm h Hn) as (H1 & H2 & H3).
  destruct (m h) as [[a | e] h']; simpl in *.
  - destruct (Hk a (H3 a eq_refl) h' H1) as (K1 & K2 & K3).
    repeat split; auto. congruence.
  - repeat split; auto. discriminate.
Qed.

Lemma frames_try_except (m : M A) (handler : exn -> M A) (P : A -> Prop) :
  frames n m P -> (forall e, frames n (handler e) P) ->
  frames n (try_except m handler) P.
Proof.
  intros Hm Hh h Hn. unfold try_except.
  destruct (Hm h Hn) as (H1 & H2 & H3).
  destruct (m h) as [[a | e] h']; simpl in *.
  - repeat split; auto.
  - destruct (Hh e h' H1) as (K1 & K2 & K3). repeat split; auto. congruence.
Qed.

Lemma frames_rewrapM cls prefix (m : M A) (P : A -> Prop) :
  frames n m P -> frames n (rewrapM cls prefix m) P.
Proof. intros Hm. apply frames_try_except; [exact Hm | intros e; apply frames_raise]. Qed.
End Frames.

Lemma frames_alloc n d : frames n (alloc d) (fresh n).
Proof.
  intros h Hn. unfold alloc, fresh. simpl. rewrite length_app. simpl.
  repeat split; [lia | now apply take_app_le |].
  intros a E. inversion E. lia.
Qed.

Lemma frames_load n l : frames n (load l) anything.
Proof.
  intros h Hn. unfold load. destruct (h !! l); simpl; repeat split; auto.
Qed.

(** An update in place is harmless when it is made to an object that the
    function made itself. *)
Lemma frames_store n l d : fresh n l -> frames n (store l d) anything.
Proof.
  intros Hl h Hn. unfold store. cbn [fst snd]. rewrite length_insert.
  repeat split; auto. now apply take_insert_ge.
Qed.

Lemma frames_derive n f l : frames n (derive f l) (fresh n).
Proof.
  unfold derive. eapply frames_bind; [apply frames_load | intros d _; apply frames_alloc].
Qed.

Lemma frames_df_copy n l : frames n (df_copy l) (fresh n).
Proof. apply frames_derive. Qed.

Create HintDb frames.
#[local] Hint Resolve frames_alloc frames_load frames_derive frames_df_copy
  frames_store : frames.

(** One step along the code of a function: the rule of the construct at the
    head.  A reference that a [do] binds is always to a fresh object. *)
Ltac frames_leaf :=
  first [ eassumption
        | solve [unfold fresh, anything in *; auto; lia]
        | solve [eauto with frames]
        | solve [eapply frames_weaken;
                 [eauto with frames | unfold fresh, anything in *; intros; auto; lia]] ].

Ltac frames_step :=
  lazymatch goal with
  | |- frames ?n (bindM ?m _) _ =>
      tryif (let T := type of m in unify T (M nat))
      then (eapply (frames_bind n m _ (fresh n)); [| intros ? ?])
      else (eapply (frames_bind n m _ anything); [| intros ? _])
  | |- frames _ (ret _) _ => apply frames_ret; unfold fresh, anything in *; auto; try lia
  | |- frames _ (raise _) _ => apply frames_raise
  | |- frames _ (lift _) _ => apply frames_lift; unfold anything; auto
  | |- frames _ (rewrapM _ _ _) _ => apply frames_rewrapM
  | |- frames _ (try_except _ _) _ => apply frames_try_except; [| intros ?]
  | |- frames _ (if ?b then _ else _) _ => destruct b
  | |- frames _ (match ?x with _ => _ end) _ => destruct x
  | |- frames _ (let _ := _ in _) _ => cbv zeta
  | |- _ => frames_leaf
  end.

Ltac frames_auto := repeat frames_step.

Lemma frames_prepare_data n df cols numeric_only :
  frames n (_prepare_data df cols numeric_only) (fresh n).
Proof. unfold _prepare_data. frames_auto. Qed.

#[local] Hint Resolve frames_prepare_data : frames.

Section FramesOfTheCode.
Context `{PandasSem} `{PlotlySem} (n : nat).

Lemma frames_ensure_numeric df column :
  frames n (_ensure_numeric df column) (fresh n).
Proof. unfold _ensure_numeric. frames_auto. Qed.

Lemma frames_apply_aggregation df agg x_axis y_axis color_by :
  frames n (_apply_aggregation df agg x_axis y_axis color_by) (fresh n).
Proof. unfold _apply_aggregation. frames_auto. Qed.

Lemma frames_px_plot kind l cols args : frames n (px_plot kind l cols args) anything.
Proof. unfold px_plot. frames_auto. Qed.

Lemma frames_color_arg color_by plot_df : frames n (color_arg color_by plot_df) anything.
Proof. unfold color_arg. frames_auto. Qed.

Hint Resolve frames_ensure_numeric frames_apply_aggregation frames_px_plot
  frames_color_arg : frames.

Lemma frames_create_bar_chart df spec : frames n (_create_bar_chart df spec) anything.
Proof. unfold _create_bar_chart. frames_auto. Qed.

Lemma frames_xy_color_chart kind extra title df spec :
  frames n (xy_color_chart kind extra title df spec) anything.
Proof. unfold xy_color_chart. frames_auto. Qed.

Hint Resolve frames_xy_color_chart : frames.

Lemma frames_create_line_chart df spec : frames n (_create_line_chart df spec) anything.
Proof. unfold _create_line_chart. frames_auto. Qed.

Lemma frames_create_scatter_chart df spec :
  frames n (_create_scatter_chart df spec) anything.
Proof. unfold _create_scatter_chart. frames_auto. Qed.

Lemma frames_create_pie_chart df spec : frames n (_create_pie_chart df spec) anything.
Proof. unfold _create_pie_chart. frames_auto. Qed.

Lemma frames_create_heatmap df spec : frames n (_create_heatmap df spec) anything.
Proof. unfold _create_heatmap. frames_auto. Qed.

Lemma frames_create_area_chart df spec : frames n (_create_area_chart df spec) anything.
Proof. unfold _create_area_chart. frames_auto. Qed.

Lemma frames_create_histogram df spec : frames n (_create_histogram df spec) anything.
Proof. unfold _create_histogram. frames_auto. Qed.

Lemma frames_create_box_chart df spec : frames n (_create_box_chart df spec) anything.
Proof. unfold _create_box_chart. frames_auto. Qed.

Lemma frames_chart_functions chart_type chart_function df spec :
  chart_functions chart_type = Some chart_function ->
  frames n (chart_function df spec) anything.
Proof.
  unfold chart_functions.
  repeat (match goal with
          | |- context [String.eqb chart_type ?k] => destruct (String.eqb chart_type k)
          end;
          [intros E; inversion E; subst;
           auto using frames_create_bar_chart, frames_create_line_chart,
             frames_create_scatter_chart, frames_create_pie_chart,
             frames_create_heatmap, frames_create_area_chart,
             frames_create_histogram, frames_create_box_chart |]).
  discriminate.
Qed.

Lemma frames_filter_loop items :
  forall filtered_df, fresh n filtered_df ->
    frames n (filter_loop items filtered_df) (fresh n).
Proof.
  induction items as [|filter_item rest IH]; intros filtered_df Hf; simpl.
  - now apply frames_ret.
  - frames_auto; auto.
Qed.

Hint Resolve frames_filter_loop : frames.

Lemma frames_filter_stage df spec : frames n (filter_stage df spec) (fresh n).
Proof. unfold filter_stage. frames_auto. Qed.

Lemma frames_aggregation_stage filtered_df spec :
  fresh n filtered_df -> frames n (aggregation_stage filtered_df spec) (fresh n).
Proof. intros Hf. unfold aggregation_stage. frames_auto. Qed.

Lemma frames_selection_stage filtered_df spec :
  fresh n filtered_df -> frames n (selection_stage filtered_df spec) (fresh n).
Proof. intros Hf. unfold selection_stage. frames_auto. Qed.

Hint Resolve frames_filter_stage frames_aggregation_stage frames_selection_stage : frames.

Lemma frames_chart_data df spec : frames n (chart_data df spec) (fresh n).
Proof. unfold chart_data. frames_auto. Qed.

Hint Resolve frames_chart_data : frames.

Lemma frames_generate_chart df spec : frames n (generate_chart df spec) anything.
Proof.
  unfold generate_chart. apply frames_rewrapM.
  destruct (get_default spec "chart_type" (VStr EmptyString)); try apply frames_raise.
  destruct (chart_functions (lower s)) as [chart_function|] eqn:E;
    [| apply frames_raise].
  pose proof (fun a b => frames_chart_functions _ _ a b E) as Hcf.
  frames_auto.
Qed.

Lemma frames_apply_filters_loop filters :
  forall filtered_df, fresh n filtered_df ->
    frames n (apply_filters_loop filters filtered_df) (fresh n).
Proof.
  induction filters as [|filter_spec rest IH]; intros filtered_df Hf; simpl.
  - now apply frames_ret.
  - frames_auto; auto.
Qed.

Hint Resolve frames_apply_filters_loop : frames.

Lemma frames_apply_filters df filters : frames n (apply_filters df filters) anything.
Proof. unfold apply_filters. frames_auto. Qed.
End FramesOfTheCode.

(** C9. Rendering and filter application leave every table of the store as
    it was, the table they are given among them: after [generate_chart] and
    after [apply_filters] the store begins with the objects it held before.
    The table that [generate_chart] hands to the builder is a new object, and
    so is the table that [apply_filters] returns when there is a filter to
    apply (without filters it returns the table it was given). *)
Theorem tables_are_never_mutated `{PandasSem} `{PlotlySem}
    (h : heap) (df : loc) (chart_spec : pydict) (filters : list FilterSpec) :
  take (length h) (snd (generate_chart df chart_spec h)) = h
  /\ take (length h) (snd (chart_data df chart_spec h)) = h
  /\ (forall l, fst (chart_data df chart_spec h) = Ok l -> (length h <= l)%nat)
  /\ take (length h) (snd (apply_filters df filters h)) = h
  /\ (forall l, fst (apply_filters df filters h) = Ok l ->
        (filters = [] /\ l = df) \/ (length h <= l)%nat).
Proof.
  assert (Hh : take (length h) h = h) by now apply take_ge.
  repeat split.
  - destruct (frames_generate_chart (length h) df chart_spec h (le_n _)) as (_ & E & _).
    now rewrite E.
  - destruct (frames_chart_data (length h) df chart_spec h (le_n _)) as (_ & E & _).
    now rewrite E.
  - intros l E.
    destruct (frames_chart_data (length h) df chart_spec h (le_n _)) as (_ & _ & F).
    exact (F l E).
  - destruct (frames_apply_filters (length h) df filters h (le_n _)) as (_ & E & _).
    now rewrite E.
  - intros l E. destruct filters as [|f fs].
    + left. split; [reflexivity|]. unfold apply_filters, ret in E. simpl in E.
      now inversion E.
    + right. unfold apply_filters in E.
      assert (F : frames (length h)
                    (do filtered_df <- df_copy df; apply_filters_loop (f :: fs) filtered_df)
                    (fresh (length h))).
      { eapply frames_bind; [apply frames_df_copy |].
        intros a Ha. now apply frames_apply_filters_loop. }
      destruct (F h (le_n _)) as (_ & _ & G). exact (G l E).
Qed.

(** ** Runs of the primitives on a store that is known *)

Lemma run_load (h : heap) l d : h !! l = Some d -> load l h = (Ok d, h).
Proof. unfold load. now intros ->. Qed.

Lemma run_load_ok (h h' : heap) l d : load l h = (Ok d, h') -> h !! l = Some d /\ h' = h.
Proof. unfold load. destruct (h !! l); intros E; inversion E; auto. Qed.

Lemma run_derive (h : heap) f l d :
  h !! l = Some d -> derive f l h = (Ok (length h), h ++ [f d]).
Proof. intros E. unfold derive, bindM. now rewrite (run_load _ _ _ E). Qed.

Lemma lookup_new (h : heap) d : (h ++ [d]) !! length h = Some d.
Proof. now rewrite list_lookup_middle. Qed.

Lemma lookup_old (h ext : heap) l d : h !! l = Some d -> (h ++ ext) !! l = Some d.
Proof. intros E. now apply lookup_app_l_Some. Qed.

Lemma run_derive_new (h : heap) f x :
  derive f (length h) (h ++ [x]) = (Ok (length (h ++ [x])), (h ++ [x]) ++ [f x]).
Proof. apply run_derive, lookup_new. Qed.

Lemma run_load_new (h : heap) x : load (length h) (h ++ [x]) = (Ok x, h ++ [x]).
Proof. apply run_load, lookup_new. Qed.

(** [_prepare_data] computes [prepare_result] of the table behind its
    argument, in a new object, and adds objects to the store only. *)
Lemma run_prepare_data (h : heap) df d cols numeric_only :
  h !! df = Some d ->
  exists ext r,
    _prepare_data df cols numeric_only h = (r, h ++ ext) /\
    match prepare_result cols numeric_only d with
    | Ok t => exists l, r = Ok l /\ (h ++ ext) !! l = Some t
    | Raise e => r = Raise e
    end.
Proof.
  intros Hd. unfold _prepare_data, prepare_result, bindM, lift, df_copy.
  rewrite (run_load _ _ _ Hd). cbv beta iota.
  destruct (cols_available cols d) as [names | e]; simpl bind.
  2:{ exists [], (Raise e). now rewrite app_nil_r. }
  destruct names as [|name names].
  { eexists [], _. rewrite app_nil_r. split; reflexivity. }
  set (ns := name :: names).
  rewrite (run_derive _ _ _ _ Hd). cbv beta iota.
  rewrite run_derive_new. cbv beta iota.
  rewrite run_derive_new. cbv beta iota.
  rewrite run_derive_new. cbv beta iota.
  unfold prepared.
  set (t := drop_null_rows (drop_null_columns (select_columns ns d))).
  set (h3 := ((h ++ [select_columns ns d]) ++ [select_columns ns d])
             ++ [drop_null_columns (select_columns ns d)]).
  destruct numeric_only.
  - rewrite run_derive_new. cbv beta iota. rewrite run_load_new. cbv beta iota.
    assert (Eh : (h3 ++ [t]) ++ [select_numeric t]
                 = h ++ [select_columns ns d; select_columns ns d;
                         drop_null_columns (select_columns ns d); t; select_numeric t]).
    { unfold h3. now rewrite <- !app_assoc. }
    destruct (df_empty (select_numeric t)) eqn:Ee.
    + unfold raise. eexists _, _. split; [rewrite <- Eh; reflexivity | reflexivity].
    + unfold ret. rewrite run_load_new, Ee.
      eexists _, _. split; [rewrite <- Eh; reflexivity |].
      eexists. split; [reflexivity|]. rewrite <- Eh. apply lookup_new.
  - unfold ret. rewrite run_load_new.
    assert (Eh : h3 ++ [t]
                 = h ++ [select_columns ns d; select_columns ns d;
                         drop_null_columns (select_columns ns d); t]).
    { unfold h3. now rewrite <- !app_assoc. }
    destruct (df_empty t) eqn:Ee.
    + unfold raise. eexists _, _. split; [rewrite <- Eh; reflexivity | reflexivity].
    + eexists _, _. split; [rewrite <- Eh; reflexivity |].
      eexists. split; [reflexivity|]. rewrite <- Eh. apply lookup_new.
Qed.

(** The converse reading: a run of [_prepare_data] that returns. *)
Lemma run_prepare_data_ok (h h' : heap) df cols numeric_only l :
  _prepare_data df cols numeric_only h = (Ok l, h') ->
  exists d t,
    h !! df = Some d /\ prepare_result cols numeric_only d = Ok t /\ h' !! l = Some t.
Proof.
  intros E.
  destruct (h !! df) as [d|] eqn:Hd.
  - destruct (run_prepare_data h df d cols numeric_only Hd) as (ext & r & Hs & Hr).
    rewrite E in Hs. inversion Hs; subst.
    destruct (prepare_result cols numeric_only d) as [t | e] eqn:Ep.
    + destruct Hr as (l' & El & Hl). inversion El; subst. eauto.
    + discriminate.
  - unfold _prepare_data, bindM, load in E. rewrite Hd in E. discriminate.
Qed.

(** ** C10: the builder is given the named columns only *)

Lemma cols_named_In name d c : In c (cols_named name d) -> In c d /\ col_name c = name.
Proof.
  unfold cols_named. intros Hc. apply filter_In in Hc as [Hc E].
  apply String.eqb_eq in E. now split.
Qed.

Lemma select_columns_In names d c :
  In c (select_columns names d) -> In c d /\ In (col_name c) names.
Proof.
  unfold select_columns. intros Hc. apply in_flat_map in Hc as (name & Hn & Hc).
  apply cols_named_In in Hc as [Hc <-]. now split.
Qed.

Lemma mask_rows_In mask d c' :
  In c' (mask_rows mask d) ->
  exists c, In c d /\ col_name c' = col_name c /\ col_dtype c' = col_dtype c
            /\ col_cells c' = mask_cells mask (col_cells c).
Proof.
  unfold mask_rows. intros Hc. apply in_map_iff in Hc as (c & <- & Hc).
  exists c. repeat split; auto.
Qed.


Lemma cols_available_In cols d names name :
  cols_available cols d = Ok names -> In name names -> In (VStr name) cols.
Proof.
  revert names. induction cols as [|col cols IH]; simpl; intros names E Hn.
  - inversion E; subst. contradiction.
  - destruct (in_columns col d) as [present|] eqn:Ep; [| discriminate]. simpl in E.
    destruct (cols_available cols d) as [rest|]; [| discriminate]. simpl in E.
    inversion E; subst. destruct present.
    + destruct Hn as [<- | Hn]; [| right; now apply (IH rest)].
      left. destruct col; simpl in Ep; try discriminate. reflexivity.
    + right. now apply (IH rest).
Qed.

Lemma prepare_result_ok cols numeric_only d t :
  prepare_result cols numeric_only d = Ok t ->
  exists names, cols_available cols d = Ok names /\ t = prepared names numeric_only d
                /\ df_empty t = false.
Proof.
  unfold prepare_result. destruct (cols_available cols d) as [names|]; [| discriminate].
  simpl. destruct names as [|n ns]; [discriminate|].
  destruct (df_empty (prepared (n :: ns) numeric_only d)) eqn:E; [discriminate|].
  intros Ht; inversion Ht; subst. eauto.
Qed.

Lemma get_columns_for_chart_In spec v :
  In v (_get_columns_for_chart spec) ->
  v = get spec "x_axis" \/ v = get spec "y_axis" \/ v = get spec "color_by".
Proof.
  unfold _get_columns_for_chart.
  destruct (truthy (get spec "x_axis")), (truthy (get spec "y_axis")),
    (truthy (get spec "color_by")); simpl; intuition.
Qed.



(** With [x_axis] alone, the heatmap fails on the table of the examples,
    which holds three numeric columns. *)
Lemma heatmap_with_one_named_column_fails :
  length (select_numeric sales_table) = 3%nat
  /\ fst (@generate_chart example_pandas example_plotly 0%nat
            [("chart_type", VStr "heatmap"); ("x_axis", VStr "sales")] [sales_table])
     = Raise (Exn Exception
                "Error generating chart: Error creating heatmap: Heatmap requires at least 2 numeric columns").
Proof. split; vm_compute; reflexivity. Qed.

(** ** C6: the heatmap *)

(** *** The selection of the numeric columns *)


Lemma cols_named_notin name d : ~ In name (col_names d) -> cols_named name d = [].
Proof.
  unfold cols_named. induction d as [|c d IH]; simpl; [reflexivity|].
  intros Hn. destruct (String.eqb_spec (col_name c) name) as [E | E].
  - exfalso. apply Hn. now left.
  - apply IH. intros Hd. apply Hn. now right.
Qed.





(** *** The rows that are dropped hold no observation *)

Lemma covers_self cells : covers (List.map (fun x => negb (is_null x)) cells) cells.
Proof.
  unfold covers. induction cells as [|x cells IH]; simpl; constructor; auto.
  now intros ->.
Qed.

Lemma length_zip_or a b : length a = length b -> length (zip_or a b) = length a.
Proof.
  revert b. induction a as [|x a IH]; intros [|y b]; simpl; try discriminate; auto.
Qed.

Lemma covers_zip_or_l a b cells :
  covers a cells -> length b = length a -> covers (zip_or a b) cells.
Proof.
  unfold covers. intros Hc. revert b.
  induction Hc as [|m x a cells Hm _ IH]; intros [|y b] Hl; simpl in *;
    try discriminate; constructor; auto.
  intros Hx. now rewrite (Hm Hx).
Qed.

Lemma covers_zip_or_r a b cells :
  covers b cells -> length a = length b -> covers (zip_or a b) cells.
Proof.
  unfold covers. intros Hc. revert a.
  induction Hc as [|m x b cells Hm _ IH]; intros [|y a] Hl; simpl in *;
    try discriminate; constructor; auto.
  intros Hx. rewrite (Hm Hx). apply orb_true_r.
Qed.

Lemma covers_length mask cells : covers mask cells -> length mask = length cells.
Proof. apply Forall2_length. Qed.

Lemma rows_mask_covers n cols :
  Forall (fun c => length (col_cells c) = n) cols ->
  let mask := List.fold_right
                (fun c acc => zip_or (List.map (fun x => negb (is_null x)) (col_cells c)) acc)
                (List.repeat false n) cols in
  length mask = n /\ Forall (fun c => covers mask (col_cells c)) cols.
Proof.
  induction 1 as [|c cols Hc _ IH]; simpl.
  - split; [apply repeat_length | constructor].
  - destruct IH as [Hl Hcov]. split.
    + rewrite length_zip_or; rewrite length_map; congruence.
    + constructor.
      * apply covers_zip_or_l; [apply covers_self | rewrite length_map; congruence].
      * eapply Forall_impl; [exact Hcov |]. intros c' Hc'. simpl in Hc'.
        apply covers_zip_or_r; [exact Hc' |].
        rewrite length_map. rewrite (covers_length _ _ Hc'). 
        rewrite <- (covers_length _ _ Hc'). congruence.
Qed.

Lemma drop_null_columns_rect d :
  rectangular d -> Forall (fun c => length (col_cells c) = nrows d) (drop_null_columns d).
Proof.
  unfold rectangular, drop_null_columns. intros Hr.
  apply Forall_forall. intros c Hc. rewrite list_elem_of_In in Hc.
  apply filter_In in Hc as [Hc _].
  rewrite Forall_forall in Hr. apply Hr. now rewrite list_elem_of_In.
Qed.

(** The mask of [dropna(how='all')] keeps every row where a column that is
    left holds a value. *)
Lemma rows_not_all_null_covers d c :
  rectangular d -> In c (drop_null_columns d) ->
  covers (rows_not_all_null (drop_null_columns d)) (col_cells c).
Proof.
  intros Hr Hc. pose proof (drop_null_columns_rect d Hr) as Hf.
  unfold rows_not_all_null.
  assert (En : nrows (drop_null_columns d) = nrows d).
  { destruct (drop_null_columns d) as [|c0 d'] eqn:E; [contradiction|].
    simpl. now inversion Hf. }
  rewrite En.
  destruct (rows_mask_covers (nrows d) (drop_null_columns d) Hf) as [_ Hcov].
  rewrite Forall_forall in Hcov. apply Hcov. now rewrite list_elem_of_In.
Qed.






(** *** The diagonal of the correlation matrix *)





Lemma qsum_map_zero {A} (f : A -> Q) l :
  (forall x, In x l -> (f x == 0)%Q) -> (qsum (List.map f l) == 0)%Q.
Proof.
  induction l as [|x l IH]; simpl; intros Hl; [reflexivity|].
  rewrite (Hl x) by now left. rewrite IH by (intros; apply Hl; now right). ring.
Qed.











(** ** C7: the aggregation *)

Section Aggregation.
Context `{PandasSem}.

(** [_apply_aggregation] computes [aggregated] of the table behind its
    argument, in a new object. *)
Lemma run_apply_aggregation (h : heap) df d agg x_axis y_axis color_by :
  h !! df = Some d ->
  _apply_aggregation df agg x_axis y_axis color_by h
  = match aggregated agg x_axis y_axis color_by d with
    | Ok t => (Ok (length h), h ++ [t])
    | Raise e => (Raise e, h)
    end.
Proof.
  intros Hd. unfold _apply_aggregation, aggregated, bindM, lift.
  destruct (agg_map_get agg) as [[func|]|e]; cbn [bind]; try reflexivity.
  rewrite (run_load _ _ _ Hd). cbv beta iota.
  destruct (in_columns x_axis d) as [[|]|e]; cbn [bind negb]; try reflexivity.
  destruct (in_columns y_axis d) as [[|]|e]; cbn [bind negb]; try reflexivity.
  destruct (truthy color_by).
  - destruct (in_columns color_by d) as [by_color|e]; cbn [bind]; [| reflexivity].
    now destruct (grouped_result func _ (label_of y_axis) d).
  - unfold ret. cbn [bind].
    now destruct (grouped_result func _ (label_of y_axis) d).
Qed.

End Aggregation.

(** *** Equality of keys *)

Lemma Qeq_bool_trans p q r : Qeq_bool p q = true -> Qeq_bool q r = true -> Qeq_bool p r = true.
Proof. rewrite !Qeq_bool_iff. apply Qeq_trans. Qed.

Lemma Qeq_bool_symm p q : Qeq_bool p q = Qeq_bool q p.
Proof.
  destruct (Qeq_bool p q) eqn:E, (Qeq_bool q p) eqn:E'; auto.
  - apply Qeq_bool_iff in E. apply Qeq_bool_neq in E'. exfalso. apply E'. now symmetry.
  - apply Qeq_bool_iff in E'. apply Qeq_bool_neq in E. exfalso. apply E. now symmetry.
Qed.

Lemma cell_eqb_refl c : is_null c = false -> cell_eqb c c = true.
Proof.
  destruct c; simpl; try discriminate; intros _.
  - apply Qeq_bool_refl.
  - apply String.eqb_refl.
  - now destruct b.
Qed.

Lemma cell_eqb_sym a b : cell_eqb a b = cell_eqb b a.
Proof.
  destruct a, b; unfold cell_eqb; simpl; auto using Qeq_bool_symm, String.eqb_sym.
Qed.

Lemma cell_eqb_trans a b c :
  cell_eqb a b = true -> cell_eqb b c = true -> cell_eqb a c = true.
Proof.
  destruct a, b, c; unfold cell_eqb; simpl; try discriminate;
    try apply Qeq_bool_trans.
  rewrite !String.eqb_eq. congruence.
Qed.

Lemma key_eqb_refl k : complete k = true -> key_eqb k k = true.
Proof.
  unfold complete. induction k as [|c k IH]; simpl; [reflexivity|].
  rewrite negb_orb. intros E. apply andb_true_iff in E as [Ec Ek].
  apply negb_true_iff in Ec. now rewrite (cell_eqb_refl _ Ec), IH.
Qed.

Lemma key_eqb_sym a b : key_eqb a b = key_eqb b a.
Proof.
  revert b. induction a as [|x a IH]; intros [|y b]; simpl; auto.
  now rewrite cell_eqb_sym, IH.
Qed.

Lemma key_eqb_trans a b c :
  key_eqb a b = true -> key_eqb b c = true -> key_eqb a c = true.
Proof.
  revert b c. induction a as [|x a IH]; intros [|y b] [|z c]; simpl; try discriminate; auto.
  rewrite !andb_true_iff. intros [E1 E2] [E3 E4]. split.
  - now apply (cell_eqb_trans _ y).
  - now apply (IH b).
Qed.

(** *** The keys of the groups *)

Lemma dedup_keys_In l k : In k (dedup_keys l) -> In k l.
Proof.
  revert k. induction l as [|k0 l IH]; simpl; intros k; [tauto|].
  intros [E | Hk]; [now left | right].
  apply filter_In in Hk as [Hk _]. now apply IH.
Qed.

Lemma dedup_keys_cover l :
  (forall k, In k l -> complete k = true) ->
  forall k, In k l -> exists k', In k' (dedup_keys l) /\ key_eqb k k' = true.
Proof.
  induction l as [|k0 l IH]; simpl; intros Hc k Hk; [contradiction|].
  destruct (key_eqb k k0) eqn:E.
  - exists k0. split; [now left | exact E].
  - destruct Hk as [<- | Hk].
    + rewrite key_eqb_refl in E by (apply Hc; now left). discriminate.
    + destruct (IH (fun k1 H1 => Hc k1 (or_intror H1)) k Hk) as (k' & Hk' & Ek').
      exists k'. split; [| exact Ek']. right. apply filter_In. split; [exact Hk'|].
      destruct (key_eqb k' k0) eqn:E0; [| reflexivity].
      now rewrite (key_eqb_trans _ _ _ Ek' E0) in E.
Qed.

Lemma dedup_keys_distinct l :
  (forall k, In k l -> complete k = true) ->
  List.NoDup (dedup_keys l)
  /\ forall k k', In k (dedup_keys l) -> In k' (dedup_keys l) ->
                  key_eqb k k' = true -> k = k'.
Proof.
  induction l as [|k0 l IH]; simpl; intros Hc.
  - split; [constructor | contradiction].
  - destruct (IH (fun k1 H1 => Hc k1 (or_intror H1))) as [Hnd Hu].
    assert (Hk0 : key_eqb k0 k0 = true) by (apply key_eqb_refl, Hc; now left).
    split.
    + constructor.
      * intros Hin. apply filter_In in Hin as [_ E]. now rewrite Hk0 in E.
      * now apply List.NoDup_filter.
    + intros k k' [<- | Hk] [<- | Hk'] E; auto.
      * apply filter_In in Hk' as [_ E']. rewrite key_eqb_sym, E in E'. discriminate.
      * apply filter_In in Hk as [_ E']. rewrite E in E'. discriminate.
      * apply filter_In in Hk as [Hk _]. apply filter_In in Hk' as [Hk' _]. now apply Hu.
Qed.

Lemma insert_key_perm k l : Permutation (insert_key k l) (k :: l).
Proof.
  induction l as [|k' l IH]; simpl; [reflexivity|].
  destruct (key_leb k k'); [reflexivity|].
  rewrite IH. apply perm_swap.
Qed.

Lemma sort_keys_perm l : Permutation (sort_keys l) l.
Proof.
  unfold sort_keys. induction l as [|k l IH]; simpl; [reflexivity|].
  now rewrite insert_key_perm, IH.
Qed.

Lemma keyed_rows_complete keys ys r :
  In r (keyed_rows keys ys) -> complete (fst r) = true.
Proof. unfold keyed_rows, complete. intros Hr. now apply filter_In in Hr as [_ E]. Qed.

(** The groups of a grouping: each is the key of a row, each row falls in
    one, and no two of them are equal. *)
Lemma group_keys_spec rows :
  (forall r, In r rows -> complete (fst r) = true) ->
  List.NoDup (group_keys rows)
  /\ (forall k, In k (group_keys rows) -> exists r, In r rows /\ fst r = k)
  /\ (forall r, In r rows -> exists k, In k (group_keys rows) /\ key_eqb (fst r) k = true)
  /\ (forall k k', In k (group_keys rows) -> In k' (group_keys rows) ->
                   key_eqb k k' = true -> k = k').
Proof.
  intros Hc. unfold group_keys.
  assert (Hc' : forall k, In k (List.map fst rows) -> complete k = true).
  { intros k Hk. apply in_map_iff in Hk as (r & <- & Hr). now apply Hc. }
  pose proof (sort_keys_perm (dedup_keys (List.map fst rows))) as Hp.
  destruct (dedup_keys_distinct _ Hc') as [Hnd Hu].
  assert (Hin : forall k, In k (sort_keys (dedup_keys (List.map fst rows)))
                          <-> In k (dedup_keys (List.map fst rows))).
  { intros k. split; apply Permutation_in; [exact Hp | now symmetry]. }
  repeat split.
  - eapply Permutation_NoDup; [symmetry; exact Hp | exact Hnd].
  - intros k Hk. apply Hin, dedup_keys_In, in_map_iff in Hk as (r & E & Hr). eauto.
  - intros r Hr.
    destruct (dedup_keys_cover _ Hc' (fst r)) as (k & Hk & E); [now apply in_map|].
    exists k. split; [now apply Hin | exact E].
  - intros k k' Hk Hk'. apply Hu; now apply Hin.
Qed.

Lemma row_keys_length n key_cells : (length (row_keys n key_cells) <= n)%nat.
Proof.
  induction key_cells as [|c r IH]; simpl.
  - now rewrite repeat_length.
  - rewrite length_map, length_combine. lia.
Qed.

Lemma map_fst_combine {A B} (a : list A) (b : list B) :
  (length a <= length b)%nat -> List.map fst (List.combine a b) = a.
Proof.
  revert b. induction a as [|x a IH]; intros [|y b]; simpl; intros Hl; auto; try lia.
  f_equal. apply IH. lia.
Qed.

Lemma map_fst_filter {A B} (P : A -> bool) (l : list (A * B)) :
  List.map fst (List.filter (fun r => P (fst r)) l) = List.filter P (List.map fst l).
Proof.
  induction l as [|r l IH]; simpl; [reflexivity|].
  destruct (P (fst r)); simpl; now rewrite IH.
Qed.

(** The keys of the rows that take part in a grouping. *)
Lemma keyed_rows_keys (y : column) by_cols :
  List.map fst (keyed_rows (row_keys (length (col_cells y)) (List.map col_cells by_cols))
                  (col_cells y))
  = complete_keys (length (col_cells y)) by_cols.
Proof.
  unfold keyed_rows, complete_keys.
  rewrite (map_fst_filter (fun k => negb (existsb is_null k))), map_fst_combine;
    [reflexivity|].
  apply row_keys_length.
Qed.

Lemma group_cells_length rows k :
  length (group_cells rows k) = group_size (List.map fst rows) k.
Proof.
  unfold group_cells, group_size.
  rewrite length_map, <- (map_fst_filter (fun k' => key_eqb k' k)). now rewrite length_map.
Qed.

Section Grouping.
Context `{PandasSem}.

(** What a grouping returns. *)
Lemma grouped_result_spec func by_labels y_label d t :
  grouped_result func by_labels y_label d = Ok t ->
  exists by_cols y,
    by_columns by_labels d = Ok by_cols
    /\ get_series y_label d = Ok y
    /\ grouping_of func by_cols y t.
Proof.
  unfold grouped_result.
  destruct (by_columns by_labels d) as [by_cols|]; [| discriminate]. cbn [bind].
  destruct (get_series y_label d) as [y|]; [| discriminate]. cbn [bind].
  intros Ht. exists by_cols, y. split; [reflexivity|]. split; [reflexivity|].
  unfold grouping_of.
  set (rows := keyed_rows (row_keys (length (col_cells y)) (List.map col_cells by_cols))
                 (col_cells y)) in *.
  pose proof (keyed_rows_keys y by_cols) as Ek. fold rows in Ek.
  destruct (group_keys_spec rows (keyed_rows_complete _ _)) as (Hnd & Hfrom & Hcov & Hu).
  assert (Hfrom' : forall g, In g (group_keys rows) ->
                     In g (complete_keys (length (col_cells y)) by_cols)).
  { intros g Hg. destruct (Hfrom g Hg) as (r & Hr & <-).
    rewrite <- Ek. now apply in_map. }
  assert (Hcov' : forall k, In k (complete_keys (length (col_cells y)) by_cols) ->
                    exists g, In g (group_keys rows) /\ key_eqb k g = true).
  { intros k Hk. rewrite <- Ek in Hk. apply in_map_iff in Hk as (r & <- & Hr).
    now apply Hcov. }
  assert (Hshape : forall ycol,
            reset_index (key_columns (group_keys rows) 0 by_cols) ycol = Ok t ->
            t = key_columns (group_keys rows) 0 by_cols ++ [ycol]).
  { intros ycol. unfold reset_index. destruct (distinct _); [| discriminate].
    intros E. now inversion E. }
  destruct func eqn:Ef.
  3:{ unfold groupby_size in Ht. fold rows in Ht. apply Hshape in Ht.
      exists (group_keys rows),
        (List.map (fun k => CNum (qlen (group_cells rows k))) (group_keys rows)), DInt64.
      split; [exact Ht|]. repeat split; auto; try congruence.
      apply map_ext. intros g. unfold qlen. now rewrite group_cells_length, Ek. }
  all: unfold groupby_aggregate in Ht; fold rows in Ht;
    destruct (is_number (col_dtype y)) eqn:En;
    [ cbn [bind fst snd] in Ht; apply Hshape in Ht;
      eexists (group_keys rows), _, _;
      split; [exact Ht|]; repeat split; auto; discriminate
    | destruct (reduce_other _ (col_dtype y) _) as [[dt cells]|]; [| discriminate];
      cbn [bind fst snd] in Ht; apply Hshape in Ht;
      exists (group_keys rows), cells, dt;
      split; [exact Ht|]; repeat split; auto; discriminate ].
Qed.
End Grouping.

(** *** The five aggregations *)











(** An aggregation that fails: the mean of a column of text.  The render
    goes on with the table as it was. *)
Lemma failed_aggregation_is_skipped :
  is_ok (@aggregated example_pandas (VStr "mean") (VStr "region") (VStr "code") VNone
           sales_table) = false
  /\ @aggregation_stage example_pandas 0%nat
       [("chart_type", VStr "bar"); ("x_axis", VStr "region"); ("y_axis", VStr "code");
        ("aggregation", VStr "mean")] [sales_table]
     = (Ok 0%nat, [sales_table]).
Proof. split; reflexivity. Qed.

(** ** C5: the histogram *)

(** C5, at a table with a column of text that holds no number and a numeric
    column next to it: the histogram builder fails, it does not fall back to
    the numeric column.  [_ensure_numeric] raises as soon as the coerced
    column is empty, and the table that the fallback would search holds the
    requested column only. *)
Theorem histogram_does_not_fall_back `{PandasSem} :
  to_numeric_str "ann" = None -> to_numeric_str "bob" = None ->
  to_numeric_str "cy" = None ->
  col_names (select_numeric names_table) = ["n"]
  /\ fst (_create_histogram 0%nat [("x_axis", VStr "name")] [names_table])
     = Raise (Exn ValueError
                "Error creating histogram: Cannot convert column to numeric: Column contains no valid numeric values").
Proof.
  intros Ha Hb Hc. split; [reflexivity|].
  cbv -[to_numeric_str]. rewrite Ha, Hb, Hc. reflexivity.
Qed.

Lemma histogram_does_not_fall_back_witness :
  fst (@_create_histogram example_pandas 0%nat [("x_axis", VStr "name")] [names_table])
  = Raise (Exn ValueError
             "Error creating histogram: Cannot convert column to numeric: Column contains no valid numeric values").
Proof.
  apply (proj2 (histogram_does_not_fall_back (H := example_pandas)
                  eq_refl eq_refl eq_refl)).
Defined.

(** The part of C5 that holds: a column of text that holds numbers is
    coerced, and the rows that hold none are dropped. *)
Lemma histogram_coerces_text `{PandasSem} :
  to_numeric_str "1" = Some 1%Q -> to_numeric_str "2" = Some 2%Q ->
  to_numeric_str "x" = None -> to_numeric_str "4" = Some 4%Q ->
  fst (_create_histogram 0%nat [("x_axis", VStr "v")] [digits_table])
  = Ok (Figure "histogram" (FromFrame [Col "v" DFloat64 [CNum 1; CNum 2; CNum 4]])
          [("x", VStr "v"); ("nbins", VInt 20); ("title", VStr "Histogram")] []).
Proof.
  intros H1 H2 Hx H4.
  cbv -[to_numeric_str]. rewrite H1, H2, Hx, H4. reflexivity.
Qed.

(** * Further properties *)

(** ** The keys of the normalized specification *)

Lemma keys_setitem d k v :
  keys (setitem d k v) = if key_in k d then keys d else keys d ++ [k].
Proof.
  unfold keys. induction d as [|[k' v'] r IH]; simpl; [reflexivity|].
  destruct (String.eqb k k') eqn:E; simpl; [reflexivity|].
  rewrite IH. now destruct (key_in k r).
Qed.

Lemma get_key_in d k : get d k <> VNone -> key_in k d = true.
Proof.
  intros Hg. destruct (key_in k d) eqn:E; [reflexivity|].
  apply lookup_key_in in E. unfold get, get_default in Hg. rewrite E in Hg.
  now contradiction Hg.
Qed.

Lemma truthy_not_none v : truthy v = true -> v <> VNone.
Proof. now destruct v. Qed.

Lemma key_in_by_lookup a b k :
  dict_lookup k a = dict_lookup k b -> key_in k a = key_in k b.
Proof.
  intros E. destruct (key_in k b) eqn:Eb.
  - destruct (key_in k a) eqn:Ea; [reflexivity|].
    apply lookup_key_in in Ea. rewrite Ea in E. symmetry in E.
    apply lookup_key_in in E. congruence.
  - apply lookup_key_in in Eb. rewrite Eb in E. now apply lookup_key_in.
Qed.

Lemma keys_enhance_filters spec cols : keys (enhance_filters spec cols) = keys spec.
Proof.
  unfold enhance_filters. destruct (get spec "filters") eqn:E; try reflexivity.
  rewrite keys_setitem, get_key_in; [reflexivity|]. now rewrite E.
Qed.

Lemma keys_clear_missing spec k cols : keys (clear_missing spec k cols) = keys spec.
Proof.
  unfold clear_missing, names_missing_column.
  destruct (truthy (get spec k)) eqn:E; simpl; [| reflexivity].
  destruct (negb _); [| reflexivity].
  rewrite keys_setitem, get_key_in; [reflexivity|]. now apply truthy_not_none.
Qed.

(** A default leaves the keys as they are, or adds its key last when the
    dictionary does not hold it. *)
Lemma keys_default d k v :
  keys (if negb (truthy (get d k)) then setitem d k v else d)
  = keys d ++ (if key_in k d then [] else [k]).
Proof.
  destruct (truthy (get d k)) eqn:E; simpl.
  - rewrite get_key_in by now apply truthy_not_none. now rewrite app_nil_r.
  - rewrite keys_setitem. destruct (key_in k d); [now rewrite app_nil_r | reflexivity].
Qed.

Lemma keys_default_aggregation spec md :
  keys (default_aggregation spec md)
  = keys spec ++ (if key_in "aggregation" spec then [] else ["aggregation"]).
Proof.
  unfold default_aggregation.
  destruct (value_in (get spec "y_axis") (numerical_columns md)); apply keys_default.
Qed.

Lemma keys_default_title spec spec' :
  default_title spec = Ok spec' ->
  keys spec' = keys spec ++ (if key_in "title" spec then [] else ["title"]).
Proof.
  unfold default_title. intros E.
  destruct (get_default spec "chart_type" (VStr "Chart")) eqn:Ec;
    try (destruct (truthy (get spec "title")) eqn:Et; simpl in E; [| discriminate];
         inversion E; subst;
         rewrite get_key_in by (now apply truthy_not_none); now rewrite app_nil_r).
  rewrite <- (keys_default spec "title" (VStr (capitalize s +:+ " Chart"))).
  destruct (negb (truthy (get spec "title"))); now inversion E.
Qed.

Lemma key_in_before_title k spec md :
  String.eqb k "filters" = false -> String.eqb k "y_axis" = false ->
  String.eqb k "color_by" = false -> String.eqb k "aggregation" = false ->
  key_in k
    (default_aggregation
       (clear_missing (clear_missing (enhance_filters spec (columns md)) "y_axis" (columns md))
          "color_by" (columns md)) md)
  = key_in k spec.
Proof. intros. apply key_in_by_lookup. now apply lookup_before_title. Qed.

(** X1. The normalizer keeps every key of the specification where it is, and
    adds, in this order, those of [aggregation], [title], [x_label] and
    [y_label] that the specification does not hold.  It assigns to no key
    but these four, [filters], [y_axis] and [color_by]: [x_axis],
    [chart_type], [customization] and any other key keep their values. *)
Theorem validate_and_enhance_spec_keys (spec : pydict) (md : metadata) (r : pydict) :
  validate_and_enhance_spec spec md = Ok r ->
  keys r = keys spec ++ List.filter (fun k => negb (key_in k spec)) normalizer_defaults
  /\ forall k, str_in k normalizer_writes = false -> dict_lookup k r = dict_lookup k spec.
Proof.
  intros E. apply validate_and_enhance_spec_ok in E.
  destruct (validate_body_ok _ _ _ E) as (s5 & _ & Et & ->).
  set (s4 := default_aggregation
               (clear_missing
                  (clear_missing (enhance_filters spec (columns md)) "y_axis" (columns md))
                  "color_by" (columns md)) md) in *.
  split.
  - unfold default_y_label, default_x_label.
    rewrite keys_default, keys_default, (keys_default_title _ _ Et).
    unfold s4 at 1. rewrite keys_default_aggregation, !keys_clear_missing, keys_enhance_filters.
    assert (K1 : key_in "aggregation"
                   (clear_missing
                      (clear_missing (enhance_filters spec (columns md)) "y_axis" (columns md))
                      "color_by" (columns md)) = key_in "aggregation" spec).
    { apply key_in_by_lookup.
      rewrite !lookup_clear_missing, lookup_enhance_filters by reflexivity. reflexivity. }
    assert (K2 : key_in "title" s4 = key_in "title" spec)
      by (now apply key_in_before_title).
    assert (K3 : key_in "x_label" s5 = key_in "x_label" spec).
    { rewrite (key_in_by_lookup s5 s4) by (now apply (lookup_default_title _ _ _ Et)).
      now apply key_in_before_title. }
    assert (K4 : key_in "y_label"
                   (if negb (truthy (get s5 "x_label"))
                    then setitem s5 "x_label" (get s5 "x_axis") else s5)
                 = key_in "y_label" spec).
    { rewrite (key_in_by_lookup _ s5) by (now apply lookup_default_x_label).
      rewrite (key_in_by_lookup s5 s4) by (now apply (lookup_default_title _ _ _ Et)).
      now apply key_in_before_title. }
    rewrite K1, K2, K3, K4. rewrite <- !app_assoc. f_equal.
    unfold normalizer_defaults. simpl.
    destruct (key_in "aggregation" spec), (key_in "title" spec),
      (key_in "x_label" spec), (key_in "y_label" spec); reflexivity.
  - intros k Hk. unfold normalizer_writes in Hk. simpl in Hk.
    repeat (apply orb_false_elim in Hk as [? Hk]).
    rewrite lookup_default_y_label, lookup_default_x_label by assumption.
    rewrite (lookup_default_title _ _ _ Et) by assumption.
    now apply lookup_before_title.
Qed.

Lemma validate_and_enhance_spec_keys_witness :
  keys [("chart_type", VStr "bar"); ("x_axis", VStr "region");
        ("title", VStr "Bar Chart"); ("custom", VInt 7);
        ("aggregation", VStr "count"); ("x_label", VStr "region");
        ("y_label", VStr "Value")]
  = keys [("chart_type", VStr "bar"); ("x_axis", VStr "region"); ("title", VNone);
          ("custom", VInt 7)]
    ++ List.filter
         (fun k => negb (key_in k [("chart_type", VStr "bar"); ("x_axis", VStr "region");
                                   ("title", VNone); ("custom", VInt 7)]))
         normalizer_defaults.
Proof.
  apply (proj1 (validate_and_enhance_spec_keys
                  [("chart_type", VStr "bar"); ("x_axis", VStr "region");
                   ("title", VNone); ("custom", VInt 7)]
                  (Metadata ["region"; "sales"] ["sales"] ["region"] [] 5)
                  _ eq_refl)).
Defined.

(** ** The normal form of the specification *)

Lemma value_in_In v cols : value_in v cols = true -> exists c, v = VStr c /\ In c cols.
Proof.
  destruct v; simpl; try discriminate. intros E. exists s. split; [reflexivity|].
  now apply str_in_In.
Qed.

Lemma normalize_filter_clause cols f g :
  normalize_filter cols f = Some g -> canonical_clause cols g.
Proof.
  destruct f as [| | | | |l|f]; simpl; try discriminate.
  destruct (truthy (filter_col f)) eqn:Hc; simpl; [| discriminate].
  destruct (truthy (normalize_operator (filter_op f))) eqn:Ho; simpl; [| discriminate].
  destruct (is_none (filter_val f)) eqn:Hv; simpl; [discriminate|].
  assert (Hn : filter_val f <> VNone) by (intros E; now rewrite E in Hv).
  destruct (value_in (filter_col f) cols) eqn:Hin.
  - intros E. inversion E; subst. apply value_in_In in Hin as (c & -> & Hin).
    exists c, (normalize_operator (filter_op f)), (filter_val f).
    repeat split; auto using normalize_operator_idem.
  - destruct (matches cols (filter_col f)) as [|m ms] eqn:Hm; [discriminate|].
    intros E. inversion E; subst. apply matches_head in Hm as [Hm _].
    exists m, (normalize_operator (filter_op f)), (filter_val f).
    repeat split; auto using normalize_operator_idem.
Qed.

Lemma normalize_filters_clauses cols raw :
  Forall (canonical_clause cols) (normalize_filters cols raw).
Proof.
  induction raw as [|f raw IH]; [constructor|].
  rewrite normalize_filters_cons.
  destruct (normalize_filter cols f) eqn:E; [| exact IH].
  constructor; [| exact IH]. now apply (normalize_filter_clause cols f).
Qed.

Lemma get_enhance_filters spec cols :
  get (enhance_filters spec cols) "filters"
  = match get spec "filters" with
    | VList raw => VList (normalize_filters cols raw)
    | v => v
    end.
Proof.
  unfold enhance_filters. destruct (get spec "filters") eqn:E; try exact E.
  now rewrite get_setitem.
Qed.

Lemma validate_filters spec md r :
  validate_and_enhance_spec spec md = Ok r ->
  get r "filters"
  = match get spec "filters" with
    | VList raw => VList (normalize_filters (columns md) raw)
    | v => v
    end.
Proof.
  intros E. apply validate_and_enhance_spec_ok in E.
  destruct (validate_body_ok _ _ _ E) as (s5 & _ & Et & ->).
  rewrite <- get_enhance_filters. apply get_by_lookup.
  rewrite lookup_default_y_label, lookup_default_x_label by reflexivity.
  rewrite (lookup_default_title _ _ _ Et) by reflexivity.
  rewrite lookup_default_aggregation, !lookup_clear_missing by reflexivity.
  reflexivity.
Qed.

(** X2. What a caller can rely on in a normalized specification: each of
    [x_axis], [y_axis] and [color_by] is empty (absent, null, or another
    value that counts as false) or the name of a column of the metadata;
    [aggregation] and [title] are set; and when the filters came as a list,
    they are a list again, no longer than the one given, of clauses with
    the keys [column], [operator] and [value], whose column is a column of
    the metadata, whose operator is set and in its normal form, and whose
    value is not null.  Filters that did not come as a list are left as they
    are. *)
Theorem validate_and_enhance_spec_normal_form (spec : pydict) (md : metadata) (r : pydict) :
  validate_and_enhance_spec spec md = Ok r ->
  (forall k, In k ["x_axis"; "y_axis"; "color_by"] ->
     truthy (get r k) = true -> exists c, get r k = VStr c /\ In c (columns md))
  /\ truthy (get r "aggregation") = true
  /\ truthy (get r "title") = true
  /\ (forall raw, get spec "filters" = VList raw ->
        exists fs, get r "filters" = VList fs
                   /\ (length fs <= length raw)%nat
                   /\ Forall (canonical_clause (columns md)) fs)
  /\ ((forall raw, get spec "filters" <> VList raw) ->
      get r "filters" = get spec "filters").
Proof.
  intros E. pose proof (validate_filters _ _ _ E) as Ef.
  apply validate_and_enhance_spec_ok in E.
  destruct (validate_body_normal _ _ _ E) as (_ & Hx & Hy & Hc & Ha & Ht & _).
  repeat split; auto.
  - intros k Hk Hk'.
    assert (Hm : names_missing_column r k (columns md) = false).
    { simpl in Hk. destruct Hk as [<- | [<- | [<- | []]]]; assumption. }
    unfold names_missing_column in Hm. rewrite Hk' in Hm. simpl in Hm.
    apply negb_false_iff in Hm. now apply value_in_In.
  - intros raw Hraw. rewrite Hraw in Ef. eexists. split; [exact Ef|]. split.
    + apply normalize_filters_length.
    + apply normalize_filters_clauses.
  - intros Hraw. rewrite Ef. destruct (get spec "filters"); try reflexivity.
    now contradiction (Hraw l).
Qed.

Lemma validate_and_enhance_spec_normal_form_witness :
  exists fs,
    get [("chart_type", VStr "bar"); ("x_axis", VStr "region"); ("y_axis", VNone);
         ("filters", VList [filter_clause (VStr "region") (VStr "==") (VStr "north")]);
         ("aggregation", VStr "count"); ("title", VStr "Bar Chart");
         ("x_label", VStr "region"); ("y_label", VNone)] "filters" = VList fs
    /\ (length fs <= 3)%nat
    /\ Forall (canonical_clause ["region"; "sales"]) fs.
Proof.
  apply (proj1 (proj2 (proj2 (proj2
           (validate_and_enhance_spec_normal_form
              [("chart_type", VStr "bar"); ("x_axis", VStr "region"); ("y_axis", VStr "gone");
               ("filters", VList [VDict [("col", VStr "REGION"); ("op", VStr "is");
                                         ("val", VStr "north")];
                                  VStr "region is north";
                                  VDict [("column", VStr "profit"); ("operator", VStr ">");
                                         ("value", VInt 3)]])]
              (Metadata ["region"; "sales"] ["sales"] ["region"] [] 5)
              _ eq_refl))))
         [VDict [("col", VStr "REGION"); ("op", VStr "is"); ("val", VStr "north")];
          VStr "region is north";
          VDict [("column", VStr "profit"); ("operator", VStr ">"); ("value", VInt 3)]]
         eq_refl).
Defined.

(** ** The texts from which a payload is extracted *)

Lemma test_matching o c :
  is_open o = true -> is_close c = true ->
  (Ascii.eqb o "{" && negb (Ascii.eqb c "}")) || (Ascii.eqb o "[" && negb (Ascii.eqb c "]"))
  = false ->
  matching o c.
Proof.
  unfold is_open, is_close, matching. intros Ho Hc Ht.
  destruct (Ascii.eqb_spec o "{"), (Ascii.eqb_spec o "["),
    (Ascii.eqb_spec c "}"), (Ascii.eqb_spec c "]"); subst; simpl in *;
    try discriminate; auto.
Qed.

Lemma first_open_inv text n :
  first_open text = Some n ->
  exists pre o r,
    text = pre +:+ String o r /\ no_open pre = true /\ is_open o = true
    /\ n = String.length pre.
Proof.
  revert n. induction text as [|ch text IH]; simpl; [discriminate|]. intros n.
  destruct (is_open ch) eqn:Ho.
  - intros E. inversion E; subst. now exists EmptyString, ch, text.
  - destruct (first_open text) as [m|]; [| discriminate]. simpl.
    intros E. inversion E; subst.
    destruct (IH m eq_refl) as (pre & o & r & -> & Hp & Hoo & ->).
    exists (String ch pre), o, r. simpl. rewrite Ho, Hp. auto.
Qed.

(** The head of a text that closes a bracket. *)
Lemma closes_head o st u :
  closes (o :: st) u ->
  exists w c u', u = w +:+ String c u' /\ nested w /\ matching o c /\ closes st u'.
Proof. exact (fun H => H). Qed.

(** A scan that stops has read a text that closes the brackets of its
    stack. *)
Lemma scan_closes rest :
  forall i o st e,
    Forall (fun b => is_open b = true) (o :: st) ->
    scan rest i (o :: st) = Ok (Some e) ->
    exists u post,
      rest = u +:+ post /\ closes (o :: st) u /\ e = (i + String.length u)%nat.
Proof.
  induction rest as [|ch rest IH]; intros i o st e Hst; simpl; [discriminate|].
  destruct (is_open ch) eqn:Hop.
  - intros E. apply IH in E as (u & post & -> & Hu & ->); [| now constructor].
    destruct Hu as (w & c & u' & -> & Hw & Hm & Hu').
    destruct Hu' as (w2 & c2 & u2 & -> & Hw2 & Hm2 & Hu2).
    exists (String ch (w +:+ String c (w2 +:+ String c2 u2))), post.
    split; [reflexivity|]. split; [| simpl; lia].
    exists (String ch (w +:+ String c w2)), c2, u2. split.
    + simpl. f_equal. rewrite append_assoc. reflexivity.
    + split; [| now split]. now apply nested_pair.
  - destruct (is_close ch) eqn:Hcl.
    + destruct ((Ascii.eqb o "{" && negb (Ascii.eqb ch "}"))
                || (Ascii.eqb o "[" && negb (Ascii.eqb ch "]"))) eqn:Ht; [discriminate|].
      assert (Hm : matching o ch).
      { apply test_matching; auto. now inversion Hst. }
      destruct st as [|o' st'].
      * intros E. inversion E; subst.
        exists (String ch EmptyString), rest. split; [reflexivity|]. split; [| simpl; lia].
        exists EmptyString, ch, EmptyString. repeat split; auto. constructor.
      * intros E. apply IH in E as (u & post & -> & Hu & ->); [| now inversion Hst].
        exists (String ch u), post. split; [reflexivity|]. split; [| simpl; lia].
        exists EmptyString, ch, u. repeat split; auto. constructor.
    + intros E. apply IH in E as (u & post & -> & Hu & ->); [| assumption].
      destruct Hu as (w & c & u' & -> & Hw & Hm & Hu').
      exists (String ch (w +:+ String c u')), post.
      split; [reflexivity|]. split; [| simpl; lia].
      exists (String ch w), c, u'. repeat split; auto. now apply nested_char.
Qed.

(** With a bracket open, the scan never meets a closing bracket that it did
    not expect: its only error is the mismatch. *)
Lemma scan_raises rest :
  forall i o st e,
    scan rest i (o :: st) = Raise e ->
    e = Exn ValueError "Malformed JSON: mismatched brackets".
Proof.
  induction rest as [|ch rest IH]; intros i o st e; simpl; [discriminate|].
  destruct (is_open ch); [apply IH|].
  destruct (is_close ch); [| apply IH].
  destruct ((Ascii.eqb o "{" && negb (Ascii.eqb ch "}"))
            || (Ascii.eqb o "[" && negb (Ascii.eqb ch "]"))).
  - intros E. now inversion E.
  - destruct st; [discriminate | apply IH].
Qed.

Lemma extract_json_str_inv text s :
  extract_json_str text = Ok s ->
  exists pre o w c post,
    text = pre +:+ String o (w +:+ String c post)
    /\ s = String o (w +:+ String c EmptyString)
    /\ no_open pre = true /\ matching o c /\ nested w.
Proof.
  unfold extract_json_str. destruct (is_empty text); [discriminate|].
  rewrite start_index_first_open.
  destruct (first_open text) as [n|] eqn:Ef; [| discriminate].
  apply first_open_inv in Ef as (pre & o & r & -> & Hp & Ho & ->).
  rewrite drop_str_append. simpl. rewrite Ho.
  destruct (scan r (S (String.length pre)) [o]) as [[e|]|] eqn:Es; simpl; try discriminate.
  apply scan_closes in Es as (u & post & -> & Hu & ->); [| now repeat constructor].
  destruct Hu as (w & c & u' & -> & Hw & Hm & Hu'). simpl in Hu'. subst u'.
  intros E. inversion E as [Es]. clear E. exists pre, o, w, c, post.
  split; [now rewrite append_assoc|]. split; [| auto].
  replace (S (String.length pre + String.length (w +:+ String c EmptyString))
           - String.length pre)%nat
    with (String.length (String o (w +:+ String c EmptyString))) by (simpl; lia).
  exact (substring_middle pre (String o (w +:+ String c EmptyString)) post).
Qed.

Lemma extract_json_str_raises text e :
  extract_json_str text = Raise e ->
  exn_cls e = ValueError
  /\ In (exn_msg e)
       ["Empty text from LLM response";
        "No JSON object or array found in LLM response";
        "Malformed JSON: mismatched brackets";
        "Malformed JSON: unbalanced brackets in LLM response"].
Proof.
  unfold extract_json_str. destruct (is_empty text).
  { intros E. inversion E; subst. simpl. tauto. }
  rewrite start_index_first_open.
  destruct (first_open text) as [n|] eqn:Ef.
  2:{ intros E. inversion E; subst. simpl. tauto. }
  apply first_open_inv in Ef as (pre & o & r & -> & Hp & Ho & ->).
  rewrite drop_str_append. simpl. rewrite Ho.
  destruct (scan r (S (String.length pre)) [o]) as [[e'|]|e'] eqn:Es; simpl.
  - discriminate.
  - intros E. inversion E; subst. simpl. tauto.
  - apply scan_raises in Es. subst e'. intros E. inversion E; subst. simpl. tauto.
Qed.

(** X3. The extraction returns a value only for a text that holds, after
    a text without opening bracket, a bracket, a text whose brackets are
    matched in strict nesting order, and the closing bracket of the first;
    the value is what [json.loads] makes of that payload.  When it fails,
    the error is that of [json.loads] on a payload, or a [ValueError] with
    one of four messages: the error for a closing bracket met with no
    bracket open is never raised. *)
Theorem extract_json_from_text_only (json_loads : string -> result value) (text : string) :
  (forall v,
     extract_json_from_text json_loads text = Ok v ->
     exists pre o w c post,
       text = pre +:+ String o (w +:+ String c post)
       /\ no_open pre = true /\ matching o c /\ nested w
       /\ json_loads (String o (w +:+ String c EmptyString)) = Ok v)
  /\ (forall e,
        extract_json_from_text json_loads text = Raise e ->
        (exists payload, extract_json_str text = Ok payload /\ json_loads payload = Raise e)
        \/ (exn_cls e = ValueError
            /\ In (exn_msg e)
                 ["Empty text from LLM response";
                  "No JSON object or array found in LLM response";
                  "Malformed JSON: mismatched brackets";
                  "Malformed JSON: unbalanced brackets in LLM response"])).
Proof.
  unfold extract_json_from_text. split.
  - intros v. destruct (extract_json_str text) as [s|] eqn:Es; [| discriminate].
    simpl. intros El.
    apply extract_json_str_inv in Es as (pre & o & w & c & post & -> & -> & Hp & Hm & Hw).
    exists pre, o, w, c, post. auto.
  - intros e. destruct (extract_json_str text) as [s|e'] eqn:Es; simpl.
    + intros El. left. now exists s.
    + intros E. inversion E; subst. right. now apply (extract_json_str_raises text).
Qed.

Lemma extract_json_from_text_only_witness :
  exists pre o w c post,
    fenced_text = pre +:+ String o (w +:+ String c post)
    /\ no_open pre = true /\ matching o c /\ nested w
    /\ example_loads (String o (w +:+ String c EmptyString)) = Ok (VDict [("a", VInt 1)]).
Proof.
  apply (proj1 (extract_json_from_text_only example_loads fenced_text)
           (VDict [("a", VInt 1)]) eq_refl).
Defined.

(** ** What [_prepare_data] returns *)

Lemma zip_or_nil_r a : zip_or a [] = [].
Proof. now destruct a. Qed.

Lemma mask_cells_zip_or m :
  forall a b, mask_cells m (zip_or a b) = zip_or (mask_cells m a) (mask_cells m b).
Proof.
  induction m as [|x m IH]; intros a b.
  - destruct (zip_or a b); reflexivity.
  - destruct a as [|p a]; [reflexivity|]. destruct b as [|q b].
    + simpl. now rewrite zip_or_nil_r.
    + simpl. destruct x; simpl; now rewrite IH.
Qed.

Lemma mask_cells_map {A B} (f : A -> B) m :
  forall l, mask_cells m (List.map f l) = List.map f (mask_cells m l).
Proof.
  induction m as [|x m IH]; intros [|y l]; simpl; try reflexivity.
  destruct x; simpl; now rewrite IH.
Qed.

Lemma length_mask_cells {A B} m :
  forall (l : list A) (l' : list B),
    length l = length l' -> length (mask_cells m l) = length (mask_cells m l').
Proof.
  induction m as [|x m IH]; intros [|y l] [|y' l']; simpl; try discriminate; auto.
  intros E. destruct x; simpl; auto.
Qed.

Lemma mask_cells_repeat {A} (x : A) m :
  forall n, mask_cells m (List.repeat x n)
            = List.repeat x (length (mask_cells m (List.repeat x n))).
Proof.
  induction m as [|b m IH]; intros [|n]; simpl; try reflexivity.
  destruct b; simpl; now rewrite <- IH.
Qed.

Lemma mask_cells_self m : Forall (fun b => b = true) (mask_cells m m).
Proof.
  induction m as [|b m IH]; simpl; [constructor|].
  destruct b; [now constructor | exact IH].
Qed.

Lemma row_mask_mask m n cols :
  row_mask (length (mask_cells m (List.repeat false n))) (mask_rows m cols)
  = mask_cells m (row_mask n cols).
Proof.
  unfold row_mask. induction cols as [|c cols IH]; simpl.
  - symmetry. apply mask_cells_repeat.
  - rewrite IH, mask_cells_zip_or, mask_cells_map. reflexivity.
Qed.

Lemma nrows_lengths n d :
  Forall (fun c => length (col_cells c) = n) d -> d <> [] -> nrows d = n.
Proof. intros Hf Hd. destruct d; [contradiction|]. now inversion Hf. Qed.

Lemma rows_not_all_null_row_mask n d :
  Forall (fun c => length (col_cells c) = n) d -> d <> [] ->
  rows_not_all_null d = row_mask n d.
Proof.
  intros Hf Hd. unfold rows_not_all_null, row_mask. now rewrite (nrows_lengths n d).
Qed.

Lemma mask_rows_lengths m n d :
  Forall (fun c => length (col_cells c) = n) d ->
  Forall (fun c => length (col_cells c) = length (mask_cells m (List.repeat false n)))
    (mask_rows m d).
Proof.
  intros Hf. unfold mask_rows. apply Forall_map.
  eapply Forall_impl; [exact Hf|]. intros c Hc. simpl.
  apply length_mask_cells. now rewrite repeat_length.
Qed.

(** Dropping the rows without a value leaves no row without a value. *)
Lemma drop_null_rows_full n d :
  Forall (fun c => length (col_cells c) = n) d ->
  Forall (fun b => b = true) (rows_not_all_null (drop_null_rows d)).
Proof.
  intros Hf. destruct d as [|c d]; [constructor|].
  unfold drop_null_rows.
  rewrite (rows_not_all_null_row_mask n (c :: d)) by (auto; discriminate).
  rewrite (rows_not_all_null_row_mask
             (length (mask_cells (row_mask n (c :: d)) (List.repeat false n))));
    [| now apply mask_rows_lengths | discriminate].
  rewrite row_mask_mask. apply mask_cells_self.
Qed.

Lemma mask_cells_has_value mask cells :
  covers mask cells -> forallb is_null cells = false ->
  forallb is_null (mask_cells mask cells) = false.
Proof.
  unfold covers. induction 1 as [|m x mask cells Hm _ IH]; simpl; [discriminate|].
  destruct (is_null x) eqn:Ex; simpl.
  - intros Hf. destruct m; simpl; [rewrite Ex; simpl|]; now apply IH.
  - intros _. rewrite (Hm eq_refl). simpl. now rewrite Ex.
Qed.

Lemma has_value_forallb c : has_value c <-> forallb is_null (col_cells c) = false.
Proof.
  unfold has_value. split.
  - intros (x & Hx & Hn). destruct (forallb is_null (col_cells c)) eqn:E; [| reflexivity].
    rewrite forallb_forall in E. rewrite (E x Hx) in Hn. discriminate.
  - intros E. induction (col_cells c) as [|x l IH]; simpl in E; [discriminate|].
    destruct (is_null x) eqn:Ex; simpl in E.
    + destruct (IH E) as (y & Hy & Hn). exists y. split; [now right | exact Hn].
    + exists x. split; [now left | exact Ex].
Qed.

Lemma select_columns_lengths names d :
  rectangular d ->
  Forall (fun c => length (col_cells c) = nrows d) (select_columns names d).
Proof.
  unfold rectangular. intros Hr. apply Forall_forall. intros c Hc.
  rewrite list_elem_of_In in Hc. apply select_columns_In in Hc as [Hc _].
  rewrite Forall_forall in Hr. apply Hr. now rewrite list_elem_of_In.
Qed.

Lemma drop_null_columns_lengths n d :
  Forall (fun c => length (col_cells c) = n) d ->
  Forall (fun c => length (col_cells c) = n) (drop_null_columns d).
Proof.
  intros Hf. apply Forall_forall. intros c Hc. rewrite list_elem_of_In in Hc.
  apply filter_In in Hc as [Hc _].
  rewrite Forall_forall in Hf. apply Hf. now rewrite list_elem_of_In.
Qed.

Lemma select_columns_rect names d : rectangular d -> rectangular (select_columns names d).
Proof.
  intros Hr. pose proof (select_columns_lengths names d Hr) as Hf. unfold rectangular.
  destruct (select_columns names d) as [|c S] eqn:E; [constructor|].
  now rewrite (nrows_lengths (nrows d) (c :: S)).
Qed.

Lemma select_columns_intro names d c :
  In c d -> In (col_name c) names -> In c (select_columns names d).
Proof.
  intros Hc Hn. unfold select_columns. apply in_flat_map. exists (col_name c).
  split; [exact Hn|]. unfold cols_named. apply filter_In. split; [exact Hc|].
  apply String.eqb_refl.
Qed.

Lemma has_value_cells c : has_value c -> col_cells c <> [].
Proof. intros (x & Hx & _) E. rewrite E in Hx. contradiction. Qed.

(** The table that [_prepare_data] makes, when all columns are asked for or
    not: its columns come from the table it is given, each holds a value,
    and so does each row. *)
Lemma prepared_spec names d :
  rectangular d ->
  let t := prepared names false d in
  rectangular t
  /\ Forall (fun b => b = true) (rows_not_all_null t)
  /\ (forall c', In c' t ->
        has_value c'
        /\ exists c, In c d /\ In (col_name c) names /\ has_value c
                     /\ col_name c' = col_name c /\ col_dtype c' = col_dtype c)
  /\ (forall c, In c d -> In (col_name c) names -> has_value c -> t <> []).
Proof.
  intros Hr. unfold prepared. cbv zeta.
  set (S := select_columns names d).
  pose proof (select_columns_rect names d Hr) as HrS. fold S in HrS.
  pose proof (drop_null_columns_lengths _ _ (select_columns_lengths names d Hr)) as HfD.
  fold S in HfD. set (D := drop_null_columns S) in *.
  split; [| split; [| split]].
  - unfold drop_null_rows.
    pose proof (mask_rows_lengths (rows_not_all_null D) _ _ HfD) as Hf.
    unfold rectangular.
    destruct (mask_rows (rows_not_all_null D) D) as [|c0 t] eqn:E; [constructor|].
    now rewrite (nrows_lengths _ (c0 :: t) Hf).
  - now apply (drop_null_rows_full (nrows d)).
  - intros c' Hc'. unfold drop_null_rows in Hc'.
    apply mask_rows_In in Hc' as (c & Hc & En & Et & Ec).
    pose proof (rows_not_all_null_covers S c HrS Hc) as Hcov. fold D in Hcov.
    unfold D, drop_null_columns in Hc. apply filter_In in Hc as [Hc Hv].
    apply negb_true_iff in Hv.
    apply select_columns_In in Hc as [Hc Hn]. split.
    + apply has_value_forallb. rewrite Ec. now apply mask_cells_has_value.
    + exists c. repeat split; auto. now apply has_value_forallb.
  - intros c Hc Hn Hv.
    assert (HD : In c D).
    { apply filter_In. split; [now apply select_columns_intro|].
      apply negb_true_iff. now apply has_value_forallb. }
    unfold drop_null_rows, mask_rows. intros E. apply map_eq_nil in E.
    rewrite E in HD. contradiction.
Qed.

Lemma df_empty_false t :
  t <> [] -> (forall c, In c t -> has_value c) -> df_empty t = false.
Proof.
  destruct t as [|c t]; [contradiction|]. intros _ Hv. simpl.
  apply Nat.eqb_neq. pose proof (has_value_cells c (Hv c (or_introl eq_refl))).
  destruct (col_cells c); [contradiction | discriminate].
Qed.

(** X4. The table that [_prepare_data] returns, when it returns one (all
    dtypes kept), for a table whose columns have one length: it is not
    empty; each of its columns bears the label and the dtype of a column of
    the table given that is among the columns needed, and holds a value;
    and no row is without a value.  Dropping the rows without a value
    empties no column. *)
Theorem prepare_data_spec (h h' : heap) (df l : loc) (d : dataframe)
    (columns_needed : list value) :
  h !! df = Some d -> rectangular d ->
  _prepare_data df columns_needed false h = (Ok l, h') ->
  exists t,
    h' !! l = Some t
    /\ t <> [] /\ rectangular t /\ (0 < nrows t)%nat
    /\ Forall (fun b => b = true) (rows_not_all_null t)
    /\ forall c', In c' t ->
         has_value c'
         /\ In (VStr (col_name c')) columns_needed
         /\ exists c, In c d /\ col_name c = col_name c' /\ col_dtype c = col_dtype c'.
Proof.
  intros Hd Hr E.
  destruct (run_prepare_data_ok _ _ _ _ _ _ E) as (d' & t & Hd' & Hp & Ht).
  assert (d' = d) by congruence. subst d'.
  destruct (prepare_result_ok _ _ _ _ Hp) as (names & Ea & -> & Hne).
  destruct (prepared_spec names d Hr) as (Hrt & Hrows & Hcols & _).
  exists (prepared names false d). split; [exact Ht|].
  assert (Hnil : prepared names false d <> []).
  { intros E0. rewrite E0 in Hne. discriminate. }
  repeat split; auto.
  - destruct (prepared names false d) as [|c0 t0]; [contradiction|].
    simpl in Hne. apply Nat.eqb_neq in Hne. simpl. lia.
  - now apply Hcols.
  - destruct (Hcols c' H) as (_ & c & _ & Hn & _ & En & _).
    rewrite En. now apply (cols_available_In columns_needed d names).
  - destruct (Hcols c' H) as (_ & c & Hc & _ & _ & En & Et). now exists c.
Qed.

Lemma prepare_data_spec_witness :
  exists t,
    [sales_table;
     select_columns ["region"; "sales"] sales_table;
     select_columns ["region"; "sales"] sales_table;
     select_columns ["region"; "sales"] sales_table;
     select_columns ["region"; "sales"] sales_table] !! 4%nat = Some t
    /\ t <> [] /\ rectangular t /\ (0 < nrows t)%nat
    /\ Forall (fun b => b = true) (rows_not_all_null t)
    /\ forall c', In c' t ->
         has_value c'
         /\ In (VStr (col_name c')) [VStr "region"; VStr "missing"; VStr "sales"]
         /\ exists c, In c sales_table /\ col_name c = col_name c'
                      /\ col_dtype c = col_dtype c'.
Proof.
  apply (prepare_data_spec [sales_table] _ 0%nat 4%nat sales_table
           [VStr "region"; VStr "missing"; VStr "sales"] eq_refl).
  - repeat constructor.
  - reflexivity.
Defined.

Lemma cols_available_names names d :
  cols_available (List.map VStr names) d
  = Ok (List.filter (fun n => str_in n (col_names d)) names).
Proof.
  induction names as [|n names IH]; simpl; [reflexivity|].
  rewrite IH. simpl. now destruct (str_in n (col_names d)).
Qed.

(** X5. When [_prepare_data] fails.  Asked for columns by their labels, on
    a table whose columns have one length, it returns a table exactly when
    one of the columns asked for is a column of the table that holds a
    value; otherwise it raises a [ValueError].  Labels that the table does
    not have are passed over. *)
Theorem prepare_data_succeeds (h : heap) (df : loc) (d : dataframe) (needed : list string) :
  h !! df = Some d -> rectangular d ->
  (is_ok (fst (_prepare_data df (List.map VStr needed) false h)) = true
   <-> exists c, In c d /\ In (col_name c) needed /\ has_value c)
  /\ (forall e, fst (_prepare_data df (List.map VStr needed) false h) = Raise e ->
        exn_cls e = ValueError).
Proof.
  intros Hd Hr.
  destruct (run_prepare_data h df d (List.map VStr needed) false Hd) as (ext & r & -> & Hres).
  cbn [fst]. unfold prepare_result in Hres. rewrite cols_available_names in Hres.
  cbn [bind] in Hres.
  set (names := List.filter (fun n => str_in n (col_names d)) needed) in *.
  destruct (prepared_spec names d Hr) as (_ & _ & Hcols & Hfull).
  assert (Hnames : forall c, In c d -> In (col_name c) needed -> In (col_name c) names).
  { intros c Hc Hn. apply filter_In. split; [exact Hn|].
    apply str_in_In. now apply in_map. }
  split.
  - split.
    + intros Hok. destruct names as [|n0 names0] eqn:En; [subst r; discriminate|].
      rewrite <- En in *.
      destruct (df_empty (prepared names false d)) eqn:Ee; [subst r; discriminate|].
      destruct (prepared names false d) as [|c' t] eqn:Et; [discriminate|].
      destruct (Hcols c' (or_introl eq_refl)) as (_ & c & Hc & Hn & Hv & _).
      exists c. repeat split; auto. unfold names in Hn. now apply filter_In in Hn.
    + intros (c & Hc & Hn & Hv). pose proof (Hnames c Hc Hn) as Hn'.
      destruct names as [|n0 names0] eqn:En; [contradiction|]. rewrite <- En in *.
      rewrite df_empty_false in Hres.
      * destruct Hres as (l & -> & _). reflexivity.
      * now apply (Hfull c).
      * intros c' Hc'. now apply Hcols.
  - intros e ->. destruct names as [|n0 names0].
    + now inversion Hres.
    + destruct (df_empty _); [now inversion Hres | now destruct Hres as (l & Hl & _)].
Qed.

Lemma prepare_data_succeeds_witness :
  is_ok (fst (_prepare_data 0%nat (List.map VStr ["missing"; "price"]) false
                [sales_table])) = true.
Proof.
  apply (proj1 (prepare_data_succeeds [sales_table] 0%nat sales_table ["missing"; "price"]
                  eq_refl ltac:(repeat constructor))).
  exists (Col "price" DFloat64 [CNum (3 # 2); CNum 2; CNum (5 # 2); CNum 2; CNum 4]).
  split; [simpl; tauto|]. split; [simpl; tauto|].
  exists (CNum 2). split; [simpl; tauto | reflexivity].
Defined.

(** ** The filters that [generate_chart] applies *)

Section ChartFilters.
Context `{PandasSem}.

Lemma filter_loop_cons_skip (c : string) op v rest (l : loc) (h : heap) d :
  h !! l = Some d -> op <> VStr "==" ->
  filter_loop (filter_clause (VStr c) op v :: rest) l h = filter_loop rest l h.
Proof.
  intros Hl Hop. cbn [filter_loop filter_clause]. unfold bindM at 1.
  rewrite (run_load _ _ _ Hl). cbv beta iota.
  change (get [("column", VStr c); ("operator", op); ("value", v)] "column") with (VStr c).
  change (get [("column", VStr c); ("operator", op); ("value", v)] "operator") with op.
  cbn [truthy]. destruct (is_empty c); cbn [negb].
  - reflexivity.
  - unfold bindM, lift, in_columns, ret. destruct (str_in c (col_names d)); cbn [negb].
    + destruct op; try reflexivity.
      destruct (String.eqb_spec s "=="); [subst; now contradiction Hop | reflexivity].
    + reflexivity.
Qed.

Lemma filter_loop_cons_eq (c : string) v rest (l : loc) (h : heap) d :
  h !! l = Some d ->
  filter_loop (filter_clause (VStr c) (VStr "==") v :: rest) l h
  = if is_empty c || negb (str_in c (col_names d)) then filter_loop rest l h
    else match get_series c d with
         | Ok sr =>
             match series_eq sr v with
             | Ok mask => filter_loop rest (length h) (h ++ [mask_rows mask d])
             | Raise e => (Raise e, h)
             end
         | Raise e => (Raise e, h)
         end.
Proof.
  intros Hl. cbn [filter_loop filter_clause]. unfold bindM at 1.
  rewrite (run_load _ _ _ Hl). cbv beta iota.
  change (get [("column", VStr c); ("operator", VStr "=="); ("value", v)] "column")
    with (VStr c).
  change (get [("column", VStr c); ("operator", VStr "=="); ("value", v)] "operator")
    with (VStr "==").
  change (get [("column", VStr c); ("operator", VStr "=="); ("value", v)] "value") with v.
  cbn [truthy label_of]. destruct (is_empty c); cbn [negb orb].
  { reflexivity. }
  unfold bindM, lift, in_columns, ret. destruct (str_in c (col_names d)); cbn [negb].
  2:{ reflexivity. }
  change (String.eqb "==" "==") with true. cbv iota.
  destruct (get_series c d) as [sr|]; [| reflexivity].
  destruct (series_eq sr v) as [mask|]; [| reflexivity].
  now rewrite (run_derive _ _ _ _ Hl).
Qed.

Lemma filter_loop_equality items :
  Forall labelled_clause items ->
  forall (l : loc) (h : heap) d,
    h !! l = Some d ->
    filter_loop items l h = filter_loop (List.filter is_equality_filter items) l h.
Proof.
  induction 1 as [|item items (c & op & v & ->) _ IH]; intros l h d Hl; [reflexivity|].
  cbn [List.filter is_equality_filter filter_clause].
  change (get [("column", VStr c); ("operator", op); ("value", v)] "operator") with op.
  assert (Hskip : op <> VStr "==" ->
                  filter_loop (filter_clause (VStr c) op v :: items) l h
                  = filter_loop (List.filter is_equality_filter items) l h).
  { intros Hop. rewrite (filter_loop_cons_skip _ _ _ _ _ _ _ Hl Hop). now apply (IH l h d). }
  destruct op; try (apply Hskip; discriminate).
  destruct (String.eqb_spec s "==") as [-> | Hne]; [| apply Hskip; congruence].
  change (VDict [("column", VStr c); ("operator", VStr "=="); ("value", v)])
    with (filter_clause (VStr c) (VStr "==") v).
  rewrite !(filter_loop_cons_eq _ _ _ _ _ _ Hl).
  destruct (is_empty c || negb (str_in c (col_names d))); [now apply (IH l h d)|].
  destruct (get_series c d) as [sr|]; [| reflexivity].
  destruct (series_eq sr v) as [mask|]; [| reflexivity].
  apply (IH _ _ (mask_rows mask d)). apply lookup_new.
Qed.

(** The filter stage, on a store that is known: the copy, the loop, and the
    test of the table that is left. *)
Lemma run_filter_stage (h : heap) (df : loc) d chart_spec :
  h !! df = Some d ->
  filter_stage df chart_spec h
  = match (if truthy (get chart_spec "filters") then
             match iterate (get chart_spec "filters") with
             | Ok items => filter_loop items (length h) (h ++ [d])
             | Raise e => (Raise e, h ++ [d])
             end
           else (Ok (length h), h ++ [d])) with
    | (Ok l, h1) =>
        match load l h1 with
        | (Ok t, h2) =>
            if df_empty t
            then (Raise (Exn ValueError "No data matches the specified filters"), h2)
            else (Ok l, h2)
        | (Raise e, h2) => (Raise e, h2)
        end
    | (Raise e, h1) => (Raise e, h1)
    end.
Proof.
  intros Hd. unfold filter_stage, df_copy, bindM, lift, ret, raise.
  rewrite (run_derive _ _ _ _ Hd).
  destruct (truthy (get chart_spec "filters")).
  - destruct (iterate (get chart_spec "filters")) as [items|e]; [| reflexivity].
    destruct (filter_loop items (length h) (h ++ [d])) as [[l|e] h1]; [| reflexivity].
    destruct (load l h1) as [[t|e] h2]; [| reflexivity].
    now destruct (df_empty t).
  - destruct (load (length h) (h ++ [d])) as [[t|e] h2]; [| reflexivity].
    now destruct (df_empty t).
Qed.

(** X6. The chart depends on the filters whose operator is [==] only.  For
    filters as the normalizer writes them (the keys [column], [operator],
    [value], a label for column), [generate_chart] makes the table it draws
    as if the clauses with any other operator, [>] or [!=] say, were not in
    the list: they are passed over without an error. *)
Theorem chart_filters_equality_only (h : heap) (df : loc) (d : dataframe)
    (chart_spec : pydict) (items : list value) :
  h !! df = Some d ->
  get chart_spec "filters" = VList items ->
  Forall labelled_clause items ->
  chart_data df chart_spec h
  = chart_data df
      (setitem chart_spec "filters" (VList (List.filter is_equality_filter items))) h.
Proof.
  intros Hd Hf Hitems.
  set (spec' := setitem chart_spec "filters" (VList (List.filter is_equality_filter items))).
  assert (Hget : forall k, String.eqb k "filters" = false -> get spec' k = get chart_spec k).
  { intros k Hk. unfold spec'. now rewrite get_setitem, Hk. }
  assert (Hgd : forall k dflt, String.eqb k "filters" = false ->
                  get_default spec' k dflt = get_default chart_spec k dflt).
  { intros k dflt Hk. unfold spec'. now rewrite get_default_setitem, Hk. }
  assert (Ea : forall l, aggregation_stage l spec' = aggregation_stage l chart_spec).
  { intros l. unfold aggregation_stage. now rewrite Hgd, !Hget by reflexivity. }
  assert (Es : forall l, selection_stage l spec' = selection_stage l chart_spec).
  { intros l. unfold selection_stage, _get_columns_for_chart.
    now rewrite !Hget by reflexivity. }
  assert (Efs : filter_stage df spec' h = filter_stage df chart_spec h).
  { rewrite !(run_filter_stage _ _ _ _ Hd).
    unfold spec'. rewrite get_setitem. cbn [String.eqb Ascii.eqb Bool.eqb]. rewrite Hf.
    cbn [iterate].
    assert (El : filter_loop items (length h) (h ++ [d])
                 = filter_loop (List.filter is_equality_filter items)
                     (length h) (h ++ [d])).
    { apply (filter_loop_equality items Hitems _ _ d). apply lookup_new. }
    destruct items as [|i items']; [reflexivity|].
    cbn [truthy]. rewrite El.
    destruct (List.filter is_equality_filter (i :: items')) eqn:Ef; reflexivity. }
  unfold chart_data, bindM. rewrite Efs.
  destruct (filter_stage df chart_spec h) as [[l|e] h1]; [| reflexivity].
  rewrite Ea. destruct (aggregation_stage l chart_spec h1) as [[l2|e] h2]; [| reflexivity].
  now rewrite Es.
Qed.

End ChartFilters.

Lemma chart_filters_equality_only_witness :
  @chart_data example_pandas 0%nat
    [("chart_type", VStr "bar"); ("x_axis", VStr "region"); ("y_axis", VStr "sales");
     ("filters", VList [filter_clause (VStr "sales") (VStr ">") (VInt 15);
                        filter_clause (VStr "region") (VStr "==") (VStr "north")])]
    [sales_table]
  = @chart_data example_pandas 0%nat
      (setitem
         [("chart_type", VStr "bar"); ("x_axis", VStr "region"); ("y_axis", VStr "sales");
          ("filters", VList [filter_clause (VStr "sales") (VStr ">") (VInt 15);
                             filter_clause (VStr "region") (VStr "==") (VStr "north")])]
         "filters"
         (VList (List.filter is_equality_filter
                   [filter_clause (VStr "sales") (VStr ">") (VInt 15);
                    filter_clause (VStr "region") (VStr "==") (VStr "north")])))
      [sales_table].
Proof.
  apply (chart_filters_equality_only (H := example_pandas) [sales_table] 0%nat sales_table
           [("chart_type", VStr "bar"); ("x_axis", VStr "region"); ("y_axis", VStr "sales");
            ("filters", VList [filter_clause (VStr "sales") (VStr ">") (VInt 15);
                               filter_clause (VStr "region") (VStr "==") (VStr "north")])]
           [filter_clause (VStr "sales") (VStr ">") (VInt 15);
            filter_clause (VStr "region") (VStr "==") (VStr "north")]
           eq_refl eq_refl).
  repeat constructor; eexists _, _, _; reflexivity.
Defined.

(** ** Preparing a prepared table *)

Lemma mask_cells_nil_r {A} m : @mask_cells A m [] = [].
Proof. now destruct m. Qed.

Lemma mask_cells_compose {A} m1 :
  forall m2 (l : list A),
    mask_cells m2 (mask_cells m1 l) = mask_cells (compose_mask m1 m2) l.
Proof.
  induction m1 as [|b m1 IH]; intros m2 l.
  - simpl. apply mask_cells_nil_r.
  - destruct l as [|x l]; [now rewrite !mask_cells_nil_r|].
    destruct b; simpl.
    + destruct m2 as [|b2 m2]; [reflexivity|]. simpl. destruct b2; now rewrite IH.
    + apply IH.
Qed.

Lemma mask_rows_compose m1 m2 d :
  mask_rows m2 (mask_rows m1 d) = mask_rows (compose_mask m1 m2) d.
Proof.
  unfold mask_rows. rewrite map_map. apply map_ext. intros c. simpl.
  now rewrite mask_cells_compose.
Qed.

Lemma cols_named_app name a b :
  cols_named name (a ++ b) = cols_named name a ++ cols_named name b.
Proof. unfold cols_named. apply List.filter_app. Qed.

Lemma cols_named_cols_named s n d :
  cols_named s (cols_named n d) = if String.eqb n s then cols_named n d else [].
Proof.
  unfold cols_named. induction d as [|c d IH]; simpl; [now destruct (String.eqb n s)|].
  destruct (String.eqb_spec (col_name c) n) as [En | En]; simpl.
  - rewrite IH. subst n. destruct (String.eqb (col_name c) s); reflexivity.
  - exact IH.
Qed.

Lemma cols_named_select_out s names d :
  ~ In s names -> cols_named s (select_columns names d) = [].
Proof.
  unfold select_columns. induction names as [|n names IH]; simpl; [reflexivity|].
  intros Hs. rewrite cols_named_app, cols_named_cols_named, IH by tauto.
  destruct (String.eqb_spec n s); [subst; tauto | reflexivity].
Qed.

Lemma cols_named_select s names d :
  NoDup names -> In s names -> cols_named s (select_columns names d) = cols_named s d.
Proof.
  unfold select_columns. induction 1 as [|n names Hn Hnd IH]; simpl; [tauto|].
  rewrite list_elem_of_In in Hn.
  intros Hs. rewrite cols_named_app, cols_named_cols_named.
  destruct (String.eqb_spec n s) as [-> | Hne].
  - fold (select_columns names d). rewrite cols_named_select_out by exact Hn.
    apply app_nil_r.
  - destruct Hs as [-> | Hs]; [contradiction|]. now apply IH.
Qed.

Lemma cols_named_filter s (P : column -> bool) d :
  cols_named s (List.filter P d) = List.filter P (cols_named s d).
Proof.
  unfold cols_named. induction d as [|c d IH]; simpl; [reflexivity|].
  destruct (P c) eqn:Ep, (String.eqb (col_name c) s) eqn:Es; simpl;
    rewrite ?Ep, ?Es, IH; reflexivity.
Qed.

Lemma cols_named_mask_rows s m d :
  cols_named s (mask_rows m d) = mask_rows m (cols_named s d).
Proof.
  unfold cols_named, mask_rows. induction d as [|c d IH]; simpl; [reflexivity|].
  destruct (String.eqb (col_name c) s); simpl; now rewrite IH.
Qed.

Lemma flat_map_filter {A B} (f : A -> list B) (P : B -> bool) l :
  List.filter P (List.flat_map f l) = List.flat_map (fun x => List.filter P (f x)) l.
Proof.
  induction l as [|x l IH]; simpl; [reflexivity|]. now rewrite List.filter_app, IH.
Qed.

Lemma flat_map_map_out {A B C} (f : A -> list B) (g : B -> C) l :
  List.map g (List.flat_map f l) = List.flat_map (fun x => List.map g (f x)) l.
Proof.
  induction l as [|x l IH]; simpl; [reflexivity|]. now rewrite List.map_app, IH.
Qed.

(** The columns of a selection, picked from the prepared table. *)
Lemma select_columns_prepared names sub d :
  NoDup names -> (forall s, In s sub -> In s names) ->
  select_columns sub (prepared names false d)
  = mask_rows (rows_not_all_null (drop_null_columns (select_columns names d)))
      (drop_null_columns (select_columns sub d)).
Proof.
  intros Hnd Hsub. unfold prepared, drop_null_rows.
  set (m := rows_not_all_null (drop_null_columns (select_columns names d))).
  unfold select_columns at 1 3. unfold drop_null_columns at 2.
  rewrite flat_map_filter. unfold mask_rows at 2. rewrite flat_map_map_out.
  rewrite !flat_map_concat_map. f_equal. apply map_ext_in. intros s Hs.
  rewrite cols_named_mask_rows. unfold drop_null_columns.
  rewrite cols_named_filter, cols_named_select by auto. reflexivity.
Qed.

Lemma filter_all {A} (P : A -> bool) l :
  (forall x, In x l -> P x = true) -> List.filter P l = l.
Proof.
  induction l as [|x l IH]; simpl; [reflexivity|]. intros Hl.
  rewrite (Hl x (or_introl eq_refl)), IH; [reflexivity|]. intros y Hy. apply Hl. now right.
Qed.

Lemma drop_null_columns_mask m d :
  (forall c, In c d -> covers m (col_cells c) /\ forallb is_null (col_cells c) = false) ->
  drop_null_columns (mask_rows m d) = mask_rows m d.
Proof.
  intros Hd. unfold drop_null_columns. apply filter_all. intros c' Hc'.
  apply mask_rows_In in Hc' as (c & Hc & _ & _ & ->).
  destruct (Hd c Hc) as [Hcov Hv]. apply negb_true_iff.
  now apply mask_cells_has_value.
Qed.

Lemma mask_le_length a b : mask_le a b -> length a = length b.
Proof. induction 1; simpl; congruence. Qed.

Lemma mask_le_repeat n m : length m = n -> mask_le (List.repeat false n) m.
Proof.
  revert n. induction m as [|b m IH]; intros [|n] E; simpl in *; try discriminate.
  - constructor.
  - constructor; [discriminate|]. apply IH. congruence.
Qed.

Lemma mask_le_zip_or a b m : mask_le a m -> mask_le b m -> mask_le (zip_or a b) m.
Proof.
  intros Ha. revert b. induction Ha as [|x y a m Hxy Ha IH]; intros b Hb.
  - inversion Hb; subst. constructor.
  - inversion Hb as [|x' y' b' m' Hxy' Hb']; subst. simpl. constructor.
    + intros E. apply orb_true_iff in E as [E | E]; auto.
    + now apply IH.
Qed.

Lemma covers_mask_le m cells :
  covers m cells -> mask_le (List.map (fun x => negb (is_null x)) cells) m.
Proof.
  unfold covers. induction 1 as [|b x m cells Hb _ IH]; simpl; constructor; [| exact IH].
  intros E. apply Hb. now apply negb_true_iff.
Qed.

Lemma row_mask_le n m cols :
  length m = n -> (forall c, In c cols -> covers m (col_cells c)) ->
  mask_le (row_mask n cols) m.
Proof.
  intros Hm. unfold row_mask. induction cols as [|c cols IH]; simpl; intros Hc.
  - now apply mask_le_repeat.
  - apply mask_le_zip_or.
    + apply covers_mask_le. apply Hc. now left.
    + apply IH. intros c' Hc'. apply Hc. now right.
Qed.

Lemma mask_cells_compose_le {A} ms m1 :
  mask_le ms m1 ->
  forall l : list A, mask_cells (compose_mask m1 (mask_cells m1 ms)) l = mask_cells ms l.
Proof.
  induction 1 as [|x y ms m1 Hxy _ IH]; intros l; [reflexivity|].
  destruct l as [|z l]; [now rewrite !mask_cells_nil_r|].
  destruct y; simpl.
  - destruct x; now rewrite IH.
  - destruct x; [now specialize (Hxy eq_refl) | apply IH].
Qed.

(** Preparing, from a prepared table, columns that it was prepared with
    gives what preparing them from the table itself gives. *)
Lemma prepared_prepared names sub d :
  rectangular d -> NoDup names -> (forall s, In s sub -> In s names) ->
  prepared sub false (prepared names false d) = prepared sub false d.
Proof.
  intros Hr Hnd Hsub. unfold prepared at 1. rewrite (select_columns_prepared names sub d Hnd Hsub).
  unfold prepared.
  set (Dn := drop_null_columns (select_columns names d)).
  set (Ds := drop_null_columns (select_columns sub d)).
  set (m1 := rows_not_all_null Dn).
  pose proof (drop_null_columns_lengths _ _ (select_columns_lengths sub d Hr)) as HfS.
  fold Ds in HfS.
  assert (HDs : forall c, In c Ds ->
                  covers m1 (col_cells c) /\ forallb is_null (col_cells c) = false).
  { intros c Hc. unfold Ds, drop_null_columns in Hc. apply filter_In in Hc as [Hc Hv].
    apply negb_true_iff in Hv. split; [| exact Hv].
    apply (rows_not_all_null_covers (select_columns names d));
      [now apply select_columns_rect|].
    apply filter_In. split; [| now rewrite Hv].
    apply select_columns_In in Hc as [Hc Hn]. apply select_columns_intro; auto. }
  rewrite (drop_null_columns_mask m1 Ds HDs).
  destruct Ds as [|c0 Ds'] eqn:EDs; [reflexivity|]. rewrite <- EDs in *.
  assert (Hnil : Ds <> []) by (rewrite EDs; discriminate).
  assert (Hm1 : length m1 = nrows d).
  { destruct (HDs c0) as [Hcov _]; [rewrite EDs; now left|].
    rewrite (covers_length _ _ Hcov).
    rewrite List.Forall_forall in HfS. apply HfS. rewrite EDs. now left. }
  unfold drop_null_rows.
  rewrite (rows_not_all_null_row_mask
             (length (mask_cells m1 (List.repeat false (nrows d)))) (mask_rows m1 Ds));
    [| now apply mask_rows_lengths | rewrite EDs; discriminate].
  rewrite row_mask_mask, mask_rows_compose.
  rewrite (rows_not_all_null_row_mask (nrows d) Ds HfS Hnil).
  unfold mask_rows. apply map_ext. intros c. f_equal.
  apply mask_cells_compose_le. apply row_mask_le; [exact Hm1|].
  intros c' Hc'. now apply HDs.
Qed.

Lemma select_columns_present names d :
  select_columns (List.filter (fun n => str_in n (col_names d)) names) d
  = select_columns names d.
Proof.
  unfold select_columns. induction names as [|n names IH]; simpl; [reflexivity|].
  destruct (str_in n (col_names d)) eqn:E; simpl; rewrite IH; [reflexivity|].
  rewrite (cols_named_notin n d); [reflexivity|].
  intros Hn. apply str_in_In in Hn. congruence.
Qed.

Lemma prepare_result_ok_iff sub d t :
  rectangular d ->
  prepare_result (List.map VStr sub) false d = Ok t
  <-> t = prepared sub false d /\ t <> [].
Proof.
  intros Hr. unfold prepare_result. rewrite cols_available_names. cbn [bind].
  assert (Ep : prepared (List.filter (fun n => str_in n (col_names d)) sub) false d
               = prepared sub false d).
  { unfold prepared. now rewrite select_columns_present. }
  destruct (prepared_spec sub d Hr) as (_ & _ & Hcols & _).
  destruct (List.filter (fun n => str_in n (col_names d)) sub) as [|n0 names0].
  - split; [discriminate|]. intros [-> Hne]. contradiction Hne. now rewrite <- Ep.
  - rewrite Ep. split.
    + destruct (df_empty (prepared sub false d)) eqn:Ee; [discriminate|].
      intros E. assert (Et : t = prepared sub false d) by congruence.
      split; [exact Et|]. intros E0. rewrite Et in E0. rewrite E0 in Ee. discriminate.
    + intros [-> Hne]. rewrite df_empty_false; [reflexivity | exact Hne |].
      intros c Hc. now apply Hcols.
Qed.

(** X11. Preparing a table twice.  [generate_chart] hands a builder the
    table that [_prepare_data] makes of the columns that the specification
    names, and the builder calls [_prepare_data] again, for columns among
    these.  When the labels first asked for are distinct, that second call
    returns a table exactly when a call for the same columns on the table
    before the selection does, and the same table: the selection of
    [generate_chart] changes nothing for such a builder. *)
Theorem prepare_data_twice (h h1 : heap) (df l : loc) (d : dataframe)
    (names sub : list string) (t : dataframe) :
  h !! df = Some d -> rectangular d ->
  NoDup names -> (forall s, In s sub -> In s names) ->
  _prepare_data df (List.map VStr names) false h = (Ok l, h1) ->
  (exists l2 h2,
     _prepare_data l (List.map VStr sub) false h1 = (Ok l2, h2) /\ h2 !! l2 = Some t)
  <-> (exists l3 h3,
         _prepare_data df (List.map VStr sub) false h = (Ok l3, h3) /\ h3 !! l3 = Some t).
Proof.
  intros Hd Hr Hnd Hsub E.
  destruct (run_prepare_data_ok _ _ _ _ _ _ E) as (d' & T & Hd' & Hp & HT).
  assert (d' = d) by congruence. subst d'.
  apply prepare_result_ok_iff in Hp as [-> _]; [| exact Hr].
  destruct (prepared_spec names d Hr) as (HrT & _).
  assert (Hiff : prepare_result (List.map VStr sub) false (prepared names false d) = Ok t
                 <-> prepare_result (List.map VStr sub) false d = Ok t).
  { rewrite !prepare_result_ok_iff by assumption.
    now rewrite (prepared_prepared names sub d Hr Hnd Hsub). }
  split.
  - intros (l2 & h2 & E2 & Hl2).
    destruct (run_prepare_data_ok _ _ _ _ _ _ E2) as (T' & t' & HT' & Hp' & Ht').
    assert (T' = prepared names false d) by congruence. subst T'.
    assert (t' = t) by congruence. subst t'. apply Hiff in Hp'.
    destruct (run_prepare_data h df d (List.map VStr sub) false Hd) as (ext & r & Er & Hres).
    rewrite Hp' in Hres. destruct Hres as (l3 & -> & Hl3). now exists l3, (h ++ ext).
  - intros (l3 & h3 & E3 & Hl3).
    destruct (run_prepare_data_ok _ _ _ _ _ _ E3) as (d' & t' & Hd'' & Hp' & Ht').
    assert (d' = d) by congruence. subst d'.
    assert (t' = t) by congruence. subst t'. apply Hiff in Hp'.
    destruct (run_prepare_data h1 l _ (List.map VStr sub) false HT) as (ext & r & Er & Hres).
    rewrite Hp' in Hres. destruct Hres as (l2 & -> & Hl2). now exists l2, (h1 ++ ext).
Qed.

Lemma prepare_data_twice_witness :
  (exists l2 h2,
     _prepare_data 4%nat (List.map VStr ["sales"; "region"]) false
       (snd (_prepare_data 0%nat (List.map VStr ["region"; "sales"; "price"]) false
               [sales_table])) = (Ok l2, h2)
     /\ h2 !! l2 = Some (select_columns ["sales"; "region"] sales_table))
  <-> (exists l3 h3,
         _prepare_data 0%nat (List.map VStr ["sales"; "region"]) false [sales_table]
         = (Ok l3, h3)
         /\ h3 !! l3 = Some (select_columns ["sales"; "region"] sales_table)).
Proof.
  apply (prepare_data_twice [sales_table] _ 0%nat 4%nat sales_table
           ["region"; "sales"; "price"] ["sales"; "region"] _ eq_refl).
  - repeat constructor.
  - repeat (constructor; [rewrite list_elem_of_In; simpl; intuition discriminate|]).
    constructor.
  - simpl. tauto.
  - reflexivity.
Defined.


(** ** C10: the restriction to the named columns *)






(** ** [apply_filters] *)

Lemma mask_cells_all {A} (l : list A) :
  forall n, (length l <= n)%nat -> mask_cells (List.repeat true n) l = l.
Proof.
  induction l as [|x l IH]; intros [|n] Hn; simpl in *; try reflexivity; try lia.
  rewrite IH by lia. reflexivity.
Qed.

Lemma rows_of_refl d : rows_of d d.
Proof.
  exists (List.repeat true (list_max (List.map (fun c => length (col_cells c)) d))).
  unfold mask_rows. rewrite <- (map_id d) at 1. apply map_ext_in. intros c Hc.
  rewrite mask_cells_all; [now destruct c|].
  pose proof (list_max_le (List.map (fun c => length (col_cells c)) d)
                (list_max (List.map (fun c => length (col_cells c)) d))) as [Hle _].
  specialize (Hle (le_n _)). rewrite List.Forall_forall in Hle.
  apply Hle. now apply (in_map (fun c => length (col_cells c))).
Qed.

Lemma rows_of_trans a b c : rows_of a b -> rows_of b c -> rows_of a c.
Proof.
  intros [m2 ->] [m1 ->]. exists (compose_mask m1 m2). apply mask_rows_compose.
Qed.

Lemma rows_of_names t d : rows_of t d -> col_names t = col_names d.
Proof. intros [m ->]. unfold col_names, mask_rows. rewrite map_map. reflexivity. Qed.

Section Filters.
Context `{PandasSem}.

Lemma filtered_rows_of filters :
  forall d t, filtered filters d = Ok t -> rows_of t d.
Proof.
  induction filters as [|f rest IH]; intros d t; simpl.
  - intros E. inversion E. apply rows_of_refl.
  - destruct (negb (str_in (fs_column f) (col_names d))); [discriminate|].
    destruct (filter_comparison (fs_operator f)) as [compare|]; simpl; [| discriminate].
    destruct (get_series (fs_column f) d) as [s|]; simpl; [| discriminate].
    destruct (compare s (fs_value f)) as [mask|]; simpl; [| discriminate].
    intros E. apply IH in E. eapply rows_of_trans; [exact E|]. now exists mask.
Qed.

Lemma filtered_raises filters :
  forall d e, filtered filters d = Raise e -> exn_cls e = ValueError.
Proof.
  induction filters as [|f rest IH]; intros d e; simpl; [discriminate|].
  destruct (negb (str_in (fs_column f) (col_names d))).
  { intros E. now inversion E. }
  destruct (rewrap ValueError "Error applying filter" _) as [t|e'] eqn:Er; simpl.
  - apply IH.
  - intros E. inversion E; subst. unfold rewrap in Er.
    destruct (match filter_comparison (fs_operator f) with Some _ => _ | None => _ end);
      [discriminate | now inversion Er].
Qed.

(** The loop of [apply_filters] computes [filtered] of the table behind
    its argument, and adds objects to the store only. *)
Lemma run_apply_filters_loop filters :
  forall (h : heap) (l : loc) d,
    h !! l = Some d ->
    exists ext,
      snd (apply_filters_loop filters l h) = h ++ ext
      /\ match filtered filters d with
         | Ok t => exists l', fst (apply_filters_loop filters l h) = Ok l'
                              /\ (h ++ ext) !! l' = Some t
         | Raise e => fst (apply_filters_loop filters l h) = Raise e
         end.
Proof.
  induction filters as [|f rest IH]; intros h l d Hl; cbn [apply_filters_loop filtered].
  - exists []. rewrite app_nil_r. split; [reflexivity|]. exists l. now split.
  - unfold bindM, rewrapM, try_except, lift, raise.
    rewrite (run_load _ _ _ Hl).
    destruct (negb (str_in (fs_column f) (col_names d))).
    { exists []. rewrite app_nil_r. now split. }
    destruct (filter_comparison (fs_operator f)) as [compare|]; cbn [bind rewrap].
    2:{ exists []. rewrite app_nil_r. now split. }
    destruct (get_series (fs_column f) d) as [s|e]; cbn [bind rewrap].
    2:{ exists []. rewrite app_nil_r. now split. }
    destruct (compare s (fs_value f)) as [mask|e]; cbn [bind rewrap].
    2:{ exists []. rewrite app_nil_r. now split. }
    rewrite (run_derive _ _ _ _ Hl).
    destruct (IH (h ++ [mask_rows mask d]) (length h) (mask_rows mask d) (lookup_new _ _))
      as (ext & Es & Hres).
    exists (mask_rows mask d :: ext). rewrite Es. rewrite <- app_assoc. split; [reflexivity|].
    destruct (filtered rest (mask_rows mask d)) as [t|e]; [| exact Hres].
    destruct Hres as (l' & El & Hl'). exists l'. split; [exact El|].
    now rewrite <- app_assoc in Hl'.
Qed.

(** X7. What [apply_filters] returns, for a table of the store.  The
    table returned holds rows of the table given, in their order and under
    the same columns, with the same dtypes; it is the table given itself
    when there is no filter, and a new one otherwise, the table given being
    left as it was.  When a filter names no column of the table, has an
    operator that is not one of the six, or its comparison fails, the error
    is a [ValueError]. *)
Theorem apply_filters_spec (h : heap) (df : loc) (d : dataframe) (filters : list FilterSpec) :
  h !! df = Some d ->
  match apply_filters df filters h with
  | (Ok l, h') =>
      exists t, h' !! l = Some t /\ rows_of t d
                /\ col_names t = col_names d
                /\ List.map col_dtype t = List.map col_dtype d
                /\ h' !! df = Some d
                /\ (filters = [] -> l = df /\ h' = h)
                /\ (filters <> [] -> (length h <= l)%nat)
  | (Raise e, h') => exn_cls e = ValueError /\ filters <> []
  end.
Proof.
  intros Hd. unfold apply_filters. destruct filters as [|f rest].
  { unfold ret. exists d. repeat split; auto using rows_of_refl. congruence. }
  unfold df_copy, bindM. rewrite (run_derive _ _ _ _ Hd).
  destruct (run_apply_filters_loop (f :: rest) (h ++ [d]) (length h) d (lookup_new _ _))
    as (ext & Es & Hres).
  destruct (apply_filters_loop (f :: rest) (length h) (h ++ [d])) as [r h'] eqn:El.
  cbn [fst snd] in Es, Hres. subst h'.
  destruct (filtered (f :: rest) d) as [t|e] eqn:Ef.
  - destruct Hres as (l' & -> & Hl'). exists t.
    pose proof (filtered_rows_of _ _ _ Ef) as Hrows.
    split; [exact Hl'|]. split; [exact Hrows|]. split; [now apply rows_of_names|].
    split.
    { destruct Hrows as [m ->]. unfold mask_rows. rewrite map_map. reflexivity. }
    split; [rewrite <- app_assoc; now apply lookup_old|].
    split; [discriminate|]. intros _.
    pose proof (frames_apply_filters_loop (length h) (f :: rest) (length h) (le_n _)
                  (h ++ [d])) as Hfr.
    destruct Hfr as (_ & _ & Hfresh); [rewrite length_app; simpl; lia|].
    apply Hfresh. now rewrite El.
  - subst r. split; [now apply (filtered_raises _ _ _ Ef) | discriminate].
Qed.

End Filters.

Lemma apply_filters_spec_witness :
  match @apply_filters example_pandas 0%nat
          [{| fs_column := "region"; fs_operator := "=="; fs_value := VStr "north" |}]
          [sales_table] with
  | (Ok l, h') =>
      exists t, h' !! l = Some t /\ rows_of t sales_table
                /\ col_names t = col_names sales_table
                /\ List.map col_dtype t = List.map col_dtype sales_table
                /\ h' !! 0%nat = Some sales_table
                /\ ([{| fs_column := "region"; fs_operator := "==";
                        fs_value := VStr "north" |}] = [] -> l = 0%nat /\ h' = [sales_table])
                /\ ([{| fs_column := "region"; fs_operator := "==";
                        fs_value := VStr "north" |}] <> [] -> (1 <= l)%nat)
  | (Raise e, h') =>
      exn_cls e = ValueError
      /\ [{| fs_column := "region"; fs_operator := "=="; fs_value := VStr "north" |}] <> []
  end.
Proof.
  apply (apply_filters_spec (H := example_pandas) [sales_table] 0%nat sales_table
           [{| fs_column := "region"; fs_operator := "=="; fs_value := VStr "north" |}]
           eq_refl).
Defined.

(** ** The two filter loops *)

Section TwoLoops.
Context `{PandasSem}.

Lemma filter_loop_filtered filters :
  Forall (fun f => fs_operator f = "==" /\ is_empty (fs_column f) = false) filters ->
  forall (h : heap) (l : loc) d t,
    h !! l = Some d -> filtered filters d = Ok t ->
    exists ext l',
      filter_loop (List.map clause_of filters) l h = (Ok l', h ++ ext)
      /\ (h ++ ext) !! l' = Some t.
Proof.
  induction 1 as [|f rest [Hop Hcol] _ IH]; intros h l d t Hl; cbn [filtered List.map].
  - intros E. inversion E; subst. exists [], l. rewrite app_nil_r. now split.
  - destruct (str_in (fs_column f) (col_names d)) eqn:Hin; cbn [negb]; [| discriminate].
    unfold clause_of at 1. rewrite Hop. rewrite (filter_loop_cons_eq _ _ _ _ _ _ Hl).
    rewrite Hcol, Hin. cbn [negb orb].
    change (filter_comparison "==") with (Some series_eq).
    destruct (get_series (fs_column f) d) as [s|]; cbn [bind rewrap]; [| discriminate].
    destruct (series_eq s (fs_value f)) as [mask|]; cbn [bind rewrap]; [| discriminate].
    intros E.
    destruct (IH (h ++ [mask_rows mask d]) (length h) _ t (lookup_new _ _) E)
      as (ext & l' & El & Hl').
    exists (mask_rows mask d :: ext), l'. rewrite El. rewrite <- app_assoc.
    split; [reflexivity|]. now rewrite <- app_assoc in Hl'.
Qed.

(** X8. The two filter loops agree on equality.  For filters whose
    operator is [==], on columns with a label that is not empty, when
    [apply_filters] returns a table, the loop of [generate_chart], run on
    the clauses that say the same, makes the same table; [generate_chart]
    then goes on with it when it has a row, and fails with "No data matches
    the specified filters" when it has none, where [apply_filters] returns
    the table without rows. *)
Theorem equality_filters_agree (h h1 : heap) (df l : loc) (d t : dataframe)
    (filters : list FilterSpec) (chart_spec : pydict) :
  h !! df = Some d ->
  Forall (fun f => fs_operator f = "==" /\ is_empty (fs_column f) = false) filters ->
  get chart_spec "filters" = VList (List.map clause_of filters) ->
  apply_filters df filters h = (Ok l, h1) -> h1 !! l = Some t ->
  (df_empty t = false ->
   exists l2 h2, filter_stage df chart_spec h = (Ok l2, h2) /\ h2 !! l2 = Some t)
  /\ (df_empty t = true ->
      fst (filter_stage df chart_spec h)
      = Raise (Exn ValueError "No data matches the specified filters")).
Proof.
  intros Hd Hfs Hget Ha Ht.
  assert (Ef : filtered filters d = Ok t).
  { unfold apply_filters in Ha. destruct filters as [|f rest].
    - unfold ret in Ha. inversion Ha; subst. simpl. congruence.
    - unfold df_copy, bindM in Ha. rewrite (run_derive _ _ _ _ Hd) in Ha.
      destruct (run_apply_filters_loop (f :: rest) (h ++ [d]) (length h) d (lookup_new _ _))
        as (ext & Es & Hres).
      rewrite Ha in Es, Hres. cbn [fst snd] in Es, Hres.
      destruct (filtered (f :: rest) d) as [t'|e]; [| discriminate].
      destruct Hres as (l' & El & Hl'). inversion El; subst. congruence. }
  rewrite (run_filter_stage _ _ _ _ Hd), Hget. cbn [iterate].
  destruct (filter_loop_filtered filters Hfs (h ++ [d]) (length h) d t (lookup_new _ _) Ef)
    as (ext & l' & El & Hl').
  assert (Eloop : (if truthy (VList (List.map clause_of filters))
                   then filter_loop (List.map clause_of filters) (length h) (h ++ [d])
                   else (Ok (length h), h ++ [d]))
                  = (Ok l', (h ++ [d]) ++ ext)).
  { destruct filters as [|f rest]; [| exact El].
    simpl in El. unfold ret in El. exact El. }
  rewrite Eloop. rewrite (run_load _ _ _ Hl'). split.
  - intros ->. eauto.
  - intros ->. reflexivity.
Qed.

End TwoLoops.

Lemma equality_filters_agree_witness :
  exists l2 h2,
    @filter_stage example_pandas 0%nat
      [("chart_type", VStr "bar"); ("x_axis", VStr "region");
       ("filters", VList [filter_clause (VStr "region") (VStr "==") (VStr "north")])]
      [sales_table] = (Ok l2, h2)
    /\ h2 !! l2 = Some (mask_rows [true; false; true; false; false] sales_table).
Proof.
  apply (proj1 (equality_filters_agree (H := example_pandas)
                  [sales_table]
                  [sales_table; sales_table;
                   mask_rows [true; false; true; false; false] sales_table]
                  0%nat 2%nat sales_table
                  (mask_rows [true; false; true; false; false] sales_table)
                  [{| fs_column := "region"; fs_operator := "=="; fs_value := VStr "north" |}]
                  [("chart_type", VStr "bar"); ("x_axis", VStr "region");
                   ("filters",
                    VList [filter_clause (VStr "region") (VStr "==") (VStr "north")])]
                  eq_refl ltac:(repeat constructor) eq_refl eq_refl eq_refl)
           eq_refl).
Defined.

(** ** [validate_data] *)

Lemma all_null_has_value d :
  forallb (fun c => forallb is_null (col_cells c)) d = false
  <-> exists c, In c d /\ has_value c.
Proof.
  split.
  - intros E. induction d as [|c d IH]; simpl in E; [discriminate|].
    destruct (forallb is_null (col_cells c)) eqn:Ec; simpl in E.
    + destruct (IH E) as (c' & Hc' & Hv). exists c'. split; [now right | exact Hv].
    + exists c. split; [now left | now apply has_value_forallb].
  - intros (c & Hc & Hv). apply has_value_forallb in Hv.
    destruct (forallb _ d) eqn:E; [| reflexivity].
    rewrite forallb_forall in E. rewrite (E c Hc) in Hv. discriminate.
Qed.

(** X9. [validate_data] accepts a table that has a column exactly when it
    has at least 2 and at most 100000 rows and one of its cells holds a
    value; a table that it accepts is not empty, so that [generate_chart]
    does not reject it as empty.  A table with a column that it rejects gets
    the message of the first test that fails: the rows before the cells. *)
Theorem validate_data_spec (d : dataframe) :
  d <> [] ->
  (fst (validate_data d) = true
   <-> (2 <= Z.of_nat (nrows d) <= 100000)%Z /\ exists c, In c d /\ has_value c)
  /\ (fst (validate_data d) = true ->
      df_empty d = false /\ snd (validate_data d) = "Data validated successfully")
  /\ ((Z.of_nat (nrows d) < 2)%Z ->
      validate_data d = (false, "Data must have at least 2 rows"))
  /\ ((100000 < Z.of_nat (nrows d))%Z ->
      validate_data d = (false, "Data exceeds maximum limit of 100,000 rows"))
  /\ ((2 <= Z.of_nat (nrows d) <= 100000)%Z -> (forall c, In c d -> ~ has_value c) ->
      validate_data d = (false, "All data is null")).
Proof.
  intros _. unfold validate_data.
  destruct (Z.ltb_spec (Z.of_nat (nrows d)) 2) as [Hlt | Hge].
  { repeat split; try (intros; simpl in *; try discriminate; lia). }
  destruct (Z.ltb_spec 100000 (Z.of_nat (nrows d))) as [Hgt | Hle].
  { repeat split; try (intros; simpl in *; try discriminate; lia). }
  assert (He : df_empty d = false).
  { destruct d as [|c d]; [simpl in Hge; lia|]. simpl. apply Nat.eqb_neq.
    simpl in Hge. lia. }
  rewrite He.
  destruct (forallb (fun c => forallb is_null (col_cells c)) d) eqn:Ea.
  - assert (Hnone : ~ exists c, In c d /\ has_value c).
    { intros Hv. apply all_null_has_value in Hv. congruence. }
    repeat split; try (intros; simpl in *; try discriminate; lia).
    intros [_ Hv]. now contradiction Hnone.
  - pose proof (proj1 (all_null_has_value d) Ea) as Hv.
    repeat split; try (intros; simpl in *; try discriminate; lia); auto.
    intros _ Hno. destruct Hv as (c & Hc & Hv). now contradiction (Hno c Hc).
Qed.

Lemma validate_data_spec_witness :
  df_empty sales_table = false
  /\ snd (validate_data sales_table) = "Data validated successfully".
Proof.
  apply (proj1 (proj2 (validate_data_spec sales_table ltac:(discriminate)))).
  reflexivity.
Defined.

(** ** [get_column_sample] *)

Lemma unique_In l x : In x (unique l) -> In x l.
Proof.
  revert x. induction l as [|y l IH]; simpl; [tauto|]. intros x [-> | Hx]; [now left|].
  apply filter_In in Hx as [Hx _]. right. now apply IH.
Qed.

Lemma ForallOrdPairs_filter {A} (R : A -> A -> Prop) (P : A -> bool) l :
  ForallOrdPairs R l -> ForallOrdPairs R (List.filter P l).
Proof.
  induction 1 as [|x l Hx Hl IH]; simpl; [constructor|].
  destruct (P x); [| exact IH]. constructor; [| exact IH].
  rewrite List.Forall_forall in *. intros y Hy. apply filter_In in Hy as [Hy _]. auto.
Qed.

Lemma take_In {A} n (l : list A) x : In x (take n l) -> In x l.
Proof.
  rewrite <- !list_elem_of_In. apply subseteq_take.
Qed.

Lemma ForallOrdPairs_take {A} (R : A -> A -> Prop) n :
  forall l, ForallOrdPairs R l -> ForallOrdPairs R (take n l).
Proof.
  induction n as [|n IH]; intros l Hl; [constructor|].
  destruct Hl as [|x l Hx Hl]; simpl; [constructor|].
  constructor; [| now apply IH].
  rewrite List.Forall_forall in *. intros y Hy. apply Hx. now apply take_In in Hy.
Qed.

(** No two values of [unique] are equal. *)
Lemma unique_distinct l : ForallOrdPairs (fun x y => cell_eqb y x = false) (unique l).
Proof.
  induction l as [|x l IH]; simpl; constructor.
  - apply List.Forall_forall. intros y Hy. apply filter_In in Hy as [_ Hy].
    now apply negb_true_iff in Hy.
  - now apply ForallOrdPairs_filter.
Qed.

(** Each value is equal to one of [unique]. *)
Lemma unique_covers l :
  forall x, In x l -> is_null x = false ->
            exists y, In y (unique l) /\ cell_eqb x y = true.
Proof.
  induction l as [|z l IH]; simpl; [tauto|]. intros x [-> | Hx] Hn.
  - exists x. split; [now left | now apply cell_eqb_refl].
  - destruct (cell_eqb x z) eqn:Exz.
    + exists z. split; [now left | exact Exz].
    + destruct (IH x Hx Hn) as (y & Hy & Exy). exists y. split; [| exact Exy].
      right. apply filter_In. split; [exact Hy|]. apply negb_true_iff.
      destruct (cell_eqb y z) eqn:Eyz; [| reflexivity].
      rewrite (cell_eqb_trans x y z Exy Eyz) in Exz. discriminate.
Qed.

Lemma slice_to_In {A} n (l : list A) x : In x (slice_to n l) -> In x l.
Proof. unfold slice_to. destruct (0 <=? n)%Z; apply take_In. Qed.

(** X10. The sample that [get_column_sample] returns.  For a label that the
    table does not have it is empty.  Otherwise its values are values of the
    column, none is null and no two are equal; with a sample size that is
    not negative it holds at most that many values, and when it holds fewer,
    every value of the column is equal to one of the sample. *)
Theorem get_column_sample_spec (d : dataframe) (column : string) (sample_size : Z)
    (sample : list cell) :
  get_column_sample d column sample_size = Ok sample ->
  (str_in column (col_names d) = false -> sample = [])
  /\ (str_in column (col_names d) = true ->
      exists s,
        get_series column d = Ok s
        /\ (forall x, In x sample -> In x (col_cells s) /\ is_null x = false)
        /\ ForallOrdPairs (fun x y => cell_eqb y x = false) sample
        /\ ((0 <= sample_size)%Z -> (Z.of_nat (length sample) <= sample_size)%Z)
        /\ ((Z.of_nat (length sample) < sample_size)%Z ->
            forall x, In x (col_cells s) -> is_null x = false ->
                      exists y, In y sample /\ cell_eqb x y = true)).
Proof.
  unfold get_column_sample. destruct (str_in column (col_names d)); cbn [negb].
  { intros E. split; [discriminate|]. intros _.
    destruct (get_series column d) as [s|]; [| discriminate]. cbn [bind] in E.
    inversion E as [Es]. clear E. exists s. split; [reflexivity|].
    set (u := unique (List.filter (fun x => negb (is_null x)) (col_cells s))).
    split; [| split; [| split]].
    - intros x Hx. apply slice_to_In, unique_In, filter_In in Hx as [Hx Hn].
      split; [exact Hx | now apply negb_true_iff in Hn].
    - unfold slice_to. destruct (0 <=? sample_size)%Z;
        apply ForallOrdPairs_take, unique_distinct.
    - intros Hn. unfold slice_to. destruct (Z.leb_spec 0 sample_size); [| lia].
      rewrite length_take. lia.
    - intros Hlen x Hx Hn. unfold slice_to in *.
      destruct (Z.leb_spec 0 sample_size) as [Hpos | Hneg]; [| lia].
      rewrite length_take in Hlen. rewrite take_ge by lia.
      apply unique_covers; [| exact Hn]. apply filter_In. split; [exact Hx|].
      now rewrite Hn. }
  intros E. inversion E. split; [reflexivity | discriminate].
Qed.

Lemma get_column_sample_spec_witness :
  exists s,
    get_series "region" sales_table = Ok s
    /\ (forall x, In x [CStr "north"; CStr "south"] ->
          In x (col_cells s) /\ is_null x = false)
    /\ ForallOrdPairs (fun x y => cell_eqb y x = false) [CStr "north"; CStr "south"]
    /\ ((0 <= 2)%Z -> (Z.of_nat (length [CStr "north"; CStr "south"]) <= 2)%Z)
    /\ ((Z.of_nat (length [CStr "north"; CStr "south"]) < 2)%Z ->
        forall x, In x (col_cells s) -> is_null x = false ->
                  exists y, In y [CStr "north"; CStr "south"] /\ cell_eqb x y = true).
Proof.
  apply (proj2 (get_column_sample_spec sales_table "region" 2
                  [CStr "north"; CStr "south"] eq_refl) eq_refl).
Defined.

(** ** The counts of a grouping *)

Lemma list_sum_map_add {A} (f g : A -> nat) l :
  list_sum (List.map (fun x => f x + g x)%nat l)
  = (list_sum (List.map f l) + list_sum (List.map g l))%nat.
Proof. induction l as [|x l IH]; simpl; [reflexivity|]. rewrite IH. lia. Qed.

Lemma list_sum_indicator {A} (P : A -> bool) l :
  list_sum (List.map (fun x => if P x then 1 else 0)%nat l) = length (List.filter P l).
Proof.
  induction l as [|x l IH]; simpl; [reflexivity|]. rewrite IH. now destruct (P x).
Qed.

Lemma filter_none {A} (P : A -> bool) l :
  (forall x, In x l -> P x = false) -> List.filter P l = [].
Proof.
  induction l as [|x l IH]; simpl; [reflexivity|]. intros Hl.
  rewrite (Hl x (or_introl eq_refl)). apply IH. intros y Hy. apply Hl. now right.
Qed.

(** One element of a list without repetition has a property that at most
    one has. *)
Lemma filter_single {A} (P : A -> bool) l :
  List.NoDup l ->
  (exists x, In x l /\ P x = true) ->
  (forall x y, In x l -> In y l -> P x = true -> P y = true -> x = y) ->
  length (List.filter P l) = 1%nat.
Proof.
  induction 1 as [|z l Hz Hnd IH]; intros (x & Hx & Px) Huniq; [contradiction|].
  simpl. destruct (P z) eqn:Pz.
  - simpl. f_equal. rewrite (filter_none P l); [reflexivity|].
    intros y Hy. destruct (P y) eqn:Py; [| reflexivity].
    assert (z = y) by (apply Huniq; simpl; auto). subst. contradiction.
  - apply IH.
    + destruct Hx as [-> | Hx]; [congruence|]. now exists x.
    + intros a b Ha Hb. apply Huniq; now right.
Qed.

(** The sizes of the groups add up to the number of keys. *)
Lemma group_sizes_sum (groups keys : list key) :
  List.NoDup groups ->
  (forall k, In k keys -> exists g, In g groups /\ key_eqb k g = true) ->
  (forall g g', In g groups -> In g' groups -> key_eqb g g' = true -> g = g') ->
  list_sum (List.map (group_size keys) groups) = length keys.
Proof.
  intros Hnd Hcov Huniq. unfold group_size.
  induction keys as [|k keys IH]; simpl.
  - induction groups as [|g groups IHg]; simpl; [reflexivity|].
    apply IHg; [now inversion Hnd | | intros; apply Huniq; simpl; auto].
    intros k [].
  - rewrite <- IH by (intros k' Hk'; apply Hcov; now right).
    rewrite <- (Nat.add_1_l (list_sum _)).
    rewrite <- (filter_single (fun g => key_eqb k g) groups Hnd).
    + rewrite <- list_sum_indicator, <- list_sum_map_add. f_equal.
      apply map_ext. intros g. now destruct (key_eqb k g).
    + apply Hcov. now left.
    + intros a b Ha Hb Ka Kb. apply Huniq; auto.
      apply (key_eqb_trans a k b); [now rewrite key_eqb_sym | exact Kb].
Qed.

Lemma complete_keys_complete n by_cols k :
  In k (complete_keys n by_cols) -> complete k = true.
Proof. unfold complete_keys. intros Hk. now apply filter_In in Hk. Qed.

Section Counts.
Context `{PandasSem}.

Lemma aggregated_inv agg x_axis y_axis color_by d t :
  aggregated agg x_axis y_axis color_by d = Ok t ->
  exists func labels,
    agg_map_get agg = Ok (Some func)
    /\ (labels = [label_of x_axis] \/ labels = [label_of x_axis; label_of color_by])
    /\ grouped_result func labels (label_of y_axis) d = Ok t.
Proof.
  unfold aggregated.
  destruct (agg_map_get agg) as [[func|]|]; cbn [bind]; try discriminate.
  destruct (in_columns x_axis d) as [[|]|]; cbn [bind negb]; try discriminate.
  destruct (in_columns y_axis d) as [[|]|]; cbn [bind negb]; try discriminate.
  destruct (if truthy color_by then in_columns color_by d else Ok false)
    as [by_color|]; cbn [bind]; [| discriminate].
  intros E. exists func. destruct by_color; eexists; eauto.
Qed.

(** X12. Counting by group loses no row and counts none twice.  When
    [_apply_aggregation] is asked for [count] and returns, the table it
    returns ends with the column of the counts, one for each group of the
    key ([x_axis], or [x_axis] and [color_by]); each count is at least 1,
    and the counts add up to the number of rows whose key holds no null. *)
Theorem count_aggregation_conserves (h h' : heap) (df l : loc) (d : dataframe)
    (x_axis y_axis color_by : value) :
  h !! df = Some d ->
  _apply_aggregation df (VStr "count") x_axis y_axis color_by h = (Ok l, h') ->
  exists by_cols y groups counts,
    h' !! l
    = Some (key_columns groups 0 by_cols
            ++ [Col (col_name y) DInt64
                  (List.map (fun n => CNum (inject_Z (Z.of_nat n))) counts)])
    /\ get_series (label_of y_axis) d = Ok y
    /\ (by_columns [label_of x_axis] d = Ok by_cols
        \/ by_columns [label_of x_axis; label_of color_by] d = Ok by_cols)
    /\ length counts = length groups
    /\ Forall (fun n => (0 < n)%nat) counts
    /\ list_sum counts = length (complete_keys (length (col_cells y)) by_cols).
Proof.
  intros Hd E. rewrite (run_apply_aggregation _ _ _ _ _ _ _ Hd) in E.
  destruct (aggregated (VStr "count") x_axis y_axis color_by d) as [t|] eqn:Ea;
    [| discriminate].
  inversion E; subst. clear E.
  apply aggregated_inv in Ea as (func & labels & Ef & Hl & Eg).
  assert (func = ACount) by (simpl in Ef; congruence). subst func.
  apply grouped_result_spec in Eg as (by_cols & y & Eb & Ey & Hg).
  destruct Hg as (groups & cells & dt & -> & Hnd & Hin & Hcov & Huniq & Hc & _).
  destruct (Hc eq_refl) as [-> ->].
  set (keys := complete_keys (length (col_cells y)) by_cols) in *.
  exists by_cols, y, groups, (List.map (group_size keys) groups).
  rewrite lookup_new, map_map.
  split; [reflexivity|]. split; [exact Ey|].
  split; [destruct Hl as [-> | ->]; auto|].
  split; [apply length_map|]. split.
  - apply List.Forall_forall. intros n Hn. apply in_map_iff in Hn as (g & <- & Hg).
    unfold group_size.
    assert (Hgg : In g (List.filter (fun k' => key_eqb k' g) keys)).
    { apply filter_In. split; [now apply Hin|].
      apply key_eqb_refl.
      apply (complete_keys_complete (length (col_cells y)) by_cols). now apply Hin. }
    destruct (List.filter (fun k' => key_eqb k' g) keys); [contradiction | simpl; lia].
  - now apply group_sizes_sum.
Qed.

End Counts.

Lemma count_aggregation_conserves_witness :
  exists by_cols y groups counts,
    [sales_table;
     [Col "region" DObject [CStr "east"; CStr "north"; CStr "south"];
      Col "sales" DInt64 [CNum 1; CNum 2; CNum 2]]] !! 1%nat
    = Some (key_columns groups 0 by_cols
            ++ [Col (col_name y) DInt64
                  (List.map (fun n => CNum (inject_Z (Z.of_nat n))) counts)])
    /\ get_series (label_of (VStr "sales")) sales_table = Ok y
    /\ (by_columns [label_of (VStr "region")] sales_table = Ok by_cols
        \/ by_columns [label_of (VStr "region"); label_of VNone] sales_table = Ok by_cols)
    /\ length counts = length groups
    /\ Forall (fun n => (0 < n)%nat) counts
    /\ list_sum counts = length (complete_keys (length (col_cells y)) by_cols).
Proof.
  apply (count_aggregation_conserves (H := example_pandas) [sales_table] _ 0%nat 1%nat
           sales_table (VStr "region") (VStr "sales") VNone eq_refl).
  reflexivity.
Defined.

(** ** The sums of a grouping *)

Lemma qsum_map_ext {A} (f g : A -> Q) l :
  (forall x, In x l -> (f x == g x)%Q) ->
  (qsum (List.map f l) == qsum (List.map g l))%Q.
Proof.
  induction l as [|x l IH]; simpl; intros Hl; [reflexivity|].
  rewrite (Hl x (or_introl eq_refl)), IH; [reflexivity|].
  intros y Hy. apply Hl. now right.
Qed.

Lemma qsum_map_add {A} (f g : A -> Q) l :
  (qsum (List.map (fun x => f x + g x) l)
   == qsum (List.map f l) + qsum (List.map g l))%Q.
Proof. induction l as [|x l IH]; simpl; [ring|]. rewrite IH. ring. Qed.

Lemma qsum_indicator {A} (P : A -> bool) (a : Q) l :
  (qsum (List.map (fun x => if P x then a else 0) l)
   == a * inject_Z (Z.of_nat (length (List.filter P l))))%Q.
Proof.
  induction l as [|x l IH]; simpl; [ring|]. rewrite IH.
  destruct (P x); [| ring].
  change (length (x :: List.filter P l)) with (S (length (List.filter P l))).
  rewrite Nat2Z.inj_succ. unfold Z.succ. rewrite inject_Z_plus. ring.
Qed.

Lemma qsum_numbers_cons c l :
  (qsum (numbers (c :: l)) == cell_weight c + qsum (numbers l))%Q.
Proof. destruct c; simpl; ring. Qed.

(** The sums of the groups add up to the sum of the rows. *)
Lemma group_sums (groups : list key) (rows : list (key * cell)) :
  List.NoDup groups ->
  (forall r, In r rows -> exists g, In g groups /\ key_eqb (fst r) g = true) ->
  (forall g g', In g groups -> In g' groups -> key_eqb g g' = true -> g = g') ->
  (qsum (List.map (fun g => qsum (numbers (group_cells rows g))) groups)
   == qsum (numbers (List.map snd rows)))%Q.
Proof.
  intros Hnd Hcov Huniq. induction rows as [|r rows IH].
  - simpl. apply qsum_map_zero. intros g _. reflexivity.
  - change (List.map snd (r :: rows)) with (snd r :: List.map snd rows).
    rewrite qsum_numbers_cons, <- IH by (intros r' Hr'; apply Hcov; now right).
    rewrite (qsum_map_ext _
               (fun g => (if key_eqb (fst r) g then cell_weight (snd r) else 0)
                         + qsum (numbers (group_cells rows g)))%Q).
    + rewrite qsum_map_add, qsum_indicator.
      rewrite (filter_single (key_eqb (fst r)) groups Hnd).
      * simpl. ring.
      * apply Hcov. now left.
      * intros a b Ha Hb Ka Kb. apply Huniq; auto.
        apply (key_eqb_trans a (fst r) b); [now rewrite key_eqb_sym | exact Kb].
    + intros g _. unfold group_cells. cbn [List.filter].
      destruct (key_eqb (fst r) g); [cbn [List.map]; apply qsum_numbers_cons | ring].
Qed.

Section Sums.
Context `{PandasSem}.

(** X13. Summing by group keeps the total.  When [_apply_aggregation] is
    asked for [sum] of a column that int64 and float64 add exactly (whole
    numbers whose absolute values add up to 2^53 at most) and returns, the
    table it returns ends with the column of the sums, one for each group
    of the key, and the sums add up to the sum of the column over the rows
    whose key holds no null (a null of the column adding nothing). *)
Theorem sum_aggregation_conserves (h h' : heap) (df l : loc) (d : dataframe)
    (x_axis y_axis color_by : value) (y : column) :
  h !! df = Some d ->
  get_series (label_of y_axis) d = Ok y -> exactly_summable y = true ->
  _apply_aggregation df (VStr "sum") x_axis y_axis color_by h = (Ok l, h') ->
  exists by_cols groups dt sums,
    h' !! l = Some (key_columns groups 0 by_cols ++ [Col (col_name y) dt (List.map CNum sums)])
    /\ (by_columns [label_of x_axis] d = Ok by_cols
        \/ by_columns [label_of x_axis; label_of color_by] d = Ok by_cols)
    /\ length sums = length groups
    /\ (qsum sums
        == qsum (numbers
                   (List.map snd
                      (keyed_rows
                         (row_keys (length (col_cells y)) (List.map col_cells by_cols))
                         (col_cells y)))))%Q.
Proof.
  intros Hd Ey Hex E.
  assert (En : is_number (col_dtype y) = true).
  { unfold exactly_summable in Hex. apply andb_true_iff in Hex as [Hex _].
    apply andb_true_iff in Hex as [Hex _]. now destruct (col_dtype y). }
  rewrite (run_apply_aggregation _ _ _ _ _ _ _ Hd) in E.
  destruct (aggregated (VStr "sum") x_axis y_axis color_by d) as [t|] eqn:Ea;
    [| discriminate].
  inversion E; subst. clear E.
  apply aggregated_inv in Ea as (func & labels & Ef & Hl & Eg).
  assert (func = ASum) by (simpl in Ef; congruence). subst func.
  apply grouped_result_spec in Eg as (by_cols & y' & Eb & Ey' & Hg).
  assert (y' = y) by congruence. subst y'.
  destruct Hg as (groups & cells & dt & -> & Hnd & Hin & Hcov & Huniq & _ & Hc).
  set (rows := keyed_rows (row_keys (length (col_cells y)) (List.map col_cells by_cols))
                 (col_cells y)) in *.
  specialize (Hc ltac:(discriminate) En). subst cells.
  exists by_cols, groups, dt, (List.map (fun g => qsum (numbers (group_cells rows g))) groups).
  rewrite lookup_new, map_map.
  split; [reflexivity|].
  split; [destruct Hl as [-> | ->]; auto|].
  split; [apply length_map|].
  apply group_sums; auto.
  intros r Hr. apply Hcov. rewrite <- (keyed_rows_keys y by_cols). fold rows.
  now apply in_map.
Qed.

End Sums.

Lemma sum_aggregation_conserves_witness :
  exists by_cols groups dt sums,
    [sales_table;
     [Col "region" DObject [CStr "east"; CStr "north"; CStr "south"];
      Col "sales" DInt64 [CNum 40; CNum 40; CNum 70]]] !! 1%nat
    = Some (key_columns groups 0 by_cols
            ++ [Col (col_name (Col "sales" DInt64 [CNum 10; CNum 20; CNum 30; CNum 40; CNum 50]))
                  dt (List.map CNum sums)])
    /\ (by_columns [label_of (VStr "region")] sales_table = Ok by_cols
        \/ by_columns [label_of (VStr "region"); label_of VNone] sales_table = Ok by_cols)
    /\ length sums = length groups
    /\ (qsum sums
        == qsum (numbers
                   (List.map snd
                      (keyed_rows
                         (row_keys
                            (length (col_cells (Col "sales" DInt64
                                                  [CNum 10; CNum 20; CNum 30; CNum 40; CNum 50])))
                            (List.map col_cells by_cols))
                         (col_cells (Col "sales" DInt64
                                       [CNum 10; CNum 20; CNum 30; CNum 40; CNum 50]))))))%Q.
Proof.
  apply (sum_aggregation_conserves (H := example_pandas) [sales_table] _ 0%nat 1%nat
           sales_table (VStr "region") (VStr "sales") VNone _ eq_refl eq_refl eq_refl).
  reflexivity.
Defined.

(** ** [_ensure_numeric] *)

Lemma mask_cells_filter {A} (P : A -> bool) l :
  mask_cells (List.map P l) l = List.filter P l.
Proof. induction l as [|x l IH]; simpl; [reflexivity|]. rewrite IH. reflexivity. Qed.

Lemma cols_named_single_in name d s : cols_named name d = [s] -> In name (col_names d).
Proof.
  intros E. assert (Hs : In s (cols_named name d)) by (rewrite E; now left).
  apply cols_named_In in Hs as [Hs <-]. now apply in_map.
Qed.

Lemma get_series_inv name d s : get_series name d = Ok s -> cols_named name d = [s].
Proof.
  unfold get_series. destruct (cols_named name d) as [|c [|c' r]]; try discriminate.
  intros E. now inversion E.
Qed.

Lemma get_series_intro name d s : cols_named name d = [s] -> get_series name d = Ok s.
Proof. unfold get_series. now intros ->. Qed.

Lemma cols_named_set_column name c d s :
  cols_named name d = [s] ->
  cols_named name (set_column name c d) = [Col name (col_dtype c) (col_cells c)].
Proof.
  unfold cols_named. induction d as [|c0 d IH]; simpl; [discriminate|].
  destruct (String.eqb (col_name c0) name) eqn:E0; simpl.
  - rewrite String.eqb_refl. intros E. inversion E as [[Es Er]]. now rewrite Er.
  - rewrite E0. exact IH.
Qed.

Lemma col_names_set_column name c d :
  In name (col_names d) -> col_names (set_column name c d) = col_names d.
Proof.
  unfold col_names. induction d as [|c0 d IH]; simpl; [tauto|].
  destruct (String.eqb_spec (col_name c0) name) as [E0 | E0]; simpl.
  - intros _. now rewrite E0.
  - intros [E | Hin]; [congruence|]. now rewrite IH.
Qed.

Lemma set_column_lengths n name c d :
  Forall (fun c' => length (col_cells c') = n) d -> length (col_cells c) = n ->
  Forall (fun c' => length (col_cells c') = n) (set_column name c d).
Proof.
  intros Hd Hc. induction Hd as [|c0 d H0 Hd IH]; simpl.
  - now repeat constructor.
  - destruct (String.eqb (col_name c0) name); constructor; auto.
Qed.

Lemma set_column_nonempty name c d : set_column name c d <> [].
Proof. destruct d as [|c0 d]; simpl; [discriminate|]. now destruct (String.eqb _ _). Qed.

Lemma to_numeric_is_number `{PandasSem} s : is_number (col_dtype (to_numeric s)) = true.
Proof.
  unfold to_numeric. simpl. destruct (col_dtype s); try reflexivity;
    now destruct (forallb is_integer_cell _).
Qed.

Section EnsureNumeric.
Context `{PandasSem}.

(** [_ensure_numeric] on a store that is known, for a label that one column
    bears. *)
Lemma run_ensure_numeric (h : heap) (df : loc) d name s :
  h !! df = Some d -> get_series name d = Ok s ->
  _ensure_numeric df (VStr name) h
  = if negb (is_object_or_string (col_dtype s)) then (Ok (length h), h ++ [d])
    else
      let d2 := set_column name (to_numeric s) d in
      let d3 := dropna_subset name d2 in
      if df_empty d3
      then (Raise (Exn ValueError
                     ("Cannot convert column to numeric" +:+ ": "
                      +:+ "Column contains no valid numeric values")),
            h ++ [d2; d3])
      else (Ok (S (length h)), h ++ [d2; d3]).
Proof.
  intros Hd Hs. unfold _ensure_numeric, df_copy, bindM, lift, in_columns.
  rewrite (run_load _ _ _ Hd).
  rewrite (proj2 (str_in_In name (col_names d)))
    by (apply (cols_named_single_in name d s); now apply get_series_inv).
  cbn [negb]. rewrite (run_derive _ _ _ _ Hd), run_load_new.
  cbn [label_of]. rewrite Hs.
  destruct (is_object_or_string (col_dtype s)); cbn [negb]; [| reflexivity].
  unfold rewrapM, try_except, bindM, store.
  assert (Eh : <[length h := set_column name (to_numeric s) d]> (h ++ [d])
               = h ++ [set_column name (to_numeric s) d]).
  { rewrite (insert_app_r_alt h [d] (length h) _ (le_n _)). now rewrite Nat.sub_diag. }
  rewrite Eh, run_derive_new, run_load_new. rewrite length_app. simpl length.
  rewrite <- app_assoc. simpl app. rewrite Nat.add_1_r.
  now destruct (df_empty (dropna_subset name (set_column name (to_numeric s) d))).
Qed.

End EnsureNumeric.

Section EnsureNumericSpec.
Context `{PandasSem}.

Lemma dropna_subset_set_column name d s :
  cols_named name d = [s] ->
  dropna_subset name (set_column name (to_numeric s) d)
  = mask_rows (List.map (fun x => negb (is_null x)) (List.map to_numeric_cell (col_cells s)))
      (set_column name (to_numeric s) d).
Proof.
  intros Es. unfold dropna_subset.
  now rewrite (cols_named_set_column name (to_numeric s) d s Es).
Qed.

(** X14. What [_ensure_numeric] returns, for a table of the store whose
    columns have one length and a label that one column bears.  A column
    that is not text is returned in a copy of the table.  For a column of
    text, the cells are read as numbers; when none can be read the function
    raises a [ValueError], otherwise it returns a new table with the same
    labels, in which the column is numeric and holds the numbers read, in
    their order, and every column has as many rows as numbers were read.
    The table given is left as it was. *)
Theorem ensure_numeric_spec (h : heap) (df : loc) (d : dataframe) (name : string)
    (s : column) :
  h !! df = Some d -> rectangular d -> get_series name d = Ok s ->
  let numbers_read :=
    List.filter (fun x => negb (is_null x)) (List.map to_numeric_cell (col_cells s)) in
  (is_object_or_string (col_dtype s) = false ->
   _ensure_numeric df (VStr name) h = (Ok (length h), h ++ [d]))
  /\ (is_object_or_string (col_dtype s) = true -> numbers_read = [] ->
      exists e h',
        _ensure_numeric df (VStr name) h = (Raise e, h')
        /\ exn_cls e = ValueError /\ h' !! df = Some d)
  /\ (is_object_or_string (col_dtype s) = true -> numbers_read <> [] ->
      exists l h' t c,
        _ensure_numeric df (VStr name) h = (Ok l, h')
        /\ h' !! l = Some t /\ h' !! df = Some d
        /\ col_names t = col_names d
        /\ get_series name t = Ok c
        /\ is_number (col_dtype c) = true
        /\ col_cells c = numbers_read
        /\ Forall (fun c' => length (col_cells c') = length numbers_read) t).
Proof.
  intros Hd Hr Hs numbers_read.
  rewrite (run_ensure_numeric _ _ _ _ _ Hd Hs).
  pose proof (get_series_inv _ _ _ Hs) as Es.
  set (conv := List.map to_numeric_cell (col_cells s)) in *.
  set (mask := List.map (fun x => negb (is_null x)) conv).
  set (d2 := set_column name (to_numeric s) d).
  assert (Hsd : In s d).
  { assert (Hin : In s (cols_named name d)) by (rewrite Es; now left).
    now apply cols_named_In in Hin. }
  assert (Hlen : length conv = nrows d).
  { unfold conv. rewrite length_map. unfold rectangular in Hr.
    rewrite List.Forall_forall in Hr. now apply Hr. }
  assert (Hd2 : Forall (fun c' => length (col_cells c') = nrows d) d2).
  { apply set_column_lengths; [exact Hr | exact Hlen]. }
  assert (Ed3 : dropna_subset name d2 = mask_rows mask d2)
    by (now apply dropna_subset_set_column).
  assert (Hd3 : Forall (fun c' => length (col_cells c') = length numbers_read)
                  (mask_rows mask d2)).
  { unfold mask_rows. apply Forall_map. eapply Forall_impl; [exact Hd2|].
    intros c' Hc'. simpl. unfold numbers_read. rewrite <- (mask_cells_filter _ conv).
    fold mask. apply length_mask_cells. congruence. }
  assert (Hempty : df_empty (mask_rows mask d2) = (length numbers_read =? 0)%nat).
  { pose proof (set_column_nonempty name (to_numeric s) d) as Hne. fold d2 in Hne.
    destruct d2 as [|c0 d2']; [contradiction|].
    simpl in Hd3 |- *. inversion Hd3 as [|? ? H0 _]; subst. simpl in H0. now rewrite H0. }
  split; [| split].
  - intros ->. reflexivity.
  - intros -> Hnil. cbn [negb]. cbv zeta. fold d2. rewrite Ed3, Hempty, Hnil. simpl.
    eexists _, _. split; [reflexivity|]. split; [reflexivity|]. now apply lookup_old.
  - intros -> Hnn. cbn [negb]. cbv zeta. fold d2. rewrite Ed3, Hempty.
    destruct numbers_read as [|x0 nr] eqn:En; [contradiction|]. rewrite <- En in *.
    replace (length numbers_read =? 0)%nat with false
      by (rewrite En; reflexivity).
    exists (S (length h)), (h ++ [d2; mask_rows mask d2]), (mask_rows mask d2),
      (Col name (col_dtype (to_numeric s)) numbers_read).
    split; [reflexivity|]. split.
    { replace (h ++ [d2; mask_rows mask d2]) with ((h ++ [d2]) ++ [mask_rows mask d2])
        by (now rewrite <- app_assoc).
      replace (S (length h)) with (length (h ++ [d2])) by (rewrite length_app; simpl; lia).
      apply lookup_new. }
    split; [now apply lookup_old|].
    split.
    { transitivity (col_names d2).
      - unfold col_names, mask_rows. now rewrite map_map.
      - apply col_names_set_column. now apply (cols_named_single_in name d s). }
    split.
    { apply get_series_intro. rewrite cols_named_mask_rows. unfold d2.
      rewrite (cols_named_set_column name (to_numeric s) d s Es). simpl.
      unfold mask. fold conv. rewrite mask_cells_filter. reflexivity. }
    split; [apply to_numeric_is_number|]. split; [reflexivity | exact Hd3].
Qed.

End EnsureNumericSpec.

Lemma ensure_numeric_spec_witness :
  exists l h' t c,
    @_ensure_numeric example_pandas 0%nat (VStr "code") [sales_table] = (Ok l, h')
    /\ h' !! l = Some t /\ h' !! 0%nat = Some sales_table
    /\ col_names t = col_names sales_table
    /\ get_series "code" t = Ok c
    /\ is_number (col_dtype c) = true
    /\ col_cells c = [CNum 1; CNum 2; CNum 4; CNum (-7)]
    /\ Forall (fun c' => length (col_cells c') = length [CNum 1; CNum 2; CNum 4; CNum (-7)]) t.
Proof.
  apply (proj2 (proj2 (ensure_numeric_spec (H := example_pandas) [sales_table] 0%nat
                         sales_table "code"
                         (Col "code" DObject [CStr "1"; CStr "2"; CStr "x"; CStr "4"; CStr "-7"])
                         eq_refl ltac:(repeat constructor) eq_refl)) eq_refl).
  discriminate.
Defined.

(** ** [parse_user_request] *)

Lemma rewrap_ok {A} cls prefix (r : result A) a : rewrap cls prefix r = Ok a -> r = Ok a.
Proof. destruct r; simpl; [tauto | discriminate]. Qed.

Lemma rewrap_raises {A} cls prefix (r : result A) e :
  rewrap cls prefix r = Raise e -> exn_cls e = cls.
Proof. destruct r; simpl; [discriminate|]. intros E. now inversion E. Qed.

(** X15. What [parse_user_request] returns.  It returns a specification
    only when the answer of the endpoint holds a text that, stripped, is
    not empty and holds a bracketed payload (a text without opening
    bracket, then a bracket, a text with matched brackets, and the closing
    bracket), which [json.loads] reads as an object that the normalizer
    accepts; what it returns is what the normalizer makes of that object.
    An array, or a value that is no object, is refused.  Every error,
    those of the call, of the extraction and of the normalizer alike, is
    raised as a plain [Exception]: the caller sees no [ValueError]. *)
Theorem parse_user_request_spec (json_loads : string -> option value)
    (reply : llm_reply) (md : metadata) :
  (forall r,
     parse_user_request json_loads reply md = Ok r ->
     exists content pre o w c post spec,
       reply_content reply = Ok (Some content)
       /\ content = pre +:+ String o (w +:+ String c post)
       /\ no_open pre = true /\ matching o c /\ nested w
       /\ json_loads (String o (w +:+ String c EmptyString)) = Some (VDict spec)
       /\ validate_and_enhance_spec spec md = Ok r)
  /\ (forall e, parse_user_request json_loads reply md = Raise e ->
        exn_cls e = Exception).
Proof.
  unfold parse_user_request. split.
  - intros r E. apply rewrap_ok in E.
    destruct (reply_content reply) as [[content|]|]; cbn [bind] in E; try discriminate.
    destruct (is_empty content); [discriminate|].
    destruct (extract_json_str content) as [payload|] eqn:Ep; cbn [bind] in E;
      [| discriminate].
    apply extract_json_str_inv in Ep as (pre & o & w & c & post & -> & -> & Hp & Hm & Hw).
    destruct (json_loads (String o (w +:+ String c EmptyString))) as [v|] eqn:El;
      [| discriminate].
    destruct v; try discriminate. simpl in E.
    exists (pre +:+ String o (w +:+ String c post)), pre, o, w, c, post, d.
    repeat split; auto.
  - intros e. apply rewrap_raises.
Qed.

Lemma parse_user_request_spec_witness :
  exists content pre o w c post spec,
    reply_content
      (JsonBody (VDict [("model", VStr "phi");
                        ("message", VDict [("role", VStr "assistant");
                                           ("content", VStr example_answer)])]))
    = Ok (Some content)
    /\ content = pre +:+ String o (w +:+ String c post)
    /\ no_open pre = true /\ matching o c /\ nested w
    /\ example_parser (String o (w +:+ String c EmptyString)) = Some (VDict spec)
    /\ validate_and_enhance_spec spec (Metadata ["region"; "sales"] ["sales"] ["region"] [] 5)
       = Ok [("chart_type", VStr "bar"); ("x_axis", VStr "region");
             ("aggregation", VStr "count"); ("title", VStr "Bar Chart");
             ("x_label", VStr "region"); ("y_label", VStr "Value")].
Proof.
  apply (proj1 (parse_user_request_spec example_parser
                  (JsonBody (VDict [("model", VStr "phi");
                                    ("message", VDict [("role", VStr "assistant");
                                                       ("content", VStr example_answer)])]))
                  (Metadata ["region"; "sales"] ["sales"] ["region"] [] 5))).
  reflexivity.
Defined.

(** X16. The envelopes that [parse_user_request] reads alike.  A text
    [s] of the model is read in the same way, with the same result, when it
    comes as the message of an Ollama answer, as the message or the text of
    a choice, as the [content] of the body, or as a body that is no JSON. *)
Theorem reply_envelopes_agree (json_loads : string -> option value) (s : string)
    (md : metadata) :
  let by_text := parse_user_request json_loads (TextBody s) md in
  parse_user_request json_loads
    (JsonBody (VDict [("message", VDict [("role", VStr "assistant");
                                         ("content", VStr s)])])) md = by_text
  /\ parse_user_request json_loads
       (JsonBody (VDict [("choices",
                          VList [VDict [("message", VDict [("content", VStr s)])]])])) md
     = by_text
  /\ parse_user_request json_loads
       (JsonBody (VDict [("choices", VList [VDict [("text", VStr s)]])])) md = by_text
  /\ parse_user_request json_loads (JsonBody (VDict [("content", VStr s)])) md = by_text.
Proof.
  cbv zeta. unfold parse_user_request.
  assert (E1 : reply_content
                 (JsonBody (VDict [("message", VDict [("role", VStr "assistant");
                                                      ("content", VStr s)])]))
               = reply_content (TextBody s)) by reflexivity.
  assert (E2 : reply_content
                 (JsonBody (VDict [("choices",
                                    VList [VDict [("message",
                                                   VDict [("content", VStr s)])]])]))
               = reply_content (TextBody s)).
  { cbn. destruct s; reflexivity. }
  assert (E3 : reply_content (JsonBody (VDict [("choices", VList [VDict [("text", VStr s)]])]))
               = reply_content (TextBody s)).
  { cbn. destruct s; reflexivity. }
  assert (E4 : reply_content (JsonBody (VDict [("content", VStr s)]))
               = reply_content (TextBody s)).
  { cbn. destruct s; reflexivity. }
  now rewrite E1, E2, E3, E4.
Qed.

(** ** The sessions of routes/data.py *)

Lemma take_prefix_lookup (h h' : heap) l d :
  take (length h) h' = h -> h !! l = Some d -> h' !! l = Some d.
Proof.
  intros E Hl. rewrite <- E in Hl. rewrite lookup_take_Some in Hl. tauto.
Qed.

Section Upload.
Context `{PandasIO}.

(** [load_data] adds the table read to the store, or raises a [ValueError]
    and leaves the store as it is. *)
Lemma run_load_data (h : heap) file_content file_type :
  (exists d, load_data file_content file_type h = (Ok (length h), h ++ [d]))
  \/ (exists e, load_data file_content file_type h = (Raise e, h)
                /\ exn_cls e = ValueError).
Proof.
  unfold load_data, rewrapM, try_except, bindM, lift, alloc, raise.
  destruct (String.eqb file_type "csv").
  { destruct (read_csv file_content) as [d|e]; [left; now exists d | right; eauto]. }
  destruct (String.eqb file_type "json").
  { destruct (read_json file_content) as [d|e]; [left; now exists d | right; eauto]. }
  destruct (String.eqb file_type "xlsx").
  { destruct (read_excel file_content) as [d|e]; [left; now exists d | right; eauto]. }
  right. eauto.
Qed.

(** The body of the upload: the store only grows, and a session is
    returned only for a table that is valid. *)
Lemma run_upload_body (h : heap) filename content :
  exists ext r,
    upload_body filename content h = (r, h ++ ext)
    /\ match r with
       | Ok (Response s) =>
           exists d,
             ext = [d] /\ session_dataframe s = length h
             /\ session_filename s = filename
             /\ session_metadata s = analyze_data_structure d
             /\ fst (validate_data d) = true
             /\ str_in (lower (last_piece filename)) ALLOWED_FILE_TYPES = true
             /\ (Z.of_nat (String.length content) <= MAX_UPLOAD_SIZE)%Z
       | Ok (HTTPException status_code detail) =>
           (status_code = 413%Z
            /\ str_in (lower (last_piece filename)) ALLOWED_FILE_TYPES = true
            /\ (MAX_UPLOAD_SIZE < Z.of_nat (String.length content))%Z)
           \/ (status_code = 400%Z
               /\ (str_in (lower (last_piece filename)) ALLOWED_FILE_TYPES = false
                   \/ exists d, ext = [d] /\ validate_data d = (false, detail)))
       | Raise e => exn_cls e = ValueError /\ ext = []
       end.
Proof.
  unfold upload_body.
  destruct (str_in (lower (last_piece filename)) ALLOWED_FILE_TYPES) eqn:Ea; cbn [negb].
  2:{ exists [], (Ok (HTTPException 400 "Unsupported file type")). rewrite app_nil_r.
      split; [reflexivity|]. right. auto. }
  destruct (Z.ltb_spec MAX_UPLOAD_SIZE (Z.of_nat (String.length content))) as [Hbig | Hok].
  { exists [], (Ok (HTTPException 413 "File too large")). rewrite app_nil_r.
    split; [reflexivity|]. left. auto. }
  unfold bindM at 1.
  destruct (run_load_data h content (lower (last_piece filename)))
    as [(d & ->) | (e & -> & He)].
  2:{ exists [], (Raise e). rewrite app_nil_r. auto. }
  unfold bindM. rewrite run_load_new.
  destruct (validate_data d) as [is_valid message] eqn:Ev.
  destruct is_valid; cbn [negb]; unfold ret.
  - eexists [d], _. split; [reflexivity|]. exists d. simpl. rewrite Ev. auto 10.
  - eexists [d], _. split; [reflexivity|]. right. split; [reflexivity|]. right. eauto.
Qed.

End Upload.

Section Service.
Context `{PandasIO} `{PandasSem} `{PlotlySem}.

Lemma frames_generate_body {B : Type} n json_loads (ChartResponse : chart -> result B)
    s reply :
  frames n (generate_body json_loads ChartResponse s reply) anything.
Proof.
  unfold generate_body. cbv zeta.
  eapply (frames_bind n _ _ anything); [apply frames_lift; now unfold anything|].
  intros chart_spec _.
  eapply (frames_bind n _ _ anything); [apply frames_load|]. intros d _.
  eapply (frames_bind n _ _ anything); [apply frames_lift; now unfold anything|].
  intros _ _.
  eapply (frames_bind n _ _ anything); [apply frames_generate_chart|]. intros result _.
  apply frames_lift. now unfold anything.
Qed.

Lemma sessions_sound_grow (sessions : gmap.gmap string session) (h h' : heap) :
  sessions_sound (Server sessions h) ->
  take (length h) h' = h ->
  sessions_sound (Server sessions h').
Proof.
  intros Hs Hh sid s Hsid. destruct (Hs sid s Hsid) as (d & Hd & Hv & Hm).
  exists d. split; [| auto]. simpl in *. now apply (take_prefix_lookup h).
Qed.

Lemma take_app_length (h ext : heap) : take (length h) (h ++ ext) = h.
Proof. now rewrite take_app_length. Qed.

(** X17. What the sessions hold.  Whatever the routes are called with,
    each session keeps a table of the store that [validate_data] accepts
    (so a table with rows and a cell that holds a value), together with the
    metadata that [analyze_data_structure] gives for that table: an upload
    (accepted or refused, whatever the response model does), a deletion and
    the generation of a chart keep this true, and it is true before the
    first upload. *)
Theorem sessions_stay_sound (srv : server) :
  sessions_sound srv ->
  (forall (B : Type) (UploadResponse : session_fields -> result B)
          session_id filename content,
     sessions_sound (snd (upload_data UploadResponse session_id filename content srv)))
  /\ (forall session_id, sessions_sound (snd (delete_session session_id srv)))
  /\ (forall (B : Type) json_loads (ChartResponse : chart -> result B) session_id reply,
        sessions_sound
          (snd (generate_chart_route json_loads ChartResponse session_id reply srv))).
Proof.
  intros Hs. destruct srv as [sessions h]. split; [| split].
  - intros B UploadResponse sid filename content. unfold upload_data.
    cbn [objects active_sessions].
    destruct (run_upload_body h filename content) as (ext & r & -> & Hr).
    destruct r as [[s | status detail] | e]; cbn [snd].
    + destruct Hr as (d & -> & Hdf & _ & Hm & Hv & _).
      assert (Hnew : (h ++ [d]) !! session_dataframe s = Some d)
        by (rewrite Hdf; apply lookup_new).
      rewrite Hnew. cbv zeta.
      assert (Hstored : sessions_sound (Server (<[sid := s]> sessions) (h ++ [d]))).
      { intros sid' s' Hsid'. cbn [active_sessions objects] in *.
        destruct (decide (sid = sid')) as [<- | Hne].
        - rewrite fin_maps.lookup_insert_eq in Hsid'. inversion Hsid'; subst. eauto.
        - rewrite fin_maps.lookup_insert_ne in Hsid' by exact Hne.
          destruct (Hs sid' s' Hsid') as (d' & Hd' & Hv' & Hm'). exists d'.
          split; [now apply lookup_old | auto]. }
      now destruct (UploadResponse (session_info sid s d)).
    + apply (sessions_sound_grow sessions h); [exact Hs | apply take_app_length].
    + apply (sessions_sound_grow sessions h); [exact Hs | apply take_app_length].
  - intros sid. unfold delete_session. cbn [active_sessions objects].
    destruct (sessions !! sid) eqn:E; cbn [snd]; [| exact Hs].
    intros sid' s' Hsid'. cbn [active_sessions objects] in *.
    destruct (decide (sid = sid')) as [<- | Hne].
    + rewrite fin_maps.lookup_delete_eq in Hsid'. discriminate.
    + rewrite fin_maps.lookup_delete_ne in Hsid' by exact Hne. exact (Hs sid' s' Hsid').
  - intros B json_loads ChartResponse sid reply. unfold generate_chart_route.
    cbn [active_sessions objects].
    destruct (sessions !! sid) as [s|]; [| exact Hs].
    destruct (frames_generate_body (length h) json_loads ChartResponse s reply h (le_n _))
      as (_ & Hh & _).
    rewrite firstn_all in Hh.
    destruct (generate_body json_loads ChartResponse s reply h) as [[result|e] h'];
      cbn [snd] in *; now apply (sessions_sound_grow sessions h).
Qed.

End Service.

Lemma sessions_sound_empty `{PandasIO} : sessions_sound (Server ∅ []).
Proof. intros sid s Hs. simpl in Hs. now rewrite fin_maps.lookup_empty in Hs. Qed.

Lemma sessions_stay_sound_witness :
  @sessions_sound example_io
    (snd (@upload_data example_io session_fields Ok "s1" "sales.csv" "region,sales"
            (Server ∅ []))).
Proof.
  apply (proj1 (@sessions_stay_sound example_io example_pandas example_plotly
                  (Server ∅ []) sessions_sound_empty)).
Defined.


Section Sessions.
Context `{PandasIO} {J : Type} (jsonable_encoder : session_fields -> result J).



End Sessions.


(** ** The statuses of routes/charts.py *)




Section ChartRoute.
Context `{PandasIO} `{PandasSem} `{PlotlySem}.




End ChartRoute.


(** ** The statuses of the upload *)

Lemma char_in_append c a b : char_in c (a +:+ b) = char_in c a || char_in c b.
Proof.
  induction a as [|x a IH]; [reflexivity|].
  change (String x a +:+ b) with (String x (a +:+ b)). cbn [char_in].
  rewrite IH. now rewrite orb_assoc.
Qed.

Lemma last_piece_no_dot s : char_in "." s = false -> last_piece s = s.
Proof.
  destruct s as [|c r]; [reflexivity|]. cbn [char_in last_piece].
  intros E. apply orb_false_elim in E as [Ec Er]. rewrite Er.
  now rewrite Ascii.eqb_sym, Ec.
Qed.

(** The piece after the last dot of a file name is its extension. *)
Lemma last_piece_extension stem ext :
  char_in "." ext = false -> last_piece (stem +:+ String "." ext) = ext.
Proof.
  intros Hext. induction stem as [|c stem IH].
  - cbn [String.append last_piece]. rewrite Hext. now rewrite Ascii.eqb_refl.
  - change (String c stem +:+ String "." ext) with (String c (stem +:+ String "." ext)).
    cbn [last_piece]. rewrite char_in_append. cbn [char_in].
    rewrite Ascii.eqb_refl. cbn [orb]. rewrite orb_true_r. exact IH.
Qed.

Section UploadStatuses.
Context `{PandasIO}.

(** X20. The answers of the upload.  The extension of a file is the text
    after the last dot of its name, in lower case; a file with another
    extension than csv, json and xlsx is refused with 400 before it is
    read, and a file of an accepted extension and more than 50 MB with 413:
    a file of exactly 50 MB is read.  Any other refusal has status 400: a
    file that cannot be read or a table that [validate_data] rejects, which
    leave the sessions as they are, or a response model that raises, after
    the session is stored.  An accepted upload stores the session under the
    identifier given, replacing the session that was there, and answers
    with the response model of the number of rows and the labels of the
    table read. *)
Theorem upload_data_statuses {B : Type} (UploadResponse : session_fields -> result B)
    (session_id filename content : string) (srv : server) :
  let extension := lower (last_piece filename) in
  let size := Z.of_nat (String.length content) in
  let stored srv' (outcome : result B) :=
    exists s d,
      active_sessions srv' = <[session_id := s]> (active_sessions srv)
      /\ objects srv' = objects srv ++ [d]
      /\ session_dataframe s = length (objects srv)
      /\ session_filename s = filename
      /\ fst (validate_data d) = true
      /\ UploadResponse (session_info session_id s d) = outcome
      /\ sf_row_count (session_info session_id s d) = nrows d
      /\ sf_columns (session_info session_id s d) = col_names d in
  (forall stem ext, char_in "." ext = false ->
                    last_piece (stem +:+ String "." ext) = ext)
  /\ match upload_data UploadResponse session_id filename content srv with
     | (Response body, srv') =>
         str_in extension ALLOWED_FILE_TYPES = true
         /\ (size <= 50 * 1024 * 1024)%Z
         /\ stored srv' (Ok body)
     | (HTTPException status_code detail, srv') =>
         (str_in extension ALLOWED_FILE_TYPES = false ->
          status_code = 400%Z /\ srv' = srv)
         /\ (str_in extension ALLOWED_FILE_TYPES = true ->
             (50 * 1024 * 1024 < size)%Z -> status_code = 413%Z /\ srv' = srv)
         /\ (str_in extension ALLOWED_FILE_TYPES = true ->
             (size <= 50 * 1024 * 1024)%Z -> status_code = 400%Z)
         /\ (active_sessions srv' = active_sessions srv
             \/ exists e,
                  stored srv' (Raise e)
                  /\ status_code = 400%Z
                  /\ detail = "Error processing file: " +:+ exn_msg e)
     end.
Proof.
  cbv zeta. split; [exact last_piece_extension|].
  unfold upload_data. destruct srv as [sessions h]. cbn [objects active_sessions].
  pose proof (run_upload_body h filename content) as (ext & r & Er & Hr).
  pose proof Er as Er'. unfold upload_body in Er'.
  rewrite Er. change MAX_UPLOAD_SIZE with (50 * 1024 * 1024)%Z in *.
  destruct r as [[s | status detail] | e].
  - destruct Hr as (d & -> & Hdf & Hfn & Hm & Hv & Ha & Hsz).
    assert (Hnew : (h ++ [d]) !! session_dataframe s = Some d)
      by (rewrite Hdf; apply lookup_new).
    rewrite Hnew.
    destruct (UploadResponse (session_info session_id s d)) as [body|e] eqn:Eu.
    + split; [exact Ha|]. split; [exact Hsz|].
      exists s, d. cbn [active_sessions objects]. repeat split; auto.
    + split; [intros Hf; rewrite Ha in Hf; discriminate|].
      split; [intros _ Hbig; lia|]. split; [reflexivity|].
      right. exists e. split; [| auto].
      exists s, d. cbn [active_sessions objects]. repeat split; auto.
  - cbn [active_sessions].
    destruct (str_in (lower (last_piece filename)) ALLOWED_FILE_TYPES) eqn:Ea;
      cbn [negb] in Er'.
    2:{ unfold ret in Er'. inversion Er' as [[E1 E2 E3]].
        assert (ext = []) by (apply (app_inv_head h); now rewrite app_nil_r).
        subst ext. rewrite app_nil_r.
        split; [auto|]. split; [discriminate|]. split; [discriminate | now left]. }
    split; [discriminate|].
    destruct (Z.ltb_spec (50 * 1024 * 1024) (Z.of_nat (String.length content)))
      as [Hbig | Hok].
    + unfold ret in Er'. inversion Er' as [[E1 E2 E3]].
      assert (ext = []) by (apply (app_inv_head h); now rewrite app_nil_r).
      subst ext. rewrite app_nil_r.
      split; [auto|]. split; [intros _ Hle; lia | now left].
    + split; [intros _ Hlt; lia|]. split; [| now left]. intros _ _.
      destruct Hr as [(-> & _ & Hbig) | (-> & _)]; [lia | reflexivity].
  - cbn [active_sessions]. destruct Hr as [_ ->]. rewrite app_nil_r.
    destruct (str_in (lower (last_piece filename)) ALLOWED_FILE_TYPES) eqn:Ea;
      cbn [negb] in Er'; [| unfold ret in Er'; discriminate].
    split; [discriminate|].
    destruct (Z.ltb_spec (50 * 1024 * 1024) (Z.of_nat (String.length content)))
      as [Hbig | Hok]; [unfold ret in Er'; discriminate|].
    split; [intros _ Hlt; lia|]. split; [reflexivity | now left].
Qed.

End UploadStatuses.

Lemma upload_data_statuses_witness :
  last_piece ("sales.2024" +:+ String "." "CSV") = "CSV".
Proof.
  apply (proj1 (@upload_data_statuses example_io session_fields Ok "s1" "sales.2024.CSV"
                  "region,sales" (Server ∅ []))).
  reflexivity.
Defined.

(** ** The charts that count *)

Lemma zip_or_false_r a n :
  length a = n -> zip_or a (List.repeat false n) = a.
Proof.
  revert n. induction a as [|x a IH]; intros [|n] E; simpl in *; try discriminate;
    [reflexivity|].
  rewrite orb_false_r, IH; [reflexivity | congruence].
Qed.

(** The table prepared for one label that one column bears: the column,
    without its nulls. *)
Lemma prepared_single name d s :
  get_series name d = Ok s -> has_value s ->
  prepared [name] false d
  = [Col (col_name s) (col_dtype s)
       (List.filter (fun x => negb (is_null x)) (col_cells s))].
Proof.
  intros Hs Hv. apply get_series_inv in Hs. unfold prepared, select_columns.
  simpl List.flat_map. rewrite Hs, app_nil_r.
  unfold drop_null_columns. simpl List.filter.
  rewrite (proj1 (has_value_forallb s) Hv). simpl negb. cbv iota.
  unfold drop_null_rows, rows_not_all_null. simpl.
  rewrite zip_or_false_r by (now rewrite length_map).
  now rewrite mask_cells_filter.
Qed.

Lemma prepare_result_single name d s :
  get_series name d = Ok s -> has_value s ->
  prepare_result [VStr name] false d
  = Ok [Col (col_name s) (col_dtype s)
          (List.filter (fun x => negb (is_null x)) (col_cells s))].
Proof.
  intros Hs Hv. unfold prepare_result. simpl cols_available.
  rewrite (proj2 (str_in_In name (col_names d)))
    by (apply (cols_named_single_in name d s); now apply get_series_inv).
  cbn [bind label_of]. rewrite (prepared_single name d s Hs Hv).
  simpl df_empty. destruct Hv as (x & Hx & Hn).
  assert (Hin : In x (List.filter (fun x => negb (is_null x)) (col_cells s))).
  { apply filter_In. split; [exact Hx | now rewrite Hn]. }
  destruct (List.filter (fun x => negb (is_null x)) (col_cells s)); [contradiction|].
  reflexivity.
Qed.

Lemma get_series_name name d s : get_series name d = Ok s -> col_name s = name.
Proof.
  intros Hs. apply get_series_inv in Hs.
  assert (Hin : In s (cols_named name d)) by (rewrite Hs; now left).
  now apply cols_named_In in Hin.
Qed.

Lemma combine_repeat {A B} (l : list A) (x : B) :
  List.combine l (List.repeat x (length l)) = List.map (fun a => (a, x)) l.
Proof. induction l as [|a l IH]; simpl; [reflexivity|]. now rewrite IH. Qed.

Lemma combine_map_self {A B} (f : A -> B) (l : list A) :
  List.combine (List.map f l) l = List.map (fun a => (f a, a)) l.
Proof. induction l as [|a l IH]; simpl; [reflexivity|]. now rewrite IH. Qed.

(** The rows of a grouping by one column without nulls: all of them. *)
Lemma keyed_rows_single cells :
  (forall x, In x cells -> is_null x = false) ->
  keyed_rows (row_keys (length cells) [cells]) cells
  = List.map (fun x => ([x], x)) cells.
Proof.
  intros Hn. unfold keyed_rows. simpl row_keys. rewrite combine_repeat, map_map.
  simpl. rewrite combine_map_self. apply filter_all.
  intros r Hr. apply in_map_iff in Hr as (x & <- & Hx). simpl.
  now rewrite (Hn x Hx).
Qed.

Lemma filter_not_null cells x :
  In x (List.filter (fun x => negb (is_null x)) cells) -> is_null x = false.
Proof. intros Hx. apply filter_In in Hx as [_ Hx]. now apply negb_true_iff in Hx. Qed.

(** The table of a [groupby(x).size()] on a column without nulls. *)
Lemma groupby_size_single name dt cells :
  (forall x, In x cells -> is_null x = false) ->
  String.eqb name "count" = false ->
  exists groups counts,
    groupby_size [Col name dt cells] (Col "count" DInt64 cells)
    = Ok [Col name dt groups;
          Col "count" DInt64 (List.map (fun n => CNum (inject_Z (Z.of_nat n))) counts)]
    /\ length groups = length counts
    /\ Forall (fun n => (0 < n)%nat) counts
    /\ list_sum counts = length cells
    /\ (forall g, In g groups -> In g cells)
    /\ (forall x, In x cells -> exists g, In g groups /\ cell_eqb x g = true)
    /\ ForallOrdPairs (fun g g' => cell_eqb g g' = false) groups.
Proof.
  intros Hn Hname. unfold groupby_size. cbn [col_cells List.map].
  rewrite (keyed_rows_single cells Hn).
  set (rows := List.map (fun x => ([x], x)) cells).
  assert (Hcomplete : forall r, In r rows -> complete (fst r) = true).
  { intros r Hr. apply in_map_iff in Hr as (x & <- & Hx). unfold complete. simpl.
    now rewrite (Hn x Hx). }
  destruct (group_keys_spec rows Hcomplete) as (Hnd & Hfrom & Hcov & Huniq).
  set (keys := group_keys rows) in *.
  exists (List.map (fun k => List.nth 0 k CNull) keys),
    (List.map (fun k => length (group_cells rows k)) keys).
  split.
  { unfold reset_index, key_column.
    cbn [key_columns List.map app col_name col_dtype distinct str_in].
    unfold key_column. cbn [col_name col_dtype]. rewrite Hname. cbn [orb negb andb].
    unfold qlen. now rewrite map_map. }
  split; [now rewrite !length_map|].
  assert (Hkey : forall k, In k keys -> exists x, In x cells /\ k = [x]).
  { intros k Hk. destruct (Hfrom k Hk) as (r & Hr & <-).
    apply in_map_iff in Hr as (x & <- & Hx). eauto. }
  split.
  { apply List.Forall_forall. intros n Hin. apply in_map_iff in Hin as (k & <- & Hk).
    assert (Hpos : (0 < group_size (List.map fst rows) k)%nat).
    { unfold group_size.
      assert (Hkk : In k (List.filter (fun k' => key_eqb k' k) (List.map fst rows))).
      { apply filter_In. destruct (Hfrom k Hk) as (r & Hr & <-).
        split; [now apply in_map|]. apply key_eqb_refl. now apply Hcomplete. }
      destruct (List.filter (fun k' => key_eqb k' k) (List.map fst rows));
        [contradiction | simpl; lia]. }
    rewrite group_cells_length. exact Hpos. }
  split.
  { rewrite (map_ext _ (group_size (List.map fst rows)))
      by (intros k; apply group_cells_length).
    rewrite group_sizes_sum; auto.
    - unfold rows. now rewrite !length_map.
    - intros k Hk. apply in_map_iff in Hk as (r & <- & Hr). now apply Hcov. }
  split.
  { intros g Hg. apply in_map_iff in Hg as (k & <- & Hk).
    destruct (Hkey k Hk) as (x & Hx & ->). exact Hx. }
  split.
  { intros x Hx. destruct (Hcov ([x], x)) as (k & Hk & Ek);
      [unfold rows; now apply (in_map (fun x => ([x], x)))|].
    exists (List.nth 0 k CNull).
    split; [exact (in_map (fun k => List.nth 0 k CNull) keys k Hk)|].
    destruct (Hkey k Hk) as (g & _ & ->). simpl in *. now rewrite andb_true_r in Ek. }
  assert (Hpairs : forall l, List.NoDup l -> (forall k, In k l -> In k keys) ->
                     ForallOrdPairs (fun g g' => cell_eqb g g' = false)
                       (List.map (fun k => List.nth 0 k CNull) l)).
  { induction 1 as [|k l Hk Hl IH]; intros Hsub; simpl; constructor.
    - apply List.Forall_forall. intros g' Hg'. apply in_map_iff in Hg' as (k' & <- & Hk').
      destruct (Hkey k (Hsub k (or_introl eq_refl))) as (x & _ & ->).
      destruct (Hkey k' (Hsub k' (or_intror Hk'))) as (x' & _ & ->). simpl.
      destruct (cell_eqb x x') eqn:E; [| reflexivity].
      assert (E' : [x] = [x']).
      { apply Huniq; [apply Hsub; now left | apply Hsub; now right |].
        simpl. now rewrite E. }
      rewrite <- E' in Hk'. contradiction.
    - apply IH. intros k' Hk'. apply Hsub. now right. }
  apply Hpairs; auto.
Qed.

Lemma get_series_singleton name dt cells :
  get_series name [Col name dt cells] = Ok (Col name dt cells).
Proof. unfold get_series, cols_named. simpl. now rewrite String.eqb_refl. Qed.

(** X21. The pie chart counts every value once.  For a label that one
    column of the table bears, that is not [count] and whose column holds
    a value, [_create_pie_chart] returns a figure over a table of two
    columns: the distinct values of the column, nulls left out, and for
    each the number of cells that hold it.  Each count is at least 1, and
    the counts add up to the number of cells of the column that are not
    null. *)
Theorem pie_chart_counts (h : heap) (df : loc) (d : dataframe) (spec : pydict)
    (x : string) (s : column) :
  h !! df = Some d ->
  get spec "x_axis" = VStr x -> is_empty x = false -> String.eqb x "count" = false ->
  get_series x d = Ok s -> has_value s ->
  let cells := List.filter (fun c => negb (is_null c)) (col_cells s) in
  exists fig groups counts,
    fst (_create_pie_chart df spec h) = Ok fig
    /\ fig_kind fig = "pie"
    /\ fig_data fig
       = FromFrame [Col x (col_dtype s) groups;
                    Col "count" DInt64
                      (List.map (fun n => CNum (inject_Z (Z.of_nat n))) counts)]
    /\ length groups = length counts
    /\ Forall (fun n => (0 < n)%nat) counts
    /\ list_sum counts = length cells
    /\ (forall g, In g groups -> In g cells)
    /\ (forall c, In c cells -> exists g, In g groups /\ cell_eqb c g = true)
    /\ ForallOrdPairs (fun g g' => cell_eqb g g' = false) groups.
Proof.
  intros Hd Hx Hne Hcount Hs Hv cells.
  destruct (groupby_size_single x (col_dtype s) cells
              (filter_not_null (col_cells s)) Hcount)
    as (groups & counts & Eg & Hlen & Hpos & Hsum & Hin & Hcov & Hdist).
  exists (Figure "pie"
            (FromFrame [Col x (col_dtype s) groups;
                        Col "count" DInt64
                          (List.map (fun n => CNum (inject_Z (Z.of_nat n))) counts)])
            [("names", VStr x); ("values", VStr "count");
             ("title", get_default spec "title" (VStr "Pie Chart"))] []),
    groups, counts.
  split; [| repeat split; auto].
  unfold _create_pie_chart. rewrite Hx. cbn [truthy]. rewrite Hne. cbn [negb].
  unfold rewrapM, try_except.
  destruct (run_prepare_data h df d [VStr x] false Hd) as (ext & r & Ep & Hres).
  rewrite (prepare_result_single x d s Hs Hv), (get_series_name x d s Hs) in Hres.
  fold cells in Hres. destruct Hres as (l & -> & Hl).
  unfold bindM at 1. rewrite Ep.
  unfold bindM at 1. rewrite (run_load _ _ _ Hl).
  unfold bindM at 1, lift at 1. cbn [by_columns label_of].
  rewrite get_series_singleton. cbn [bind].
  unfold bindM at 1, lift at 1. cbn [col_cells].
  unfold bindM at 1, lift at 1. rewrite Eg.
  unfold bindM at 1, alloc.
  unfold px_plot, bindM. rewrite run_load_new.
  cbn [forallb col_names List.map col_name str_in].
  rewrite String.eqb_refl. change (String.eqb "count" "count") with true.
  cbn [orb andb]. rewrite orb_true_r. reflexivity.
Qed.

Lemma pie_chart_counts_witness :
  exists fig groups counts,
    fst (_create_pie_chart 0%nat [("x_axis", VStr "region")] [sales_table]) = Ok fig
    /\ fig_kind fig = "pie"
    /\ fig_data fig
       = FromFrame [Col "region" DObject groups;
                    Col "count" DInt64
                      (List.map (fun n => CNum (inject_Z (Z.of_nat n))) counts)]
    /\ length groups = length counts
    /\ Forall (fun n => (0 < n)%nat) counts
    /\ list_sum counts = 5%nat
    /\ (forall g, In g groups ->
          In g [CStr "north"; CStr "south"; CStr "north"; CStr "east"; CStr "south"])
    /\ (forall c,
          In c [CStr "north"; CStr "south"; CStr "north"; CStr "east"; CStr "south"] ->
          exists g, In g groups /\ cell_eqb c g = true)
    /\ ForallOrdPairs (fun g g' => cell_eqb g g' = false) groups.
Proof.
  apply (pie_chart_counts [sales_table] 0%nat sales_table [("x_axis", VStr "region")]
           "region"
           (Col "region" DObject
              [CStr "north"; CStr "south"; CStr "north"; CStr "east"; CStr "south"])
           eq_refl eq_refl eq_refl eq_refl eq_refl).
  exists (CStr "north"). split; [now left | reflexivity].
Defined.

(** ** The bar chart of counts *)

Lemma insert_count_perm r l : Permutation (insert_count r l) (r :: l).
Proof.
  induction l as [|r' l IH]; simpl; [reflexivity|].
  destruct (snd r' <=? snd r)%nat; [reflexivity|].
  rewrite IH. apply perm_swap.
Qed.

Lemma sort_counts_perm l : Permutation (List.fold_right insert_count [] l) l.
Proof.
  induction l as [|r l IH]; simpl; [reflexivity|].
  rewrite insert_count_perm. now constructor.
Qed.

Lemma nonincreasing_cons a l :
  nonincreasing (a :: l) = true
  <-> (match l with [] => True | b :: _ => (b <= a)%nat end) /\ nonincreasing l = true.
Proof.
  destruct l as [|b l]; simpl; [tauto|].
  rewrite andb_true_iff, Nat.leb_le. tauto.
Qed.

Lemma insert_count_sorted r l :
  nonincreasing (List.map snd l) = true ->
  nonincreasing (List.map snd (insert_count r l)) = true.
Proof.
  induction l as [|r' l IH]; intros Hl; [reflexivity|].
  cbn [insert_count]. destruct (Nat.leb_spec (snd r') (snd r)) as [Hle | Hgt].
  - cbn [List.map]. apply nonincreasing_cons. split; [exact Hle | exact Hl].
  - cbn [List.map] in *. apply nonincreasing_cons in Hl as [Hhd Htl].
    apply nonincreasing_cons. split; [| now apply IH].
    destruct l as [|r'' l]; cbn [insert_count List.map]; [lia|].
    destruct (snd r'' <=? snd r)%nat; cbn [List.map]; [lia | exact Hhd].
Qed.

Lemma sort_counts_sorted l :
  nonincreasing (List.map snd (List.fold_right insert_count [] l)) = true.
Proof.
  induction l as [|r l IH]; simpl; [reflexivity|]. now apply insert_count_sorted.
Qed.

Lemma filter_map_commute {A B} (f : A -> B) (P : B -> bool) l :
  List.filter P (List.map f l) = List.map f (List.filter (fun x => P (f x)) l).
Proof.
  induction l as [|x l IH]; simpl; [reflexivity|].
  destruct (P (f x)); simpl; now rewrite IH.
Qed.

Lemma list_sum_perm l l' : Permutation l l' -> list_sum l = list_sum l'.
Proof. induction 1; simpl; lia. Qed.

(** What [value_counts] returns for a column without nulls. *)
Lemma value_counts_spec name dt cells :
  (forall x, In x cells -> is_null x = false) ->
  exists values counts,
    value_counts (Col name dt cells)
    = [Col name dt values;
       Col "count" DInt64 (List.map (fun n => CNum (inject_Z (Z.of_nat n))) counts)]
    /\ length values = length counts
    /\ nonincreasing counts = true
    /\ Forall (fun n => (0 < n)%nat) counts
    /\ list_sum counts = length cells
    /\ (forall v, In v values -> In v cells)
    /\ (forall x, In x cells -> exists v, In v values /\ cell_eqb x v = true).
Proof.
  intros Hn. unfold value_counts. cbn [col_cells col_name col_dtype].
  rewrite (filter_all (fun c => negb (is_null c)) cells)
    by (intros x Hx; now rewrite (Hn x Hx)).
  set (keys := List.map (fun c => [c]) cells).
  assert (Hcomplete : forall k, In k keys -> complete k = true).
  { intros k Hk. apply in_map_iff in Hk as (x & <- & Hx). unfold complete. simpl.
    now rewrite (Hn x Hx). }
  destruct (dedup_keys_distinct keys Hcomplete) as [Hnd Huniq].
  pose proof (dedup_keys_cover keys Hcomplete) as Hcov.
  set (counted := List.map (fun k => (List.nth 0 k CNull,
                                      length (List.filter (fun c => key_eqb [c] k) cells)))
                    (dedup_keys keys)).
  set (sorted := List.fold_right insert_count [] counted).
  pose proof (sort_counts_perm counted) as Hperm. fold sorted in Hperm.
  exists (List.map fst sorted), (List.map snd sorted).
  split; [now rewrite map_map|]. split; [now rewrite !length_map|].
  split; [apply sort_counts_sorted|].
  assert (Hsize : forall k, length (List.filter (fun c => key_eqb [c] k) cells)
                            = group_size keys k).
  { intros k. unfold group_size, keys.
    now rewrite (filter_map_commute (fun c => [c]) (fun k' => key_eqb k' k)), length_map. }
  split.
  { apply List.Forall_forall. intros n Hin. apply in_map_iff in Hin as (r & <- & Hr).
    apply (Permutation_in _ Hperm) in Hr. apply in_map_iff in Hr as (k & <- & Hk).
    cbn [snd]. rewrite Hsize. unfold group_size.
    assert (Hkk : In k (List.filter (fun k' => key_eqb k' k) keys)).
    { apply filter_In. split; [now apply dedup_keys_In|].
      apply key_eqb_refl, Hcomplete. now apply dedup_keys_In. }
    destruct (List.filter (fun k' => key_eqb k' k) keys); [contradiction | simpl; lia]. }
  split.
  { rewrite (list_sum_perm _ _ (Permutation_map snd Hperm)). unfold counted.
    rewrite map_map. cbn [snd].
    rewrite (map_ext _ (group_size keys)) by exact Hsize.
    rewrite group_sizes_sum; auto. unfold keys. apply length_map. }
  split.
  { intros v Hv. apply in_map_iff in Hv as (r & <- & Hr).
    apply (Permutation_in _ Hperm) in Hr. apply in_map_iff in Hr as (k & <- & Hk).
    apply dedup_keys_In in Hk. apply in_map_iff in Hk as (x & <- & Hx). exact Hx. }
  intros x Hx. destruct (Hcov [x]) as (k & Hk & Ek);
    [unfold keys; now apply (in_map (fun c => [c]))|].
  exists (List.nth 0 k CNull). split.
  - apply in_map_iff. exists (List.nth 0 k CNull,
                               length (List.filter (fun c => key_eqb [c] k) cells)).
    split; [reflexivity|]. apply (Permutation_in _ (Permutation_sym Hperm)).
    unfold counted. apply in_map_iff. exists k. split; [reflexivity | exact Hk].
  - pose proof (dedup_keys_In _ _ Hk) as Hk'. apply in_map_iff in Hk' as (v & <- & _).
    simpl in *. now rewrite andb_true_r in Ek.
Qed.

(** X22. Without a [y_axis], the bar builder draws the table of counts of
    the non-null values of the [x_axis] column (a column not itself called
    [count]): one row for each distinct
    value, beside the number of rows that carry it, the numbers in
    non-increasing order; the numbers are positive and add up to the number of
    non-null cells of the column. *)
Theorem bar_chart_counts (h : heap) (df : loc) (d : dataframe) (spec : pydict)
    (x : string) (s : column) :
  h !! df = Some d ->
  get spec "x_axis" = VStr x -> is_empty x = false -> String.eqb x "count" = false ->
  truthy (get spec "y_axis") = false ->
  get_series x d = Ok s -> has_value s ->
  let cells := List.filter (fun c => negb (is_null c)) (col_cells s) in
  exists fig values counts,
    fst (_create_bar_chart df spec h) = Ok fig
    /\ fig_kind fig = "bar"
    /\ fig_data fig
       = FromFrame [Col x (col_dtype s) values;
                    Col "count" DInt64
                      (List.map (fun n => CNum (inject_Z (Z.of_nat n))) counts)]
    /\ length values = length counts
    /\ nonincreasing counts = true
    /\ Forall (fun n => (0 < n)%nat) counts
    /\ list_sum counts = length cells
    /\ (forall v, In v values -> In v cells)
    /\ (forall c, In c cells -> exists v, In v values /\ cell_eqb c v = true).
Proof.
  intros Hd Hx Hne Hcount Hy Hs Hv cells.
  destruct (value_counts_spec x (col_dtype s) cells (filter_not_null (col_cells s)))
    as (values & counts & Ev & Hlen & Hsorted & Hpos & Hsum & Hin & Hcov).
  exists (Figure "bar"
            (FromFrame [Col x (col_dtype s) values;
                        Col "count" DInt64
                          (List.map (fun n => CNum (inject_Z (Z.of_nat n))) counts)])
            [("x", VStr "count"); ("y", VStr x); ("orientation", VStr "h");
             ("title", get_default spec "title" (VStr "Bar Chart"))] []),
    values, counts.
  split; [| repeat split; auto].
  unfold _create_bar_chart. rewrite Hx, Hy. cbn [truthy]. rewrite Hne. cbn [negb].
  unfold rewrapM, try_except.
  destruct (run_prepare_data h df d [VStr x] false Hd) as (ext & r & Ep & Hres).
  rewrite (prepare_result_single x d s Hs Hv), (get_series_name x d s Hs) in Hres.
  fold cells in Hres. destruct Hres as (l & -> & Hl).
  unfold bindM at 1. rewrite Ep.
  unfold bindM at 1. rewrite (run_load _ _ _ Hl).
  unfold bindM at 1, lift at 1. cbn [label_of].
  rewrite get_series_singleton. cbn [bind].
  unfold bindM at 1, alloc. rewrite Ev.
  unfold bindM at 1. rewrite run_load_new.
  unfold bindM at 1, store.
  rewrite (insert_app_r_alt (h ++ ext) _ (length (h ++ ext)) _ (le_n _)).
  rewrite Nat.sub_diag. cbn [rename_columns col_dtype col_cells].
  change (<[0%nat := ?a]> [?b]) with [a].
  unfold px_plot, bindM. rewrite run_load_new.
  cbn [forallb col_names List.map col_name str_in].
  rewrite (String.eqb_refl x). cbn [orb andb].
  change (String.eqb "count" "count") with true. rewrite orb_true_r. reflexivity.
Qed.

Lemma bar_chart_counts_witness :
  exists fig values counts,
    fst (_create_bar_chart 0%nat [("x_axis", VStr "region")] [sales_table]) = Ok fig
    /\ fig_kind fig = "bar"
    /\ fig_data fig
       = FromFrame [Col "region" DObject values;
                    Col "count" DInt64
                      (List.map (fun n => CNum (inject_Z (Z.of_nat n))) counts)]
    /\ length values = length counts
    /\ nonincreasing counts = true
    /\ Forall (fun n => (0 < n)%nat) counts
    /\ list_sum counts = 5%nat
    /\ (forall v, In v values ->
          In v [CStr "north"; CStr "south"; CStr "north"; CStr "east"; CStr "south"])
    /\ (forall c,
          In c [CStr "north"; CStr "south"; CStr "north"; CStr "east"; CStr "south"] ->
          exists v, In v values /\ cell_eqb c v = true).
Proof.
  apply (bar_chart_counts [sales_table] 0%nat sales_table [("x_axis", VStr "region")]
           "region"
           (Col "region" DObject
              [CStr "north"; CStr "south"; CStr "north"; CStr "east"; CStr "south"])
           eq_refl eq_refl eq_refl eq_refl eq_refl eq_refl).
  exists (CStr "north"). split; [now left | reflexivity].
Defined.

